(** * Portfolio backend: request handlers over the datastore, the identity
      provider and the GitHub API

    A shallow embedding of the route handlers under [src/app/api] and of the
    helpers under [src/lib] they call.  The datastore tables are lists of
    rows, the outside services (identity provider, GitHub, clock, datastore
    faults) are an environment record, and every handler is a computation in
    a small state-and-exception monad whose state holds the tables and the
    trace of outbound calls.

    The handlers run on the framework version whose middleware file is
    [src/proxy.ts].  There [headers()] of [next/headers] and the [params] of
    a route handler are Promises: [lib/auth.ts] calls the first without
    awaiting it, and the metadata and attachment routes read [params.id]
    without awaiting the second, while the documentation route awaits it.
    The model follows the code in both. *)

From Stdlib Require Import String Ascii List ZArith Lia Bool Permutation.
From Stdlib Require Import DecimalString.
Import ListNotations.
Local Open Scope string_scope.
Local Open Scope Z_scope.

Set Implicit Arguments.

(* ================================================================== *)
(** ** Strings as the handlers use them *)
(* ================================================================== *)

Module Str.

(** [x ?? d] *)
Definition nullish {A} (x : option A) (d : A) : A :=
  match x with Some v => v | None => d end.

(** A string is falsy in JS exactly when it is empty. *)
Definition truthy (s : string) : bool :=
  match s with EmptyString => false | String _ _ => true end.

(** [a || b] on strings. *)
Definition or_else (a b : string) : string := if truthy a then a else b.

(** ASCII part of [String.prototype.toLowerCase]. *)
Definition lower_ascii (c : ascii) : ascii :=
  let n := nat_of_ascii c in
  if (Nat.leb 65 n && Nat.leb n 90)%bool then ascii_of_nat (n + 32) else c.

Fixpoint toLowerCase (s : string) : string :=
  match s with
  | EmptyString => EmptyString
  | String c r => String (lower_ascii c) (toLowerCase r)
  end.

(** [s.split(sep)] for a one-character separator. *)
Fixpoint split (sep : ascii) (s : string) : list string :=
  match s with
  | EmptyString => [EmptyString]
  | String c r =>
      if Ascii.eqb c sep then EmptyString :: split sep r
      else match split sep r with
           | [] => [String c EmptyString]
           | w :: ws => String c w :: ws
           end
  end.

(** [hay.includes(needle)] *)
Fixpoint includes (hay needle : string) : bool :=
  if String.prefix needle hay then true
  else match hay with
       | EmptyString => false
       | String _ r => includes r needle
       end.

(** [s.length]: the number of UTF-16 code units of the text whose UTF-8
    bytes are [s].  A continuation byte adds nothing, the lead byte of a
    four-byte character stands for a surrogate pair. *)
Definition code_units (c : ascii) : nat :=
  let n := nat_of_ascii c in
  if Nat.ltb n 128 then 1
  else if Nat.ltb n 192 then 0
  else if Nat.ltb n 240 then 1
  else 2.

Fixpoint length (s : string) : nat :=
  match s with
  | EmptyString => 0
  | String c r => code_units c + length r
  end.

(** Template-literal rendering of a non-negative status number. *)
Definition of_Z (z : Z) : string := NilZero.string_of_int (Z.to_int z).

End Str.

(* ================================================================== *)
(** ** JSON request bodies *)
(* ================================================================== *)

#[local] Unset Elimination Schemes.
Inductive Json :=
| JNull
| JBool (b : bool)
| JNum (z : Z)
| JStr (s : string)
| JArr (l : list Json)
| JObj (l : list (string * Json)).
#[local] Set Elimination Schemes.

Fixpoint assoc {A} (k : string) (l : list (string * A)) : option A :=
  match l with
  | [] => None
  | (k', v) :: r => if String.eqb k k' then Some v else assoc k r
  end.

(** Property read [o.k]; [None] is [undefined]. *)
Definition field (k : string) (j : Json) : option Json :=
  match j with JObj l => assoc k l | _ => None end.

(* ================================================================== *)
(** ** Data model (rows of the five tables, GitHub payloads) *)
(* ================================================================== *)

Inductive Role := developer | expert.

Record ProfileRow := {
  profile_id : string;
  profile_username : option string;
  profile_full_name : option string;
  profile_role : option Role;
  profile_avatar_url : option string
}.

Record TokenRow := {
  token_user_id : string;
  token_github_token : option string;
  token_github_id : Z;
  token_username : string;
  token_email : option string;
  token_avatar_url : option string;
  token_profile_url : string;
  token_updated_at : string
}.

Record GithubApiUser := {
  ghu_id : Z;
  ghu_login : string;
  ghu_email : option string;
  ghu_avatar_url : option string;
  ghu_html_url : string;
  ghu_updated_at : option string
}.

Record GithubApiRepository := {
  repo_id : Z;
  repo_name : string;
  repo_full_name : string;
  repo_html_url : string;
  repo_description : option string;
  repo_private : bool;
  repo_fork : bool;
  repo_language : option string;
  repo_stargazers_count : option Z;
  repo_watchers_count : option Z;
  repo_forks_count : option Z;
  repo_owner : option string;        (* owner?.login *)
  repo_created_at : option string;
  repo_updated_at : option string;
  repo_pushed_at : option string;
  repo_default_branch : option string;
  repo_open_issues_count : option Z;
  repo_visibility : option string
}.

(** The [record] object [POST /api/projects] hands to the upsert. *)
Record ImportRecord := {
  user_id : option string;
  github_repo_id : Z;
  repository_full_name : string;
  name : string;
  description : option string;
  html_url : string;
  private : bool;
  fork : bool;
  language : option string;
  stars : Z;
  forks : Z;
  watchers : Z;
  open_issues : Z;
  visibility : option string;
  owner_username : option string;
  default_branch : option string;
  pushed_at : option string;
  created_at_github : option string;
  updated_at_github : option string;
  last_synced_at : string
}.

Inductive ProjectStatus := draft | in_review | published.

(** The columns the metadata PATCH edits. *)
Record ProjectMeta := {
  notes : option string;
  tags : list string;
  status : option ProjectStatus;
  updated_at : option string
}.

(** A row of [projects]: the datastore's own key, the imported columns and
    the user-editable ones. *)
Record ProjectRow := {
  project_id : string;
  project_import : ImportRecord;
  project_meta : ProjectMeta
}.

Definition project_user_id (p : ProjectRow) : option string :=
  user_id (project_import p).
Definition project_repo_id (p : ProjectRow) : Z := github_repo_id (project_import p).

Record DocumentationRow := {
  doc_project_id : string;
  doc_content : option Json;
  doc_content_text : option string;
  doc_updated_at : string;
  doc_updated_by : string
}.

Record AttachmentRow := {
  att_id : string;
  att_project_id : string;
  att_file_name : string;
  att_file_path : string;
  att_file_url : option string;
  att_content_type : string;
  att_size : Z;
  att_created_at : string
}.

Record GithubContributionDayApi := {
  date : string;
  contributionCount : Z
}.

Record GithubContributionWeekApi := {
  contributionDays : list GithubContributionDayApi
}.

Record GithubContributionCalendarApi := {
  totalContributions : Z;
  weeks : option (list GithubContributionWeekApi)
}.

(** [data?.viewer?.contributionsCollection?.contributionCalendar]: every
    level of the response may be absent. *)
Record GithubContributionsResponse := {
  contributionCalendar : option GithubContributionCalendarApi
}.

(* ================================================================== *)
(** ** The datastore, the outside world and the handler monad *)
(* ================================================================== *)

Record Db := {
  profiles : list ProfileRow;
  user_tokens : list TokenRow;
  projects : list ProjectRow;
  project_documentation : list DocumentationRow;
  project_documents : list AttachmentRow;
  storage : list (string * string)          (* bucket: path, content type *)
}.

Inductive Table :=
| t_profiles | t_user_tokens | t_projects
| t_project_documentation | t_project_documents.

Inductive Verb := v_select | v_upsert | v_insert | v_update.

(** Outbound calls, in the order the handler makes them. *)
Inductive Event :=
| EvGetUser (token : string)                 (* adminClient.auth.getUser *)
| EvQuery (t : Table) (v : Verb)             (* adminClient.from(t).v(...) *)
| EvFetch (url token : string)               (* fetch to api.github.com *)
| EvUpload (path : string).                  (* bucket.upload *)

Record World := {
  db : Db;
  trace : list Event
}.

(** [{ data, error }] of a datastore call. *)
Record DbError := {
  db_message : string;
  db_code : option string
}.

Inductive DbResult (A : Type) :=
| DbOk (data : A)
| DbErr (error : DbError).
Arguments DbOk {A} data.
Arguments DbErr {A} error.

(** [.maybeSingle()]: no row is [null], one row is the row, more rows are
    the PostgREST error PGRST116. *)
Definition maybeSingle {A} (rows : list A) : DbResult (option A) :=
  match rows with
  | [] => DbOk None
  | [r] => DbOk (Some r)
  | _ :: _ :: _ =>
      DbErr {| db_message := "JSON object requested, multiple (or no) rows returned";
               db_code := Some "PGRST116" |}
  end.

Record SupabaseUser := {
  uid : string;
  email : option string;
  user_name : option string                  (* user_metadata?.user_name *)
}.

(** [{ data: { user }, error }] of [auth.getUser]. *)
Record IdpReply := {
  idp_error : option string;
  idp_user : option SupabaseUser
}.

Record HttpResponse (T : Type) := {
  resp_status : Z;
  resp_text : string;                        (* response.text() *)
  resp_json : option T                       (* response.json(); None: it throws *)
}.

Definition resp_ok {T} (r : HttpResponse T) : bool :=
  (200 <=? resp_status r) && (resp_status r <=? 299).

Record Env := {
  idp_getUser : string -> IdpReply;
  gh_user : string -> string -> HttpResponse GithubApiUser;
  gh_repo : string -> string -> HttpResponse GithubApiRepository;
  gh_graphql : string -> string -> HttpResponse GithubContributionsResponse;
  db_fault : Table -> Verb -> option DbError;
  storage_fault : string -> option DbError;
  public_url : string -> option string;
  now_iso : string;                          (* new Date().toISOString() *)
  uploaded_path : string -> option string;   (* uploadData?.path of bucket.upload *)
  date_now : nat -> Z;                       (* Date.now(), n-th call of a request *)
  gen_uuid : nat -> string;                  (* key default of the n-th insert *)
  default_meta : ProjectMeta;                (* column defaults of projects *)
  zod_message : string;                      (* text of a ZodError *)
  syntax_message : string                    (* text of a body-parsing error *)
}.

Inductive ErrClass := AuthError | PlainError | ZodError | SyntaxError | TypeError.

(** A thrown JS error: its class, its message and its [status] property when
    it has a numeric one. *)
Record Err := {
  err_class : ErrClass;
  err_message : string;
  err_status : option Z
}.

Inductive Res (A : Type) :=
| Ok (a : A)
| Throw (e : Err).
Arguments Ok {A} a.
Arguments Throw {A} e.

Definition M (A : Type) : Type := World -> Res A * World.

Definition ret {A} (a : A) : M A := fun w => (Ok a, w).

Definition bind {A B} (m : M A) (k : A -> M B) : M B :=
  fun w => match m w with
           | (Ok a, w') => k a w'
           | (Throw e, w') => (Throw e, w')
           end.

Definition throw {A} (e : Err) : M A := fun w => (Throw e, w).

Declare Scope handler_scope.
Delimit Scope handler_scope with handler.
Notation "x <- m ;; k" := (bind m (fun x => k))
  (at level 61, m at next level, right associativity) : handler_scope.
Notation "m ;;; k" := (bind m (fun _ => k))
  (at level 61, right associativity) : handler_scope.
Local Open Scope handler_scope.

Definition log (e : Event) (w : World) : World :=
  {| db := db w; trace := (trace w ++ [e])%list |}.

Definition emit (e : Event) : M unit := fun w => (Ok tt, log e w).

(** The calls made between two worlds of one run. *)
Definition issued (before after : World) : list Event :=
  skipn (List.length (trace before)) (trace after).

(** [new Error(msg)] *)
Definition Error (msg : string) : Err :=
  {| err_class := PlainError; err_message := msg; err_status := None |}.

(** [new AuthError(msg, status)] *)
Definition new_AuthError (msg : string) (st : Z) : Err :=
  {| err_class := AuthError; err_message := msg; err_status := Some st |}.

(** [Object.assign(new Error(msg), { status })] *)
Definition Error_with_status (msg : string) (st : Z) : Err :=
  {| err_class := PlainError; err_message := msg; err_status := Some st |}.

(** One datastore round trip: it is logged, the environment may make it fail
    (then nothing is read or written), otherwise [run] reads or writes the
    tables. *)
Definition query {A} (env : Env) (t : Table) (v : Verb)
    (run : Db -> DbResult A * Db) : M (DbResult A) :=
  fun w =>
    let w1 := log (EvQuery t v) w in
    match db_fault env t v with
    | Some e => (Ok (DbErr e), w1)
    | None => let (r, d) := run (db w1) in (Ok r, {| db := d; trace := trace w1 |})
    end.

Definition select {A} (env : Env) (t : Table) (read : Db -> DbResult A)
    : M (DbResult A) :=
  query env t v_select (fun d => (read d, d)).

(* ================================================================== *)
(** ** [lib/response.ts] and the handlers' catch block *)
(* ================================================================== *)

Record StandardResponse (T : Type) := {
  success : bool;
  data : option T;
  error : option string;
  status_code : Z
}.

Definition standardResponse {T} (ok : bool) (d : option T) (statusCode : Z)
    (err : option string) : StandardResponse T :=
  {| success := ok;
     data := if ok then d else None;
     error := if ok then None
              else Some (Str.or_else (Str.nullish err "") "Unexpected error");
     status_code := statusCode |}.

(** What [NextResponse.json(body, init)] puts on the wire. *)
Record NextResponse (T : Type) := {
  http_status : Z;
  body : StandardResponse T
}.

Definition json {T} (b : StandardResponse T) (init : option Z) : NextResponse T :=
  {| http_status := Str.nullish init 200; body := b |}.

(** The [catch (error)] block every handler ends with. *)
Definition on_error {T} (e : Err) : NextResponse T :=
  let status := Str.nullish (err_status e) 500 in
  json (standardResponse false None status (Some (err_message e))) (Some status).

(** [try { ... } catch (error) { ... }] around a handler body. *)
Definition try_catch {T} (m : M (NextResponse T)) : World -> NextResponse T * World :=
  fun w => match m w with
           | (Ok r, w') => (r, w')
           | (Throw e, w') => (on_error e, w')
           end.

(* ================================================================== *)
(** ** Requests *)
(* ================================================================== *)

Record File := {
  file_name : string;
  file_type : string;
  file_size : Z
}.

Record NextRequest := {
  authorization : option string;             (* headers.get("authorization") *)
  body_json : option Json;                   (* request.json(); None: it throws *)
  searchParams : list (string * string);
  form_files : option (list File)            (* formData().getAll("files"), Files only;
                                                None: formData() throws *)
}.

Definition request_json (env : Env) (req : NextRequest) : M Json :=
  match body_json req with
  | Some j => ret j
  | None => throw {| err_class := SyntaxError;
                     err_message := syntax_message env;
                     err_status := None |}
  end.

(** [await request.formData()], then [getAll("files")] filtered to Files. *)
Definition request_formData (env : Env) (req : NextRequest) : M (list File) :=
  match form_files req with
  | Some files => ret files
  | None => throw {| err_class := TypeError;
                     err_message := syntax_message env;
                     err_status := None |}
  end.

(** [schema.parse] on an input the schema rejects: a ZodError, which carries
    its issues and a message but no [status] property. *)
Definition zod_fail {A} (env : Env) : M A :=
  throw {| err_class := ZodError; err_message := zod_message env; err_status := None |}.

(* ================================================================== *)
(** ** [lib/auth.ts] *)
(* ================================================================== *)

Definition extractBearerToken (authHeader : option string) : option string :=
  match authHeader with
  | None => None
  | Some h =>
      if negb (Str.truthy h) then None
      else match Str.split " " h with
           | scheme :: token :: _ =>
               if negb (String.eqb (Str.toLowerCase scheme) "bearer")
                  || negb (Str.truthy token)
               then None else Some token
           | _ => None
           end
  end.

(** [headers()] of [next/headers] returns a Promise on the framework version
    this repository is written for (the one whose middleware file is
    [proxy.ts]), and [getTokenFromRequest] does not await it: [headerList] is
    that Promise, it has no [get], and the call throws. *)
Definition headerList_get {A} : M A :=
  throw {| err_class := TypeError;
           err_message := "headerList.get is not a function";
           err_status := None |}.

Definition getTokenFromRequest (req : option NextRequest) : M (option string) :=
  match match req with
        | Some r => extractBearerToken (authorization r)
        | None => None
        end with
  | Some token => ret (Some token)
  | None =>
      authHeader <- headerList_get ;;
      match extractBearerToken authHeader with
      | Some headerToken => ret (Some headerToken)
      | None => ret None
      end
  end.

Definition assertSupabaseUser (env : Env) (req : option NextRequest) : M SupabaseUser :=
  token <- getTokenFromRequest req ;;
  match token with
  | None => throw (new_AuthError "Missing Authorization header" 401)
  | Some accessToken =>
      emit (EvGetUser accessToken) ;;;
      let reply := idp_getUser env accessToken in
      match idp_error reply, idp_user reply with
      | None, Some user => ret user
      | e, _ => throw (new_AuthError (Str.nullish e "Invalid or expired token") 401)
      end
  end.

(* ================================================================== *)
(** ** [lib/profiles.ts] *)
(* ================================================================== *)

(** [from("profiles").select(...).eq("id", userId).maybeSingle()] *)
Definition select_profile (userId : string) (d : Db) : DbResult (option ProfileRow) :=
  maybeSingle (filter (fun p => String.eqb (profile_id p) userId) (profiles d)).

Definition getProfileByUserId (env : Env) (userId : string) : M (option ProfileRow) :=
  r <- select env t_profiles (select_profile userId) ;;
  match r with
  | DbErr e => throw (Error (db_message e))
  | DbOk row => ret row
  end.

(* ================================================================== *)
(** ** [lib/github-token.ts] *)
(* ================================================================== *)

(** [from("user_tokens").select("github_token").eq("user_id", userId).maybeSingle()] *)
Definition select_github_token (userId : string) (d : Db)
    : DbResult (option (option string)) :=
  maybeSingle (map token_github_token
                 (filter (fun t => String.eqb (token_user_id t) userId)
                         (user_tokens d))).

Definition getGithubTokenForUser (env : Env) (userId : string) : M string :=
  r <- select env t_user_tokens (select_github_token userId) ;;
  match r with
  | DbErr e => throw (Error (db_message e))
  | DbOk (Some (Some tok)) =>
      if Str.truthy tok then ret tok
      else throw (Error "GitHub token not found for user")
  | DbOk _ => throw (Error "GitHub token not found for user")
  end.

(* ================================================================== *)
(** ** [lib/github.ts] *)
(* ================================================================== *)

Definition GITHUB_API : string := "https://api.github.com".

Definition githubRequest {T} (env : Env)
    (fetch : string -> string -> HttpResponse T) (path token : string) : M T :=
  let url := GITHUB_API ++ path in
  emit (EvFetch url token) ;;;
  let response := fetch url token in
  if negb (resp_ok response) then
    let message := resp_text response in
    throw (Error (Str.or_else message
                    ("GitHub request failed with " ++ Str.of_Z (resp_status response))))
  else match resp_json response with
       | Some v => ret v
       | None => throw {| err_class := SyntaxError;
                          err_message := syntax_message env;
                          err_status := None |}
       end.

Definition fetchGithubUser (env : Env) (token : string) : M GithubApiUser :=
  githubRequest env (gh_user env) "/user" token.

Definition fetchRepoByFullName (env : Env) (token fullName : string)
    : M GithubApiRepository :=
  githubRequest env (gh_repo env) ("/repos/" ++ fullName) token.

Definition fetchGithubContributions (env : Env) (token : string)
    : M GithubContributionsResponse :=
  let url := "https://api.github.com/graphql" in
  emit (EvFetch url token) ;;;
  let response := gh_graphql env url token in
  if negb (resp_ok response) then
    let message := resp_text response in
    throw (Error (Str.or_else message
                    ("GitHub GraphQL failed with " ++ Str.of_Z (resp_status response))))
  else match resp_json response with
       | Some v => ret v
       | None => throw {| err_class := SyntaxError;
                          err_message := syntax_message env;
                          err_status := None |}
       end.

(* ================================================================== *)
(** ** Datastore operations the handlers rely on *)
(* ================================================================== *)

(** [upsert(row, { onConflict })]: the row that conflicts on the key is
    rewritten in place, otherwise a new row is added. *)
Fixpoint upsert_with {A} (same : A -> bool) (merge : A -> A) (fresh : A)
    (rows : list A) : list A :=
  match rows with
  | [] => [fresh]
  | r :: rest =>
      if same r then merge r :: rest
      else r :: upsert_with same merge fresh rest
  end.

(** The row an upsert leaves behind, as [.select("*")] returns it. *)
Fixpoint upserted {A} (same : A -> bool) (merge : A -> A) (fresh : A)
    (rows : list A) : A :=
  match rows with
  | [] => fresh
  | r :: rest => if same r then merge r else upserted same merge fresh rest
  end.

(** [.order(col)] as a stable insertion sort on the comparison [le]. *)
Fixpoint insert_by {A} (le : A -> A -> bool) (x : A) (l : list A) : list A :=
  match l with
  | [] => [x]
  | y :: r => if le x y then x :: l else y :: insert_by le x r
  end.

Definition order_by {A} (le : A -> A -> bool) (l : list A) : list A :=
  fold_right (insert_by le) [] l.

(** Descending order on a nullable text column; nulls sort first. *)
Definition desc_text (a b : option string) : bool :=
  match a, b with
  | None, _ => true
  | Some _, None => false
  | Some x, Some y => String.leb y x
  end.

Definition opt_eqb (a : option string) (b : string) : bool :=
  match a with Some x => String.eqb x b | None => false end.

(** Zod readers for the fields of a parsed body; the outer [None] is a
    validation failure. *)
Definition z_string (j : option Json) : option string :=
  match j with Some (JStr s) => Some s | _ => None end.

Definition z_string_optional (j : option Json) : option (option string) :=
  match j with
  | None => Some None
  | Some (JStr s) => Some (Some s)
  | Some _ => None
  end.

Definition z_object (j : Json) : bool :=
  match j with JObj _ => true | _ => false end.

(* ================================================================== *)
(** ** [app/api/projects/[id]/documentation/route.ts] *)
(* ================================================================== *)

Record ProjectRef := {
  ref_id : string;
  ref_user_id : option string
}.

Definition project_ref (p : ProjectRow) : ProjectRef :=
  {| ref_id := project_id p; ref_user_id := project_user_id p |}.

(** [from("projects") ... .eq("id", projectId)] *)
Definition project_rows (projectId : string) (d : Db) : list ProjectRow :=
  filter (fun p => String.eqb (project_id p) projectId) (projects d).

(** [from("projects").select("id, user_id").eq("id", projectId).maybeSingle()] *)
Definition select_project_ref (projectId : string) (d : Db) : DbResult (option ProjectRef) :=
  maybeSingle (map project_ref (project_rows projectId d)).

Definition is_expert (profile : option ProfileRow) : bool :=
  match profile with
  | Some p => match profile_role p with Some expert => true | _ => false end
  | None => false
  end.

Module DocumentationRoute.

Record UpdatePayload := {
  content : option Json;
  content_text : option string
}.

(** [z.object({ content: z.unknown().optional(),
                content_text: z.string().max(20000).optional().nullable() })] *)
Definition updateSchema (j : Json) : option UpdatePayload :=
  if negb (z_object j) then None
  else
    let c := match field "content" j with
             | Some JNull | None => None
             | Some v => Some v
             end in
    match field "content_text" j with
    | None | Some JNull => Some {| content := c; content_text := None |}
    | Some (JStr s) =>
        if Z.of_nat (Str.length s) <=? 20000
        then Some {| content := c; content_text := Some s |} else None
    | Some _ => None
    end.

Record Access := {
  project : option ProjectRef;
  profile : option ProfileRow;
  isOwner : bool;
  isExpert : bool
}.

Definition ensureAccess (env : Env) (projectId userId : string) : M Access :=
  profile <- getProfileByUserId env userId ;;
  r <- select env t_projects (select_project_ref projectId) ;;
  match r with
  | DbErr e => throw (Error (db_message e))
  | DbOk None =>
      ret {| project := None; profile := profile;
             isOwner := false; isExpert := is_expert profile |}
  | DbOk (Some data) =>
      let isOwner := opt_eqb (ref_user_id data) userId in
      let isExpert := is_expert profile in
      if negb isOwner && negb isExpert
      then throw (Error_with_status "Not authorized" 403)
      else ret {| project := Some data; profile := profile;
                  isOwner := isOwner; isExpert := isExpert |}
  end.

Definition isTableMissing (error : DbError) : bool :=
  let normalizedMessage := Str.toLowerCase (db_message error) in
  opt_eqb (db_code error) "PGRST116"
  || opt_eqb (db_code error) "PGRST101"
  || Str.includes normalizedMessage "could not find the table"
  || Str.includes normalizedMessage "relationship 'project_documentation'".

Definition select_documentation (id : string) (d : Db)
    : DbResult (option DocumentationRow) :=
  maybeSingle (filter (fun r => String.eqb (doc_project_id r) id)
                      (project_documentation d)).

Definition GET_body (env : Env) (request : NextRequest) (id : string)
    : M (NextResponse (option DocumentationRow)) :=
  user <- assertSupabaseUser env (Some request) ;;
  a <- ensureAccess env id (uid user) ;;
  match project a with
  | None => ret (json (standardResponse false None 404 (Some "Project not found"))
                      (Some 404))
  | Some _ =>
      r <- select env t_project_documentation (select_documentation id) ;;
      match r with
      | DbErr error =>
          if isTableMissing error
          then ret (json (standardResponse true (Some None) 200 None) None)
          else throw (Error (db_message error))
      | DbOk data => ret (json (standardResponse true (Some data) 200 None) None)
      end
  end.

Definition GET (env : Env) (request : NextRequest) (id : string) :=
  try_catch (GET_body env request id).

Definition upsert_documentation (row : DocumentationRow) (d : Db)
    : DbResult (option DocumentationRow) * Db :=
  let same := fun r => String.eqb (doc_project_id r) (doc_project_id row) in
  (DbOk (Some row),
   {| profiles := profiles d;
      user_tokens := user_tokens d;
      projects := projects d;
      project_documentation :=
        upsert_with same (fun _ => row) row (project_documentation d);
      project_documents := project_documents d;
      storage := storage d |}).

Definition PUT_body (env : Env) (request : NextRequest) (id : string)
    : M (NextResponse (option DocumentationRow)) :=
  user <- assertSupabaseUser env (Some request) ;;
  a <- ensureAccess env id (uid user) ;;
  match project a with
  | None => ret (json (standardResponse false None 404 (Some "Project not found"))
                      (Some 404))
  | Some _ =>
      if negb (isOwner a) then
        ret (json (standardResponse false None 403
                     (Some "Only project owners can update documentation"))
                  (Some 403))
      else
        j <- request_json env request ;;
        match updateSchema j with
        | None => zod_fail env
        | Some payload =>
            r <- query env t_project_documentation v_upsert
                   (upsert_documentation
                      {| doc_project_id := id;
                         doc_content := content payload;
                         doc_content_text := content_text payload;
                         doc_updated_at := now_iso env;
                         doc_updated_by := uid user |}) ;;
            match r with
            | DbErr error =>
                if isTableMissing error then
                  ret (json (standardResponse false None 503
                               (Some "Project documentation storage is not configured. Please run the associated migration."))
                            (Some 503))
                else throw (Error (db_message error))
            | DbOk data => ret (json (standardResponse true (Some data) 200 None) None)
            end
        end
  end.

Definition PUT (env : Env) (request : NextRequest) (id : string) :=
  try_catch (PUT_body env request id).

End DocumentationRoute.

(* ================================================================== *)
(** ** Route parameters *)
(* ================================================================== *)

(** The [params] a route handler receives.  The router of this framework
    version passes a Promise of the parameters, which the documentation route
    awaits; a direct call can pass the plain object that the type annotation
    of the other two route files names. *)
Inductive RouteParams :=
| Promised (id : string)                     (* Promise.resolve({ id }) *)
| Plain (id : string).                       (* { id } *)

(** [params.id], read on the argument itself: a Promise has no [id]. *)
Definition params_id (params : RouteParams) : option string :=
  match params with
  | Promised _ => None
  | Plain id => Some id
  end.

(** [.eq(column, value)] on a key column: an [undefined] value is sent as the
    text "undefined", which is the key of no row. *)
Definition eq_filter (value : option string) (cell : string) : bool :=
  match value with
  | Some v => String.eqb cell v
  | None => false
  end.

(** [`${value}`] *)
Definition template (value : option string) : string :=
  Str.nullish value "undefined".

(** [from("projects") ... .eq("id", params.id)] *)
Definition project_rows_by (projectId : option string) (d : Db) : list ProjectRow :=
  filter (fun p => eq_filter projectId (project_id p)) (projects d).

(* ================================================================== *)
(** ** [app/api/projects/[id]/attachments/route.ts] *)
(* ================================================================== *)

Module AttachmentsRoute.

Record Access := {
  project : option ProjectRef;
  profile : option ProfileRow
}.

Definition ensureAccess (env : Env) (projectId : option string) (userId : string)
    : M Access :=
  profile <- getProfileByUserId env userId ;;
  r <- select env t_projects
         (fun d => maybeSingle (map project_ref (project_rows_by projectId d))) ;;
  match r with
  | DbErr e => throw (Error (db_message e))
  | DbOk None => ret {| project := None; profile := profile |}
  | DbOk (Some data) =>
      let isOwner := opt_eqb (ref_user_id data) userId in
      let isExpert := is_expert profile in
      if negb isOwner && negb isExpert
      then throw (Error_with_status "Not authorized" 403)
      else ret {| project := Some data; profile := profile |}
  end.

(** [.eq("project_id", params.id).order("created_at", { ascending: false })] *)
Definition select_documents (id : option string) (d : Db)
    : DbResult (list AttachmentRow) :=
  DbOk (order_by (fun a b => String.leb (att_created_at b) (att_created_at a))
          (filter (fun r => eq_filter id (att_project_id r)) (project_documents d))).

Definition GET_body (env : Env) (request : NextRequest) (params : RouteParams)
    : M (NextResponse (list AttachmentRow)) :=
  user <- assertSupabaseUser env (Some request) ;;
  a <- ensureAccess env (params_id params) (uid user) ;;
  match project a with
  | None => ret (json (standardResponse false None 404 (Some "Project not found"))
                      (Some 404))
  | Some _ =>
      r <- select env t_project_documents (select_documents (params_id params)) ;;
      match r with
      | DbErr error => throw (Error (db_message error))
      | DbOk data => ret (json (standardResponse true (Some data) 200 None) None)
      end
  end.

(** The exported handler on a request and [{ params }]. *)
Definition GET_handler (env : Env) (request : NextRequest) (params : RouteParams) :=
  try_catch (GET_body env request params).

(** The handler as the router calls it for the path of project [id]. *)
Definition GET (env : Env) (request : NextRequest) (id : string) :=
  GET_handler env request (Promised id).

(** [bucket.upload(filePath, bytes, { contentType, upsert: true })]; the
    result is [uploadData?.path]. *)
Definition upload (env : Env) (filePath : string) (file : File) : M (option string) :=
  emit (EvUpload filePath) ;;;
  match storage_fault env filePath with
  | Some uploadError => throw (Error (db_message uploadError))
  | None =>
      fun w =>
        let d := db w in
        (Ok (uploaded_path env filePath),
         {| db := {| profiles := profiles d;
                     user_tokens := user_tokens d;
                     projects := projects d;
                     project_documentation := project_documentation d;
                     project_documents := project_documents d;
                     storage :=
                       upsert_with (fun e => String.eqb (fst e) filePath)
                         (fun _ => (filePath, file_type file))
                         (filePath, file_type file) (storage d) |};
            trace := trace w |})
  end.

Definition insert_document (env : Env) (row : nat -> AttachmentRow) (d : Db)
    : DbResult AttachmentRow * Db :=
  let r := row (List.length (project_documents d)) in
  (DbOk r,
   {| profiles := profiles d;
      user_tokens := user_tokens d;
      projects := projects d;
      project_documentation := project_documentation d;
      project_documents := (project_documents d ++ [r])%list;
      storage := storage d |}).

(** The body of [for (const file of files)], with [uploads] threaded; [k]
    counts the calls of [Date.now()] made so far.  The loop is entered only
    after a project was found by [params.id], so that id is a string here;
    [template] is what the path would show otherwise. *)
Fixpoint upload_all (env : Env) (p : ProjectRef) (id : option string)
    (files : list File) (uploads : list AttachmentRow) (k : nat)
    : M (list AttachmentRow) :=
  match files with
  | [] => ret uploads
  | file :: rest =>
      let filePath :=
        Str.nullish (ref_user_id p) "null" ++ "/" ++ template id ++ "/"
        ++ Str.of_Z (date_now env k) ++ "-" ++ file_name file in
      uploadData_path <- upload env filePath file ;;
      let fileUrl := public_url env filePath in
      r <- query env t_project_documents v_insert
             (insert_document env
                (fun n => {| att_id := gen_uuid env n;
                             att_project_id := template id;
                             att_file_name := file_name file;
                             att_file_path := Str.nullish uploadData_path filePath;
                             att_file_url := fileUrl;
                             att_content_type := file_type file;
                             att_size := file_size file;
                             att_created_at := now_iso env |})) ;;
      match r with
      | DbErr docError => throw (Error (db_message docError))
      | DbOk docRecord =>
          upload_all env p id rest (uploads ++ [docRecord])%list (S k)
      end
  end.

Definition POST_body (env : Env) (request : NextRequest) (params : RouteParams)
    : M (NextResponse (list AttachmentRow)) :=
  user <- assertSupabaseUser env (Some request) ;;
  a <- ensureAccess env (params_id params) (uid user) ;;
  match project a with
  | None => ret (json (standardResponse false None 404 (Some "Project not found"))
                      (Some 404))
  | Some p =>
      files <- request_formData env request ;;
      if (List.length files =? 0)%nat then
        ret (json (standardResponse false None 400 (Some "No files provided"))
                  (Some 400))
      else
        uploads <- upload_all env p (params_id params) files [] 0 ;;
        ret (json (standardResponse true (Some uploads) 201 None) (Some 201))
  end.

(** The exported handler on a request and [{ params }]. *)
Definition POST_handler (env : Env) (request : NextRequest) (params : RouteParams) :=
  try_catch (POST_body env request params).

(** The handler as the router calls it for the path of project [id]. *)
Definition POST (env : Env) (request : NextRequest) (id : string) :=
  POST_handler env request (Promised id).

End AttachmentsRoute.

(* ================================================================== *)
(** ** [app/api/projects/[id]/route.ts] *)
(* ================================================================== *)

Module ProjectRoute.

Record UpdatePayload := {
  up_notes : option (option string);       (* undefined / null / text *)
  up_tags : option (list string);
  up_status : option ProjectStatus
}.

Fixpoint z_string_array (l : list Json) : option (list string) :=
  match l with
  | [] => Some []
  | JStr s :: r =>
      match z_string_array r with Some t => Some (s :: t) | None => None end
  | _ :: _ => None
  end.

Definition z_status (s : string) : option ProjectStatus :=
  if String.eqb s "draft" then Some draft
  else if String.eqb s "in_review" then Some in_review
  else if String.eqb s "published" then Some published
  else None.

(** [z.object({ notes: z.string().nullable().optional(),
                tags: z.array(z.string()).optional(),
                status: z.enum([...]).optional() })] *)
Definition updateSchema (j : Json) : option UpdatePayload :=
  if negb (z_object j) then None
  else
    let notes_r :=
      match field "notes" j with
      | None => Some None
      | Some JNull => Some (Some None)
      | Some (JStr s) => Some (Some (Some s))
      | Some _ => None
      end in
    let tags_r :=
      match field "tags" j with
      | None => Some None
      | Some (JArr l) =>
          match z_string_array l with Some t => Some (Some t) | None => None end
      | Some _ => None
      end in
    let status_r :=
      match field "status" j with
      | None => Some None
      | Some (JStr s) =>
          match z_status s with Some v => Some (Some v) | None => None end
      | Some _ => None
      end in
    match notes_r, tags_r, status_r with
    | Some n, Some t, Some s => Some {| up_notes := n; up_tags := t; up_status := s |}
    | _, _, _ => None
    end.

(** [select("*, documents:project_documents(...)").eq("id", params.id)
      .maybeSingle()] *)
Definition select_with_documents (id : option string) (d : Db)
    : DbResult (option (ProjectRow * list AttachmentRow)) :=
  maybeSingle
    (map (fun p => (p, filter (fun r => String.eqb (att_project_id r) (project_id p))
                              (project_documents d)))
         (project_rows_by id d)).

Definition GET_body (env : Env) (request : NextRequest) (params : RouteParams)
    : M (NextResponse (ProjectRow * list AttachmentRow)) :=
  user <- assertSupabaseUser env (Some request) ;;
  profile <- getProfileByUserId env (uid user) ;;
  r <- select env t_projects (select_with_documents (params_id params)) ;;
  match r with
  | DbErr error => throw (Error (db_message error))
  | DbOk None =>
      ret (json (standardResponse false None 404 (Some "Project not found")) (Some 404))
  | DbOk (Some data) =>
      let isOwner := opt_eqb (project_user_id (fst data)) (uid user) in
      let isExpert := is_expert profile in
      if negb isOwner && negb isExpert then
        ret (json (standardResponse false None 403 (Some "Not authorized")) (Some 403))
      else ret (json (standardResponse true (Some data) 200 None) None)
  end.

(** The exported handler on a request and [{ params }]. *)
Definition GET_handler (env : Env) (request : NextRequest) (params : RouteParams) :=
  try_catch (GET_body env request params).

(** The handler as the router calls it for the path of project [id]. *)
Definition GET (env : Env) (request : NextRequest) (id : string) :=
  GET_handler env request (Promised id).

Definition apply_update (env : Env) (payload : UpdatePayload) (p : ProjectRow)
    : ProjectRow :=
  let m := project_meta p in
  {| project_id := project_id p;
     project_import := project_import p;
     project_meta :=
       {| notes := Str.nullish (up_notes payload) (notes m);
          tags := Str.nullish (up_tags payload) (tags m);
          status := match up_status payload with
                    | Some s => Some s
                    | None => status m
                    end;
          updated_at := Some (now_iso env) |} |}.

(** [update(updatePayload).eq("id", params.id).select("*").maybeSingle()] *)
Definition update_project (env : Env) (payload : UpdatePayload) (id : option string)
    (d : Db) : DbResult (option ProjectRow) * Db :=
  let hit := fun p => eq_filter id (project_id p) in
  let rows := map (fun p => if hit p then apply_update env payload p else p)
                  (projects d) in
  (maybeSingle (filter hit rows),
   {| profiles := profiles d;
      user_tokens := user_tokens d;
      projects := rows;
      project_documentation := project_documentation d;
      project_documents := project_documents d;
      storage := storage d |}).

(** [from("projects").select("user_id").eq("id", params.id).maybeSingle()] *)
Definition select_owner (id : option string) (d : Db)
    : DbResult (option (option string)) :=
  maybeSingle (map project_user_id (project_rows_by id d)).

Definition PATCH_body (env : Env) (request : NextRequest) (params : RouteParams)
    : M (NextResponse (option ProjectRow)) :=
  user <- assertSupabaseUser env (Some request) ;;
  profile <- getProfileByUserId env (uid user) ;;
  j <- request_json env request ;;
  match updateSchema j with
  | None => zod_fail env
  | Some payload =>
      r <- select env t_projects (select_owner (params_id params)) ;;
      match r with
      | DbErr error => throw (Error (db_message error))
      | DbOk None =>
          ret (json (standardResponse false None 404 (Some "Project not found"))
                    (Some 404))
      | DbOk (Some data_user_id) =>
          let isOwner := opt_eqb data_user_id (uid user) in
          let isExpert := is_expert profile in
          if negb isOwner && negb isExpert then
            ret (json (standardResponse false None 403 (Some "Not authorized"))
                      (Some 403))
          else
            u <- query env t_projects v_update
                   (update_project env payload (params_id params)) ;;
            match u with
            | DbErr updateError => throw (Error (db_message updateError))
            | DbOk updated =>
                ret (json (standardResponse true (Some updated) 200 None) None)
            end
      end
  end.

(** The exported handler on a request and [{ params }]. *)
Definition PATCH_handler (env : Env) (request : NextRequest) (params : RouteParams) :=
  try_catch (PATCH_body env request params).

(** The handler as the router calls it for the path of project [id]. *)
Definition PATCH (env : Env) (request : NextRequest) (id : string) :=
  PATCH_handler env request (Promised id).

End ProjectRoute.

(* ================================================================== *)
(** ** [app/api/projects/route.ts] *)
(* ================================================================== *)

(** [/^[^/]+\/[^/]+$/]: exactly one slash, with a non-empty segment on each
    side of it. *)
Definition owner_repo_regex (s : string) : bool :=
  match Str.split "/" s with
  | [owner; repo] => Str.truthy owner && Str.truthy repo
  | _ => false
  end.

(** The character [sep] does not occur in [s]. *)
Fixpoint free_of (sep : ascii) (s : string) : Prop :=
  match s with
  | EmptyString => True
  | String c r => c <> sep /\ free_of sep r
  end.

Module ProjectsRoute.

(** [z.object({ repository_full_name:
                  z.string().min(1).regex(/^[^/]+\/[^/]+$/, ...) })] *)
Definition importSchema (j : Json) : option string :=
  if negb (z_object j) then None
  else match z_string (field "repository_full_name" j) with
       | Some s =>
           if (1 <=? String.length s)%nat && owner_repo_regex s
           then Some s else None
       | None => None
       end.

Record ProjectWithProfile := {
  pw_project : ProjectRow;
  pw_profiles : option ProfileRow
}.

Record GroupedProject := {
  owner_id : string;
  owner : option ProfileRow;
  group_projects : list ProjectWithProfile
}.

Inductive Listing :=
| Grouped (groups : list GroupedProject)
| Own (rows : list (ProjectRow * nat)).

(** [[...new Set(xs)]]: first occurrences, in order. *)
Fixpoint unique (seen xs : list string) : list string :=
  match xs with
  | [] => []
  | x :: r =>
      if existsb (String.eqb x) seen then unique seen r
      else x :: unique (x :: seen) r
  end.

(** [projectsData.map(p => p.user_id).filter(Boolean)] *)
Definition owner_ids (rows : list ProjectRow) : list string :=
  flat_map (fun p => match project_user_id p with
                     | Some u => if Str.truthy u then [u] else []
                     | None => []
                     end) rows.

(** [new Map(profilesData.map(p => [p.id, p])).get(k)]: the last entry with
    the key wins. *)
Definition profilesMap_get (profilesData : list ProfileRow) (k : option string)
    : option ProfileRow :=
  match k with
  | None => None
  | Some u =>
      fold_left (fun acc p => if String.eqb (profile_id p) u then Some p else acc)
                profilesData None
  end.

(** One step of the [reduce]: [acc[ownerId] = acc[ownerId] || {...}] and the
    [push].  Owner keys are user ids or ["unknown"], so the accumulator's
    property order is the order in which owners first appear. *)
Fixpoint push_project (ownerId : string) (project : ProjectWithProfile)
    (acc : list GroupedProject) : list GroupedProject :=
  match acc with
  | [] => [{| owner_id := ownerId;
              owner := pw_profiles project;
              group_projects := [project] |}]
  | g :: r =>
      if String.eqb (owner_id g) ownerId
      then {| owner_id := owner_id g;
              owner := owner g;
              group_projects := (group_projects g ++ [project])%list |} :: r
      else g :: push_project ownerId project r
  end.

Definition ownerId_of (project : ProjectWithProfile) : string :=
  Str.nullish (project_user_id (pw_project project)) "unknown".

Definition group_by_owner (rows : list ProjectWithProfile) : list GroupedProject :=
  fold_left (fun acc project => push_project (ownerId_of project) project acc)
            rows [].

(** The projects a grouped answer lists. *)
Definition members (acc : list GroupedProject) : list ProjectWithProfile :=
  flat_map group_projects acc.

(** Every project sits in the group of its own owner, and no owner has two
    groups. *)
Definition well_grouped (acc : list GroupedProject) : Prop :=
  (forall g p, In g acc -> In p (group_projects g) -> ownerId_of p = owner_id g)
  /\ NoDup (map owner_id acc).

Definition attach_profile (profilesData : list ProfileRow) (p : ProjectRow)
    : ProjectWithProfile :=
  {| pw_project := p;
     pw_profiles := profilesMap_get profilesData (project_user_id p) |}.

Definition GET_body (env : Env) (request : NextRequest)
    : M (NextResponse Listing) :=
  user <- assertSupabaseUser env (Some request) ;;
  let view := Str.nullish (assoc "view" (searchParams request)) "developer" in
  if String.eqb view "expert" then
    r <- select env t_projects
           (fun d => DbOk (order_by (fun a b => stars (project_import b)
                                                <=? stars (project_import a))
                                    (projects d))) ;;
    match r with
    | DbErr projectsError => throw (Error (db_message projectsError))
    | DbOk projectsData =>
        let userIds := unique [] (owner_ids projectsData) in
        r2 <- select env t_profiles
                (fun d => DbOk (filter (fun p => existsb (String.eqb (profile_id p))
                                                         userIds)
                                       (profiles d))) ;;
        match r2 with
        | DbErr profilesError => throw (Error (db_message profilesError))
        | DbOk profilesData =>
            let projectsWithProfiles := map (attach_profile profilesData) projectsData in
            let grouped := group_by_owner projectsWithProfiles in
            ret (json (standardResponse true (Some (Grouped grouped)) 200 None) None)
        end
    end
  else
    r <- select env t_projects
           (fun d =>
              DbOk (map (fun p =>
                           (p, List.length
                                 (filter (fun a => String.eqb (att_project_id a)
                                                              (project_id p))
                                         (project_documents d))))
                        (order_by (fun a b => desc_text (updated_at (project_meta a))
                                                        (updated_at (project_meta b)))
                                  (filter (fun p => opt_eqb (project_user_id p) (uid user))
                                          (projects d))))) ;;
    match r with
    | DbErr error => throw (Error (db_message error))
    | DbOk data => ret (json (standardResponse true (Some (Own data)) 200 None) None)
    end.

Definition GET (env : Env) (request : NextRequest) :=
  try_catch (GET_body env request).

Definition import_record (env : Env) (user : SupabaseUser) (full_name : string)
    (repo : GithubApiRepository) : ImportRecord :=
  {| user_id := Some (uid user);
     github_repo_id := repo_id repo;
     repository_full_name := full_name;
     name := repo_name repo;
     description := repo_description repo;
     html_url := repo_html_url repo;
     private := repo_private repo;
     fork := repo_fork repo;
     language := repo_language repo;
     stars := Str.nullish (repo_stargazers_count repo) 0;
     forks := Str.nullish (repo_forks_count repo) 0;
     watchers := Str.nullish (repo_watchers_count repo) 0;
     open_issues := Str.nullish (repo_open_issues_count repo) 0;
     visibility := repo_visibility repo;
     owner_username := repo_owner repo;
     default_branch := repo_default_branch repo;
     pushed_at := repo_pushed_at repo;
     created_at_github := repo_created_at repo;
     updated_at_github := repo_updated_at repo;
     last_synced_at := now_iso env |}.

Definition same_repo (record : ImportRecord) (p : ProjectRow) : bool :=
  project_repo_id p =? github_repo_id record.

Definition refresh (record : ImportRecord) (p : ProjectRow) : ProjectRow :=
  {| project_id := project_id p;
     project_import := record;
     project_meta := project_meta p |}.

Definition new_project (env : Env) (record : ImportRecord) (n : nat) : ProjectRow :=
  {| project_id := gen_uuid env n;
     project_import := record;
     project_meta := default_meta env |}.

(** [upsert(record, { onConflict: "github_repo_id" }).select("*").single()] *)
Definition upsert_project (env : Env) (record : ImportRecord) (d : Db)
    : DbResult ProjectRow * Db :=
  let fresh := new_project env record (List.length (projects d)) in
  (DbOk (upserted (same_repo record) (refresh record) fresh (projects d)),
   {| profiles := profiles d;
      user_tokens := user_tokens d;
      projects := upsert_with (same_repo record) (refresh record) fresh (projects d);
      project_documentation := project_documentation d;
      project_documents := project_documents d;
      storage := storage d |}).

Definition POST_body (env : Env) (request : NextRequest)
    : M (NextResponse ProjectRow) :=
  user <- assertSupabaseUser env (Some request) ;;
  j <- request_json env request ;;
  match importSchema j with
  | None => zod_fail env
  | Some full_name =>
      githubToken <- getGithubTokenForUser env (uid user) ;;
      repo <- fetchRepoByFullName env githubToken full_name ;;
      let record := import_record env user full_name repo in
      r <- query env t_projects v_upsert (upsert_project env record) ;;
      match r with
      | DbErr error => throw (Error (db_message error))
      | DbOk data => ret (json (standardResponse true (Some data) 201 None) (Some 201))
      end
  end.

Definition POST (env : Env) (request : NextRequest) :=
  try_catch (POST_body env request).

End ProjectsRoute.

(* ================================================================== *)
(** ** [app/api/auth/store-github-token/route.ts] *)
(* ================================================================== *)

Module StoreGithubTokenRoute.

(** [z.object({ provider_token: z.string().min(1, ...),
                access_token: z.string().optional(),
                refresh_token: z.string().optional() })] *)
Definition payloadSchema (j : Json) : option string :=
  if negb (z_object j) then None
  else match z_string (field "provider_token" j),
             z_string_optional (field "access_token" j),
             z_string_optional (field "refresh_token" j) with
       | Some t, Some _, Some _ =>
           if (1 <=? String.length t)%nat then Some t else None
       | _, _, _ => None
       end.

Definition token_record (env : Env) (user : SupabaseUser) (provider_token : string)
    (githubProfile : GithubApiUser) : TokenRow :=
  {| token_user_id := uid user;
     token_github_token := Some provider_token;
     token_github_id := ghu_id githubProfile;
     token_username := ghu_login githubProfile;
     token_email := ghu_email githubProfile;
     token_avatar_url := ghu_avatar_url githubProfile;
     token_profile_url := ghu_html_url githubProfile;
     token_updated_at := now_iso env |}.

(** [from("user_tokens").upsert(record, { onConflict: "user_id" })] *)
Definition upsert_token (record : TokenRow) (d : Db) : DbResult unit * Db :=
  (DbOk tt,
   {| profiles := profiles d;
      user_tokens :=
        upsert_with (fun t => String.eqb (token_user_id t) (token_user_id record))
                    (fun _ => record) record (user_tokens d);
      projects := projects d;
      project_documentation := project_documentation d;
      project_documents := project_documents d;
      storage := storage d |}).

Definition POST_body (env : Env) (request : NextRequest)
    : M (NextResponse string) :=
  user <- assertSupabaseUser env (Some request) ;;
  payload <- request_json env request ;;
  match payloadSchema payload with
  | None => zod_fail env
  | Some provider_token =>
      githubProfile <- fetchGithubUser env provider_token ;;
      let record := token_record env user provider_token githubProfile in
      r <- query env t_user_tokens v_upsert (upsert_token record) ;;
      match r with
      | DbErr error => throw (Error (db_message error))
      | DbOk _ =>
          ret (json (standardResponse true (Some "GitHub token stored") 200 None) None)
      end
  end.

Definition POST (env : Env) (request : NextRequest) :=
  try_catch (POST_body env request).

End StoreGithubTokenRoute.

(* ================================================================== *)
(** ** [app/api/github/contributions/route.ts] *)
(* ================================================================== *)

Module ContributionsRoute.

Record Contribution := {
  date : string;
  count : Z
}.

Record Payload := {
  total_contributions : Z;
  contributions : list Contribution
}.

(** [day => ({ date: day.date, count: day.contributionCount })] *)
Definition entry (day : GithubContributionDayApi) : Contribution :=
  match day with
  | Build_GithubContributionDayApi d c => {| date := d; count := c |}
  end.

(** [weeks.flatMap(week => week.contributionDays.map(...))] *)
Definition flatten (weeks : list GithubContributionWeekApi) : list Contribution :=
  flat_map (fun week => map entry (contributionDays week)) weeks.

Definition payload_of (data : GithubContributionsResponse) : Payload :=
  let calendar := contributionCalendar data in
  {| total_contributions :=
       match calendar with Some c => totalContributions c | None => 0 end;
     contributions :=
       match calendar with
       | Some c => match weeks c with Some ws => flatten ws | None => [] end
       | None => []
       end |}.

Definition GET_body (env : Env) (request : NextRequest)
    : M (NextResponse Payload) :=
  user <- assertSupabaseUser env (Some request) ;;
  githubToken <- getGithubTokenForUser env (uid user) ;;
  data <- fetchGithubContributions env githubToken ;;
  ret (json (standardResponse true (Some (payload_of data)) 200 None) None).

Definition GET (env : Env) (request : NextRequest) :=
  try_catch (GET_body env request).

End ContributionsRoute.

(* ================================================================== *)
(** ** [app/dashboard/page.tsx] and [app/projects/[id]/page.tsx] *)
(* ================================================================== *)

Module Pages.

(** [(await getProfileByUserId(user.id)) ?? { id, username, role: "developer" }] *)
Definition dashboard_profile (env : Env) (user : SupabaseUser) : M ProfileRow :=
  row <- getProfileByUserId env (uid user) ;;
  ret (Str.nullish row
         {| profile_id := uid user;
            profile_username :=
              match user_name user with
              | Some n => Some n
              | None => email user
              end;
            profile_full_name := None;
            profile_role := Some developer;
            profile_avatar_url := None |}).

(** [(await getProfileByUserId(user.id)) ?? { id, role: "developer" }] *)
Definition detail_profile (env : Env) (user : SupabaseUser) : M ProfileRow :=
  row <- getProfileByUserId env (uid user) ;;
  ret (Str.nullish row
         {| profile_id := uid user;
            profile_username := None;
            profile_full_name := None;
            profile_role := Some developer;
            profile_avatar_url := None |}).

End Pages.

(** A request is authenticated when it carries a bearer token the identity
    provider resolves to a user. *)
Definition authenticated (env : Env) (req : NextRequest) (token : string)
    (user : SupabaseUser) : Prop :=
  extractBearerToken (authorization req) = Some token
  /\ idp_error (idp_getUser env token) = None
  /\ idp_user (idp_getUser env token) = Some user.

(** The profile endpoint rejects the token: a non-2xx reply, or a reply whose
    body is not JSON. *)
Definition profile_fetch_fails (env : Env) (provider_token : string) : Prop :=
  let r := gh_user env (GITHUB_API ++ "/user") provider_token in
  resp_ok r = false \/ resp_json r = None.

(** What the expert view computes from the tables. *)
Definition expert_listing (d : Db) : list ProjectsRoute.GroupedProject :=
  let sorted := order_by (fun a b => stars (project_import b) <=? stars (project_import a))
                  (projects d) in
  let pd := filter (fun p => existsb (String.eqb (profile_id p))
                               (ProjectsRoute.unique [] (ProjectsRoute.owner_ids sorted)))
              (profiles d) in
  ProjectsRoute.group_by_owner (map (ProjectsRoute.attach_profile pd) sorted).



(** The datastore answers the given call (no transport or server fault). *)
Definition answers (env : Env) (t : Table) (v : Verb) : Prop :=
  db_fault env t v = None.

(* ================================================================== *)
(** ** A small deployment used for the concrete runs below *)
(* ================================================================== *)

Module Sample.

Definition alice : SupabaseUser :=
  {| uid := "alice"; email := Some "alice@example.org"; user_name := Some "alice" |}.

Definition bob : SupabaseUser :=
  {| uid := "bob"; email := None; user_name := None |}.

Definition carol : SupabaseUser :=
  {| uid := "carol"; email := None; user_name := None |}.

Definition idp (token : string) : IdpReply :=
  if String.eqb token "jwt-alice" then {| idp_error := None; idp_user := Some alice |}
  else if String.eqb token "jwt-bob" then {| idp_error := None; idp_user := Some bob |}
  else if String.eqb token "jwt-carol" then {| idp_error := None; idp_user := Some carol |}
  else {| idp_error := Some "invalid JWT"; idp_user := None |}.

Definition octocat : GithubApiUser :=
  {| ghu_id := 583231; ghu_login := "octocat"; ghu_email := None;
     ghu_avatar_url := None; ghu_html_url := "https://github.com/octocat";
     ghu_updated_at := None |}.

Definition hello_world (stars_now : Z) : GithubApiRepository :=
  {| repo_id := 1296269; repo_name := "Hello-World";
     repo_full_name := "octocat/Hello-World";
     repo_html_url := "https://github.com/octocat/Hello-World";
     repo_description := Some "My first repository";
     repo_private := false; repo_fork := false; repo_language := None;
     repo_stargazers_count := Some stars_now; repo_watchers_count := Some 80;
     repo_forks_count := Some 9; repo_owner := Some "octocat";
     repo_created_at := Some "2011-01-26T19:01:12Z";
     repo_updated_at := Some "2011-01-26T19:14:43Z";
     repo_pushed_at := Some "2011-01-26T19:06:43Z";
     repo_default_branch := Some "master";
     repo_open_issues_count := None; repo_visibility := Some "public" |}.

Definition day (d : string) (n : Z) : GithubContributionDayApi :=
  {| date := d; contributionCount := n |}.

Definition week1 : GithubContributionWeekApi :=
  {| contributionDays :=
       [day "2024-01-07" 0; day "2024-01-08" 3; day "2024-01-09" 1;
        day "2024-01-10" 0; day "2024-01-11" 5; day "2024-01-12" 2;
        day "2024-01-13" 0] |}.

Definition week2 : GithubContributionWeekApi :=
  {| contributionDays :=
       [day "2024-01-14" 4; day "2024-01-15" 0; day "2024-01-16" 0;
        day "2024-01-17" 7; day "2024-01-18" 1; day "2024-01-19" 0;
        day "2024-01-20" 2] |}.

Definition calendar : GithubContributionsResponse :=
  {| contributionCalendar :=
       Some {| totalContributions := 25; weeks := Some [week1; week2] |} |}.

(** GitHub as seen from the handlers: one good token, one repository. *)
Definition env_at (stars_now : Z) (clock : string) : Env :=
  {| idp_getUser := idp;
     gh_user := fun _ token =>
       if String.eqb token "gho_good"
       then {| resp_status := 200; resp_text := ""; resp_json := Some octocat |}
       else {| resp_status := 401; resp_text := "Bad credentials"; resp_json := None |};
     gh_repo := fun url token =>
       if String.eqb url "https://api.github.com/repos/octocat/Hello-World"
       then {| resp_status := 200; resp_text := "";
               resp_json := Some (hello_world stars_now) |}
       else {| resp_status := 404; resp_text := "Not Found"; resp_json := None |};
     gh_graphql := fun _ _ =>
       {| resp_status := 200; resp_text := ""; resp_json := Some calendar |};
     db_fault := fun _ _ => None;
     storage_fault := fun _ => None;
     public_url := fun path => Some ("https://cdn.example.org/" ++ path);
     now_iso := clock;
     uploaded_path := fun path => Some path;
     date_now := fun n => 1700000000000 + Z.of_nat n;
     gen_uuid := fun n => "row-" ++ Str.of_Z (Z.of_nat n);
     default_meta := {| notes := None; tags := []; status := Some draft;
                        updated_at := None |};
     zod_message := "invalid input";
     syntax_message := "Unexpected end of JSON input" |}.

Definition env : Env := env_at 80 "2024-02-01T00:00:00.000Z".

(** The same deployment with the documentation table unreachable. *)
Definition env_doc_down : Env :=
  {| idp_getUser := idp_getUser env;
     gh_user := gh_user env;
     gh_repo := gh_repo env;
     gh_graphql := gh_graphql env;
     db_fault := fun t v =>
       match t, v with
       | t_project_documentation, v_select =>
           Some {| db_message := "connection reset"; db_code := None |}
       | _, _ => None
       end;
     storage_fault := storage_fault env;
     public_url := public_url env;
     now_iso := now_iso env;
     uploaded_path := uploaded_path env;
     date_now := date_now env;
     gen_uuid := gen_uuid env;
     default_meta := default_meta env;
     zod_message := zod_message env;
     syntax_message := syntax_message env |}.

Definition alice_project : ProjectRow :=
  {| project_id := "p1";
     project_import :=
       ProjectsRoute.import_record env alice "octocat/Hello-World" (hello_world 80);
     project_meta := default_meta env |}.

Definition db0 : Db :=
  {| profiles :=
       [ {| profile_id := "alice"; profile_username := Some "alice";
            profile_full_name := None; profile_role := Some developer;
            profile_avatar_url := None |};
         {| profile_id := "bob"; profile_username := Some "bob";
            profile_full_name := None; profile_role := Some expert;
            profile_avatar_url := None |} ];
     user_tokens :=
       [ {| token_user_id := "alice"; token_github_token := Some "gho_good";
            token_github_id := 583231; token_username := "octocat";
            token_email := None; token_avatar_url := None;
            token_profile_url := "https://github.com/octocat";
            token_updated_at := "2024-01-01T00:00:00.000Z" |} ];
     projects := [alice_project];
     project_documentation := [];
     project_documents := [];
     storage := [] |}.

Definition w0 : World := {| db := db0; trace := [] |}.

Definition request (bearer : string) (payload : option Json) : NextRequest :=
  {| authorization := Some ("Bearer " ++ bearer);
     body_json := payload;
     searchParams := [];
     form_files := None |}.

Definition expert_view (bearer : string) : NextRequest :=
  {| authorization := Some ("Bearer " ++ bearer);
     body_json := None;
     searchParams := [("view", "expert")];
     form_files := None |}.



(** An import of a repository GitHub does not show to the caller. *)
Definition import_missing : NextRequest :=
  request "jwt-alice" (Some (JObj [("repository_full_name", JStr "octocat/secret")])).

Definition import_hello : NextRequest :=
  request "jwt-alice"
    (Some (JObj [("repository_full_name", JStr "octocat/Hello-World")])).

(** The deployment some time later, the repository having gained stars. *)
Definition env_later : Env := env_at 95 "2024-03-01T00:00:00.000Z".

Definition alice_project_later : ProjectRow :=
  {| project_id := "p1";
     project_import :=
       ProjectsRoute.import_record env_later alice "octocat/Hello-World"
         (hello_world 95);
     project_meta := default_meta env |}.

End Sample.

(* ================================================================== *)
(** ** The rest of [lib/github.ts] *)
(* ================================================================== *)

Record GithubApiEvent := {
  event_id : string;
  event_type : option string;
  event_repo_name : option string;           (* repo?.name *)
  event_created_at : option string
}.

Record GithubReadmeResponse := {
  readme_content : string;
  readme_encoding : option string
}.

(** GitHub endpoints and Node services used by the routes below, beside
    those of [Env]. *)
Record Services := {
  gh_repos : string -> string -> HttpResponse (list GithubApiRepository);
  gh_events : string -> string -> HttpResponse (list GithubApiEvent);
  gh_readme : string -> string -> HttpResponse GithubReadmeResponse;
  gh_content : string -> string -> HttpResponse Json;
  buffer_decode : string -> string -> option string
    (* Buffer.from(content, encoding).toString("utf-8"); None: it throws *)
}.

(** [try { m } catch { h }] inside a function body: what [m] did before it
    threw stays done. *)
Definition try_with {A} (m : M A) (h : Err -> M A) : M A :=
  fun w => match m w with
           | (Ok a, w') => (Ok a, w')
           | (Throw e, w') => h e w'
           end.

Definition fetchGithubUserRepos (env : Env) (sv : Services) (token : string)
    : M (list GithubApiRepository) :=
  githubRequest env (gh_repos sv) "/user/repos?per_page=100&sort=updated" token.

Definition fetchGithubActivity (env : Env) (sv : Services) (token username : string)
    : M (list GithubApiEvent) :=
  githubRequest env (gh_events sv) ("/users/" ++ username ++ "/events") token.

Definition fetchRepoContent (env : Env) (sv : Services) (token owner repo path : string)
    : M Json :=
  githubRequest env (gh_content sv)
    ("/repos/" ++ owner ++ "/" ++ repo ++ "/contents/" ++ path) token.

Definition fetchGithubProfileRepo (env : Env) (sv : Services) (token username : string)
    : M (GithubApiRepository * option string) :=
  repo <- githubRequest env (gh_repo env) ("/repos/" ++ username ++ "/" ++ username) token ;;
  readme <- try_with
              (readmeResponse <- githubRequest env (gh_readme sv)
                                   ("/repos/" ++ username ++ "/" ++ username ++ "/readme")
                                   token ;;
               if Str.truthy (readme_content readmeResponse) then
                 let encoding := Str.nullish (readme_encoding readmeResponse) "base64" in
                 match buffer_decode sv (readme_content readmeResponse) encoding with
                 | Some text => ret (Some text)
                 | None => throw {| err_class := TypeError;
                                    err_message := "Unknown encoding";
                                    err_status := None |}
                 end
               else ret None)
              (fun _ => ret None) ;;
  ret (repo, readme).

(* ================================================================== *)
(** ** [app/api/github/repos/route.ts] *)
(* ================================================================== *)

Module ReposRoute.

Record GithubRepo := {
  gr_id : Z;
  gr_name : string;
  gr_html_url : string;
  gr_description : option string;
  gr_private : bool;
  gr_fork : bool;
  gr_language : option string;
  gr_stargazers_count : Z;
  gr_watchers_count : Z;
  gr_forks_count : Z;
  gr_owner : option string;
  gr_created_at : option string;
  gr_updated_at : option string;
  gr_pushed_at : option string;
  gr_default_branch : option string;
  gr_open_issues_count : option Z;
  gr_visibility : option string
}.

Definition mapRepo (repo : GithubApiRepository) : GithubRepo :=
  {| gr_id := repo_id repo;
     gr_name := repo_name repo;
     gr_html_url := repo_html_url repo;
     gr_description := repo_description repo;
     gr_private := repo_private repo;
     gr_fork := repo_fork repo;
     gr_language := repo_language repo;
     gr_stargazers_count := Str.nullish (repo_stargazers_count repo) 0;
     gr_watchers_count := Str.nullish (repo_watchers_count repo) 0;
     gr_forks_count := Str.nullish (repo_forks_count repo) 0;
     gr_owner := repo_owner repo;
     gr_created_at := repo_created_at repo;
     gr_updated_at := repo_updated_at repo;
     gr_pushed_at := repo_pushed_at repo;
     gr_default_branch := repo_default_branch repo;
     gr_open_issues_count := repo_open_issues_count repo;
     gr_visibility := repo_visibility repo |}.

Inductive Payload :=
| One (repo : GithubRepo)
| Many (repos : list GithubRepo).

Definition GET_body (env : Env) (sv : Services) (request : NextRequest)
    : M (NextResponse Payload) :=
  user <- assertSupabaseUser env (Some request) ;;
  githubToken <- getGithubTokenForUser env (uid user) ;;
  let fullName := assoc "full_name" (searchParams request) in
  if Str.truthy (Str.nullish fullName "") then
    repo <- fetchRepoByFullName env githubToken (Str.nullish fullName "") ;;
    ret (json (standardResponse true (Some (One (mapRepo repo))) 200 None) None)
  else
    repos <- fetchGithubUserRepos env sv githubToken ;;
    let payload := map mapRepo repos in
    ret (json (standardResponse true (Some (Many payload)) 200 None) None).

Definition GET (env : Env) (sv : Services) (request : NextRequest) :=
  try_catch (GET_body env sv request).

End ReposRoute.

(* ================================================================== *)
(** ** [app/api/github/user/route.ts] *)
(* ================================================================== *)

Module UserRoute.

Record Payload := {
  github_id : Z;
  username : string;
  email : option string;
  avatar_url : option string;
  html_url : string;
  updated_at : option string
}.

Definition GET_body (env : Env) (request : NextRequest) : M (NextResponse Payload) :=
  user <- assertSupabaseUser env (Some request) ;;
  githubToken <- getGithubTokenForUser env (uid user) ;;
  profile <- fetchGithubUser env githubToken ;;
  let payload := {| github_id := ghu_id profile;
                    username := ghu_login profile;
                    email := ghu_email profile;
                    avatar_url := ghu_avatar_url profile;
                    html_url := ghu_html_url profile;
                    updated_at := ghu_updated_at profile |} in
  ret (json (standardResponse true (Some payload) 200 None) None).

Definition GET (env : Env) (request : NextRequest) :=
  try_catch (GET_body env request).

End UserRoute.

(* ================================================================== *)
(** ** [app/api/github/activity/route.ts] *)
(* ================================================================== *)

Module ActivityRoute.

Record Item := {
  item_id : string;
  item_type : option string;
  item_repo : option string;
  item_created_at : option string
}.

Definition item_of (event : GithubApiEvent) : Item :=
  {| item_id := event_id event;
     item_type := event_type event;
     item_repo := event_repo_name event;
     item_created_at := event_created_at event |}.

Definition GET_body (env : Env) (sv : Services) (request : NextRequest)
    : M (NextResponse (list Item)) :=
  user <- assertSupabaseUser env (Some request) ;;
  githubToken <- getGithubTokenForUser env (uid user) ;;
  profile <- fetchGithubUser env githubToken ;;
  events <- fetchGithubActivity env sv githubToken (ghu_login profile) ;;
  let payload := map item_of (firstn 10 events) in
  ret (json (standardResponse true (Some payload) 200 None) None).

Definition GET (env : Env) (sv : Services) (request : NextRequest) :=
  try_catch (GET_body env sv request).

End ActivityRoute.

(* ================================================================== *)
(** ** [app/api/github/profile-repo/route.ts] *)
(* ================================================================== *)

Module ProfileRepoRoute.

Record Payload := {
  name : string;
  description : option string;
  stars : option Z;
  updated_at : option string;
  html_url : string;
  readme_content : option string
}.

Definition GET_body (env : Env) (sv : Services) (request : NextRequest)
    : M (NextResponse Payload) :=
  user <- assertSupabaseUser env (Some request) ;;
  githubToken <- getGithubTokenForUser env (uid user) ;;
  profile <- fetchGithubUser env githubToken ;;
  rr <- fetchGithubProfileRepo env sv githubToken (ghu_login profile) ;;
  let (repo, readme) := rr in
  let payload := {| name := repo_name repo;
                    description := repo_description repo;
                    stars := repo_stargazers_count repo;
                    updated_at := repo_updated_at repo;
                    html_url := repo_html_url repo;
                    readme_content := readme |} in
  ret (json (standardResponse true (Some payload) 200 None) None).

Definition GET (env : Env) (sv : Services) (request : NextRequest) :=
  try_catch (GET_body env sv request).

End ProfileRepoRoute.

(* ================================================================== *)
(** ** [app/api/auth/session/route.ts] *)
(* ================================================================== *)

Module SessionRoute.

Definition GET_body (env : Env) (request : NextRequest)
    : M (NextResponse SupabaseUser) :=
  user <- assertSupabaseUser env (Some request) ;;
  ret (json (standardResponse true (Some user) 200 None) None).

Definition GET (env : Env) (request : NextRequest) :=
  try_catch (GET_body env request).

End SessionRoute.

(* ================================================================== *)
(** ** The two role-promotion routes *)
(* ================================================================== *)

(** [NextResponse.json({ success, message | error }, { status })] *)
Record PlainResponse := {
  plain_status : Z;
  plain_success : bool;
  plain_message : option string;
  plain_error : option string
}.

(** [from("profiles").update({ role: "expert" }).eq("id", userId)] *)
Definition promote_profile (userId : string) (d : Db) : DbResult unit * Db :=
  (DbOk tt,
   {| profiles :=
        map (fun p => if String.eqb (profile_id p) userId
                      then {| profile_id := profile_id p;
                              profile_username := profile_username p;
                              profile_full_name := profile_full_name p;
                              profile_role := Some expert;
                              profile_avatar_url := profile_avatar_url p |}
                      else p)
            (profiles d);
      user_tokens := user_tokens d;
      projects := projects d;
      project_documentation := project_documentation d;
      project_documents := project_documents d;
      storage := storage d |}).

(** The [catch (err)] block of both promotion routes. *)
Definition promote_catch (m : M PlainResponse) : World -> PlainResponse * World :=
  fun w => match m w with
           | (Ok r, w') => (r, w')
           | (Throw e, w') =>
               ({| plain_status := 500; plain_success := false;
                   plain_message := None; plain_error := Some (err_message e) |}, w')
           end.

Definition promoted (env : Env) (userId : string) : M PlainResponse :=
  r <- query env t_profiles v_update (promote_profile userId) ;;
  match r with
  | DbErr error =>
      ret {| plain_status := 500; plain_success := false;
             plain_message := None; plain_error := Some (db_message error) |}
  | DbOk _ =>
      ret {| plain_status := 200; plain_success := true;
             plain_message := Some ("User " ++ userId ++ " set to expert");
             plain_error := None |}
  end.

Module PromoteRoute.

(** [z.object({ user_id: z.string().uuid().optional(), id: z.string().optional() })];
    [is_uuid] is zod's UUID test. *)
Definition bodySchema (is_uuid : string -> bool) (j : Json)
    : option (option string * option string) :=
  if negb (z_object j) then None
  else
    let user_id_r :=
      match field "user_id" j with
      | None => Some None
      | Some (JStr s) => if is_uuid s then Some (Some s) else None
      | Some _ => None
      end in
    match user_id_r, z_string_optional (field "id" j) with
    | Some u, Some i => Some (u, i)
    | _, _ => None
    end.

Definition POST_body (env : Env) (is_uuid : string -> bool) (request : NextRequest)
    : M PlainResponse :=
  payload <- request_json env request ;;
  match bodySchema is_uuid payload with
  | None => zod_fail env
  | Some (parsed_user_id, parsed_id) =>
      let userId := match parsed_user_id with
                    | Some u => Some u
                    | None => parsed_id
                    end in
      if negb (Str.truthy (Str.nullish userId "")) then
        ret {| plain_status := 400; plain_success := false;
               plain_message := None; plain_error := Some "user_id is required" |}
      else promoted env (Str.nullish userId "")
  end.

Definition POST (env : Env) (is_uuid : string -> bool) (request : NextRequest) :=
  promote_catch (POST_body env is_uuid request).

End PromoteRoute.

Module PromoteSelfRoute.

Definition POST_body (env : Env) : M PlainResponse :=
  user <- assertSupabaseUser env None ;;
  promoted env (uid user).

Definition POST (env : Env) := promote_catch (POST_body env).

End PromoteSelfRoute.

(* ================================================================== *)
(** ** [proxy.ts] *)
(* ================================================================== *)

Module Proxy.

Record Url := {
  pathname : string;
  hash : string
}.

Inductive Outcome :=
| Next                                       (* the request goes on *)
| Redirect (to : string).                    (* NextResponse.redirect, same URL, new path *)

(** The routing decision, [user] being what [supabase.auth.getUser()] found
    in the request cookies. *)
Definition proxy (user : option SupabaseUser) (nextUrl : Url) : Outcome :=
  let isAuthCallback := String.eqb (pathname nextUrl) "/auth/callback" in
  let isAuthError := String.eqb (pathname nextUrl) "/auth/error" in
  let isPublicRoute :=
    String.eqb (pathname nextUrl) "/"
    || String.eqb (pathname nextUrl) "/callback"
    || String.prefix "/api/auth/login" (pathname nextUrl)
    || isAuthCallback
    || isAuthError in
  if isAuthCallback || isAuthError then Next
  else if match user with None => true | Some _ => false end && negb isPublicRoute
  then Redirect "/"
  else
    let hasHashFragment :=
      Str.truthy (hash nextUrl) && Str.includes (hash nextUrl) "access_token" in
    if match user with Some _ => true | None => false end
       && String.eqb (pathname nextUrl) "/" && negb hasHashFragment
    then Redirect "/dashboard"
    else Next.

End Proxy.

(* ================================================================== *)
(** ** [lib/api-client.ts] *)
(* ================================================================== *)

(** [payload] is the parsed response body; [None] is a body that is JSON
    [null].  A thrown error is [inl] of its message. *)
Definition parseStandardResponse {T} (payload : option (StandardResponse T))
    : string + option T :=
  match payload with
  | Some p =>
      if success p then inr (data p)
      else inl (Str.nullish (error p) "Unexpected API error")
  | None => inl "Unexpected API error"
  end.

(* ================================================================== *)
(** ** [components/contribution-graph.tsx]: the colour scale *)
(* ================================================================== *)

Module ContributionGraph.

Definition DEFAULT_CONTRIBUTION_COLORS : list string :=
  ["#ebedf0"; "#9be9a8"; "#40c463"; "#30a14e"; "#216e39"].

Definition palette (colors : list string) : list string :=
  if (List.length colors =? 0)%nat then DEFAULT_CONTRIBUTION_COLORS
  else if (List.length DEFAULT_CONTRIBUTION_COLORS <=? List.length colors)%nat
  then firstn (List.length DEFAULT_CONTRIBUTION_COLORS) colors
  else (colors ++ skipn (List.length colors) DEFAULT_CONTRIBUTION_COLORS)%list.

(** [palette[Math.min(level, palette.length - 1)] ?? DEFAULT_CONTRIBUTION_COLORS[0]]
    for an integer [level]. *)
Definition cell_color (pal : list string) (level : Z) : string :=
  let i := Z.min level (Z.of_nat (List.length pal) - 1) in
  if i <? 0 then "#ebedf0"
  else Str.nullish (nth_error pal (Z.to_nat i)) "#ebedf0".

(** [getContributionText] *)
Definition getContributionText (count : Z) : string :=
  if count =? 0 then "No contributions"
  else if count =? 1 then "1 contribution"
  else Str.of_Z count ++ " contributions".

End ContributionGraph.

(* ================================================================== *)
(** ** Predicates used to state the properties of the handlers *)
(* ================================================================== *)

(** Every value the computation returns satisfies [P]. *)
Definition yields {A} (P : A -> Prop) (m : M A) : Prop :=
  forall w a w', m w = (Ok a, w') -> P a.

(** The computation leaves the tables as they are, however it ends. *)
Definition keeps_db {A} (m : M A) : Prop :=
  forall w, db (snd (m w)) = db w.

(** The uniform envelope: the transport status is the envelope's
    [status_code]; a success carries data and no error; a failure carries no
    data and a non-empty error text. *)
Definition well_formed {T} (r : NextResponse T) : Prop :=
  http_status r = status_code (body r)
  /\ (success (body r) = true -> error (body r) = None /\ data (body r) <> None)
  /\ (success (body r) = false ->
      data (body r) = None
      /\ exists m, error (body r) = Some m /\ m <> "").

(** The request carries the bearer token [token], and the identity provider
    does not resolve it to a user. *)
Definition token_rejected (env : Env) (req : NextRequest) (token : string) : Prop :=
  extractBearerToken (authorization req) = Some token
  /\ (idp_error (idp_getUser env token) <> None
      \/ idp_user (idp_getUser env token) = None).

(** The request's own Authorization header yields no bearer token. *)
Definition no_bearer (req : NextRequest) : Prop :=
  extractBearerToken (authorization req) = None.

(** The answer of a handler that fell through to [headers()]: a 500 with the
    TypeError's text, no outbound call and nothing written. *)
Definition headers_crash {T} (w : World) (run : NextResponse T * World) : Prop :=
  http_status (fst run) = 500
  /\ status_code (body (fst run)) = 500
  /\ success (body (fst run)) = false
  /\ error (body (fst run)) = Some "headerList.get is not a function"
  /\ snd run = w.

(** [P] holds of the run of each of the fifteen envelope routes, the
    project-scoped ones as routed to project [id]. *)
Definition every_route (P : forall T, NextResponse T * World -> Prop)
    (env : Env) (sv : Services) (req : NextRequest) (id : string) (w : World) : Prop :=
  P _ (DocumentationRoute.GET env req id w)
  /\ P _ (DocumentationRoute.PUT env req id w)
  /\ P _ (AttachmentsRoute.GET env req id w)
  /\ P _ (AttachmentsRoute.POST env req id w)
  /\ P _ (ProjectRoute.GET env req id w)
  /\ P _ (ProjectRoute.PATCH env req id w)
  /\ P _ (ProjectsRoute.GET env req w)
  /\ P _ (ProjectsRoute.POST env req w)
  /\ P _ (StoreGithubTokenRoute.POST env req w)
  /\ P _ (ContributionsRoute.GET env req w)
  /\ P _ (ReposRoute.GET env sv req w)
  /\ P _ (UserRoute.GET env req w)
  /\ P _ (ActivityRoute.GET env sv req w)
  /\ P _ (ProfileRepoRoute.GET env sv req w)
  /\ P _ (SessionRoute.GET env req w).

(** An answer to a request whose bearer token was not accepted. *)
Definition rejected {T} (w : World) (run : NextResponse T * World) : Prop :=
  http_status (fst run) = 401
  /\ status_code (body (fst run)) = 401
  /\ success (body (fst run)) = false
  /\ db (snd run) = db w
  /\ forall ev, In ev (issued w (snd run)) -> exists t, ev = EvGetUser t.

(* ================================================================== *)
(** ** More of the sample deployment *)
(* ================================================================== *)

Module Demo.

Definition event (n : string) : GithubApiEvent :=
  {| event_id := n; event_type := Some "PushEvent";
     event_repo_name := Some "octocat/Hello-World";
     event_created_at := Some "2024-01-20T10:00:00Z" |}.

Definition events : list GithubApiEvent :=
  map event ["e01"; "e02"; "e03"; "e04"; "e05"; "e06";
             "e07"; "e08"; "e09"; "e10"; "e11"; "e12"].

(** GitHub with octocat's profile repository, whose README cannot be read. *)
Definition sv : Services :=
  {| gh_repos := fun _ _ =>
       {| resp_status := 200; resp_text := "";
          resp_json := Some [Sample.hello_world 80] |};
     gh_events := fun _ _ =>
       {| resp_status := 200; resp_text := ""; resp_json := Some events |};
     gh_readme := fun _ _ =>
       {| resp_status := 404; resp_text := "Not Found"; resp_json := None |};
     gh_content := fun _ _ =>
       {| resp_status := 404; resp_text := "Not Found"; resp_json := None |};
     buffer_decode := fun content encoding =>
       if String.eqb encoding "base64" && String.eqb content "SGVsbG8="
       then Some "Hello" else None |}.

(** The sample deployment where GitHub also serves octocat/octocat. *)
Definition env : Env :=
  {| idp_getUser := idp_getUser Sample.env;
     gh_user := gh_user Sample.env;
     gh_repo := fun url token =>
       if String.eqb url "https://api.github.com/repos/octocat/octocat"
       then {| resp_status := 200; resp_text := "";
               resp_json := Some (Sample.hello_world 3) |}
       else gh_repo Sample.env url token;
     gh_graphql := gh_graphql Sample.env;
     db_fault := db_fault Sample.env;
     storage_fault := storage_fault Sample.env;
     public_url := public_url Sample.env;
     now_iso := now_iso Sample.env;
     uploaded_path := uploaded_path Sample.env;
     date_now := date_now Sample.env;
     gen_uuid := gen_uuid Sample.env;
     default_meta := default_meta Sample.env;
     zod_message := zod_message Sample.env;
     syntax_message := syntax_message Sample.env |}.



(** The sample deployment with the documentation table not yet created. *)
Definition env_no_doc_table : Env :=
  {| idp_getUser := idp_getUser Sample.env;
     gh_user := gh_user Sample.env;
     gh_repo := gh_repo Sample.env;
     gh_graphql := gh_graphql Sample.env;
     db_fault := fun t v =>
       match t with
       | t_project_documentation =>
           Some {| db_message := "Could not find the table 'public.project_documentation' in the schema cache";
                   db_code := Some "PGRST205" |}
       | _ => None
       end;
     storage_fault := storage_fault Sample.env;
     public_url := public_url Sample.env;
     now_iso := now_iso Sample.env;
     uploaded_path := uploaded_path Sample.env;
     date_now := date_now Sample.env;
     gen_uuid := gen_uuid Sample.env;
     default_meta := default_meta Sample.env;
     zod_message := zod_message Sample.env;
     syntax_message := syntax_message Sample.env |}.

Definition upload (bearer : string) (files : list File) : NextRequest :=
  {| authorization := Some ("Bearer " ++ bearer);
     body_json := None;
     searchParams := [];
     form_files := Some files |}.



Definition doc_body : Json :=
  JObj [("content", JObj [("type", JStr "doc")]); ("content_text", JStr "Hello")].


(** The sample tables before anything was imported. *)
Definition db_no_projects : Db :=
  {| profiles := profiles Sample.db0;
     user_tokens := user_tokens Sample.db0;
     projects := [];
     project_documentation := [];
     project_documents := [];
     storage := [] |}.



(** The repository picker opened with [?full_name=]. *)
Definition picker : NextRequest :=
  {| authorization := Some "Bearer jwt-alice";
     body_json := None;
     searchParams := [("full_name", "")];
     form_files := None |}.

Definition picker_deep : NextRequest :=
  {| authorization := Some "Bearer jwt-alice";
     body_json := None;
     searchParams := [("full_name", "octocat/Hello-World/tree")];
     form_files := None |}.

(** GitHub answering every repository lookup. *)
Definition env_deep : Env :=
  {| idp_getUser := idp_getUser Sample.env;
     gh_user := gh_user Sample.env;
     gh_repo := fun _ _ =>
       {| resp_status := 200; resp_text := "";
          resp_json := Some (Sample.hello_world 80) |};
     gh_graphql := gh_graphql Sample.env;
     db_fault := db_fault Sample.env;
     storage_fault := storage_fault Sample.env;
     public_url := public_url Sample.env;
     now_iso := now_iso Sample.env;
     uploaded_path := uploaded_path Sample.env;
     date_now := date_now Sample.env;
     gen_uuid := gen_uuid Sample.env;
     default_meta := default_meta Sample.env;
     zod_message := zod_message Sample.env;
     syntax_message := syntax_message Sample.env |}.

(** A promotion request naming Carol by a plain [id], sent without any
    authorization header. *)
Definition promote_carol : NextRequest :=
  {| authorization := None;
     body_json := Some (JObj [("id", JStr "carol")]);
     searchParams := [];
     form_files := None |}.

Definition promote_alice : NextRequest :=
  {| authorization := None;
     body_json := Some (JObj [("id", JStr "alice")]);
     searchParams := [];
     form_files := None |}.

(** A UUID test that accepts nothing. *)
Definition no_uuid (s : string) : bool := false.

End Demo.

(** The access rule of the project-scoped routes: the caller owns the project
    or has the expert role. *)
Definition may_access (user : SupabaseUser) (prof : option ProfileRow) (p : ProjectRow)
    : bool :=
  opt_eqb (project_user_id p) (uid user) || is_expert prof.


(** The documentation row a PUT stores. *)
Definition documentation_row (env : Env) (user : SupabaseUser) (id : string)
    (payload : DocumentationRoute.UpdatePayload) : DocumentationRow :=
  {| doc_project_id := id;
     doc_content := DocumentationRoute.content payload;
     doc_content_text := DocumentationRoute.content_text payload;
     doc_updated_at := now_iso env;
     doc_updated_by := uid user |}.

(** A 200 answer carrying [d]. *)
Definition answers_with {T} (r : NextResponse T) (d : T) : Prop :=
  http_status r = 200 /\ success (body r) = true /\ data (body r) = Some d.

(** The world after the session check and the two reads of [ensureAccess]. *)
Definition after_access (token : string) (w : World) : World :=
  log (EvQuery t_projects v_select)
    (log (EvQuery t_profiles v_select) (log (EvGetUser token) w)).





(** Each element is in the relation [le] with the next one. *)
Fixpoint ordered {A} (le : A -> A -> bool) (l : list A) : Prop :=
  match l with
  | x :: r => match r with
              | y :: _ => le x y = true
              | [] => True
              end /\ ordered le r
  | [] => True
  end.



(** The session check, the vault read and the profile fetch that open the
    GitHub read routes. *)
Definition after_profile (token tok : string) (w : World) : World :=
  log (EvFetch (GITHUB_API ++ "/user") tok)
    (log (EvQuery t_user_tokens v_select) (log (EvGetUser token) w)).

(** [d'] is [d] with the profiles of [userId], if any, holding the expert
    role: same profile keys in the same order, other profiles and all other
    tables as they were. *)
Definition promotes (userId : string) (d d' : Db) : Prop :=
  map profile_id (profiles d') = map profile_id (profiles d)
  /\ (forall p, In p (profiles d') -> profile_id p = userId ->
                profile_role p = Some expert)
  /\ filter (fun p => negb (String.eqb (profile_id p) userId)) (profiles d')
     = filter (fun p => negb (String.eqb (profile_id p) userId)) (profiles d)
  /\ user_tokens d' = user_tokens d
  /\ projects d' = projects d
  /\ project_documentation d' = project_documentation d
  /\ project_documents d' = project_documents d
  /\ storage d' = storage d.

(** [message || `<fallback><status>`] for a reply that is not ok. *)
Definition upstream_message {T} (fallback : string) (reply : HttpResponse T) : string :=
  Str.or_else (resp_text reply) (fallback ++ Str.of_Z (resp_status reply)).

(** ** Case analysis along a handler body *)

(** Reduce [issued w w'] to the list of calls appended to the trace. *)
Ltac norm_issued :=
  unfold issued, log; cbn [trace db];
  repeat rewrite <- app_assoc;
  try (rewrite skipn_app, skipn_all, Nat.sub_diag; cbn [skipn app Nat.sub]);
  try rewrite skipn_all.

(** Split on the first test the run is stuck on: a [match] whose scrutinee
    holds no other [match]. *)
Ltac case_head :=
  match goal with
  | |- context [match ?x with _ => _ end] =>
      lazymatch x with
      | context [match _ with _ => _ end] => fail
      | _ => destruct x eqn:?
      end
  end.

Ltac run_cases := repeat (case_head; cbn in *).

Ltac unfold_lib :=
  unfold getProfileByUserId, getGithubTokenForUser, githubRequest,
    fetchGithubUser, fetchRepoByFullName, fetchGithubContributions,
    bind, select, query, emit, zod_fail, request_json, request_formData,
    throw, ret.

(* ================================================================== *)
(** * Properties *)
(* ================================================================== *)

(** ** Stepping lemmas for the library calls *)

Lemma issued_log (w : World) (l : list Event) (d : Db) :
  issued w {| db := d; trace := (trace w ++ l)%list |} = l.
Proof.
  unfold issued; simpl.
  rewrite skipn_app, skipn_all, Nat.sub_diag; reflexivity.
Qed.

Lemma db_log e w : db (log e w) = db w.
Proof. reflexivity. Qed.

Lemma getTokenFromRequest_bearer req token w :
  extractBearerToken (authorization req) = Some token ->
  getTokenFromRequest (Some req) w = (Ok (Some token), w).
Proof. intros H. unfold getTokenFromRequest. rewrite H. reflexivity. Qed.

Lemma assertSupabaseUser_ok env req token user w :
  authenticated env req token user ->
  assertSupabaseUser env (Some req) w = (Ok user, log (EvGetUser token) w).
Proof.
  intros (Ht & He & Hu).
  unfold assertSupabaseUser, bind. rewrite (getTokenFromRequest_bearer _ w Ht).
  unfold emit. rewrite He, Hu. reflexivity.
Qed.

(** Without a bearer token of its own the request falls through to
    [headers()], which throws before anything is called. *)
Lemma assertSupabaseUser_no_bearer env req w :
  no_bearer req ->
  assertSupabaseUser env (Some req) w
  = (Throw {| err_class := TypeError;
              err_message := "headerList.get is not a function";
              err_status := None |}, w).
Proof.
  intros H. unfold assertSupabaseUser, bind, getTokenFromRequest.
  rewrite H. reflexivity.
Qed.

(** A bearer token the identity provider does not resolve is an [AuthError]
    with status 401, thrown after the one call to the provider. *)
Lemma assertSupabaseUser_rejected env req token w :
  token_rejected env req token ->
  exists e,
    assertSupabaseUser env (Some req) w = (Throw e, log (EvGetUser token) w)
    /\ err_class e = AuthError /\ err_status e = Some 401.
Proof.
  intros (Ht & Hr).
  unfold assertSupabaseUser, bind. rewrite (getTokenFromRequest_bearer _ w Ht).
  unfold emit.
  destruct (idp_error (idp_getUser env token)) as [m|] eqn:He.
  - eexists. repeat split.
  - destruct Hr as [Hr|Hr]; [contradiction|]. rewrite Hr. eexists. repeat split.
Qed.

(** The three ways the session check ends. *)
Lemma assertSupabaseUser_cases env req :
  (exists token user, authenticated env req token user)
  \/ (exists token, token_rejected env req token)
  \/ no_bearer req.
Proof.
  unfold authenticated, token_rejected, no_bearer.
  destruct (extractBearerToken (authorization req)) as [token|]; [|auto].
  destruct (idp_error (idp_getUser env token)) as [m|] eqn:He.
  - right. left. exists token. split; [reflexivity|]. left. rewrite He. discriminate.
  - destruct (idp_user (idp_getUser env token)) as [user|] eqn:Hu.
    + left. exists token, user. auto.
    + right. left. exists token. split; [reflexivity|]. right. exact Hu.
Qed.

(** A failed session check never touches the tables, and calls at most the
    identity provider. *)
Lemma assertSupabaseUser_throws env req w e w' :
  assertSupabaseUser env (Some req) w = (Throw e, w') ->
  db w' = db w
  /\ (forall ev, In ev (issued w w') -> exists t, ev = EvGetUser t)
  /\ ((exists token, token_rejected env req token
                      /\ err_class e = AuthError /\ err_status e = Some 401
                      /\ w' = log (EvGetUser token) w)
      \/ (no_bearer req /\ err_class e = TypeError /\ err_status e = None
          /\ err_message e = "headerList.get is not a function" /\ w' = w)).
Proof.
  intros H.
  destruct (assertSupabaseUser_cases env req)
    as [(token & user & Hauth)|[(token & Hrej)|Hno]].
  - rewrite (assertSupabaseUser_ok w Hauth) in H. discriminate.
  - destruct (assertSupabaseUser_rejected w Hrej) as (e0 & E & Hc & Hs).
    rewrite E in H. injection H as <- <-.
    split; [reflexivity|]. split.
    + intros ev. unfold log. rewrite issued_log. intros [<-|[]]. eauto.
    + left. exists token. auto.
  - rewrite (assertSupabaseUser_no_bearer env w Hno) in H. injection H as <- <-.
    split; [reflexivity|]. split.
    + unfold issued. rewrite skipn_all. intros ev [].
    + right. auto.
Qed.

(** The session check yields a user, or throws having called at most the
    identity provider. *)
Lemma assertSupabaseUser_run env req w :
  (exists token user,
      authenticated env req token user
      /\ assertSupabaseUser env (Some req) w = (Ok user, log (EvGetUser token) w))
  \/ (exists e w',
         assertSupabaseUser env (Some req) w = (Throw e, w')
         /\ db w' = db w
         /\ forall ev, In ev (issued w w') -> exists t, ev = EvGetUser t).
Proof.
  destruct (assertSupabaseUser env (Some req) w) as [[user|e] w'] eqn:E.
  - left.
    destruct (assertSupabaseUser_cases env req)
      as [(token & user' & Hauth)|[(token & Hrej)|Hno]].
    + exists token, user'. split; [exact Hauth|].
      rewrite <- E. apply assertSupabaseUser_ok. exact Hauth.
    + destruct (assertSupabaseUser_rejected w Hrej) as (e0 & E0 & _).
      rewrite E0 in E. discriminate.
    + rewrite (assertSupabaseUser_no_bearer env w Hno) in E. discriminate.
  - right. exists e, w'. split; [reflexivity|].
    destruct (@assertSupabaseUser_throws env req w e w' E) as (D & I & _).
    split; assumption.
Qed.

Lemma select_run {A} env t (read : Db -> DbResult A) w :
  answers env t v_select ->
  select env t read w = (Ok (read (db w)), log (EvQuery t v_select) w).
Proof.
  unfold answers, select, query. intros ->. reflexivity.
Qed.

Lemma getProfileByUserId_ok env userId w row :
  answers env t_profiles v_select ->
  select_profile userId (db w) = DbOk row ->
  getProfileByUserId env userId w = (Ok row, log (EvQuery t_profiles v_select) w).
Proof.
  intros Ha Hs. unfold getProfileByUserId, bind.
  rewrite (select_run _ _ Ha), Hs. reflexivity.
Qed.

Lemma getGithubTokenForUser_ok env userId w tok :
  answers env t_user_tokens v_select ->
  select_github_token userId (db w) = DbOk (Some (Some tok)) ->
  Str.truthy tok = true ->
  getGithubTokenForUser env userId w = (Ok tok, log (EvQuery t_user_tokens v_select) w).
Proof.
  intros Ha Hs Ht. unfold getGithubTokenForUser, bind.
  rewrite (select_run _ _ Ha), Hs, Ht. reflexivity.
Qed.

Lemma opt_eqb_true a b : opt_eqb a b = true <-> a = Some b.
Proof.
  destruct a as [x|]; simpl; [|split; discriminate].
  rewrite String.eqb_eq. split; congruence.
Qed.

Lemma opt_eqb_false a b : a <> Some b -> opt_eqb a b = false.
Proof.
  intros H. destruct (opt_eqb a b) eqn:E; [|reflexivity].
  apply opt_eqb_true in E. contradiction.
Qed.

Lemma is_expert_role p : profile_role p = Some expert -> is_expert (Some p) = true.
Proof. unfold is_expert. intros ->. reflexivity. Qed.

(** The only error a [maybeSingle] read of the documentation table raises by
    itself is PGRST116, which the route counts as a missing table. *)
Lemma select_documentation_error id d e :
  DocumentationRoute.select_documentation id d = DbErr e ->
  DocumentationRoute.isTableMissing e = true.
Proof.
  unfold DocumentationRoute.select_documentation, maybeSingle.
  destruct (filter _ _) as [|a [|b l]]; try discriminate.
  intros [= <-]. reflexivity.
Qed.

Lemma ensureAccess_expert env id userId w p ref :
  answers env t_profiles v_select ->
  answers env t_projects v_select ->
  select_profile userId (db w) = DbOk (Some p) ->
  profile_role p = Some expert ->
  select_project_ref id (db w) = DbOk (Some ref) ->
  DocumentationRoute.ensureAccess env id userId w
  = (Ok {| DocumentationRoute.project := Some ref;
           DocumentationRoute.profile := Some p;
           DocumentationRoute.isOwner := opt_eqb (ref_user_id ref) userId;
           DocumentationRoute.isExpert := true |},
     log (EvQuery t_projects v_select) (log (EvQuery t_profiles v_select) w)).
Proof.
  intros Ha Hb Hp Hr Hs.
  unfold DocumentationRoute.ensureAccess, bind.
  rewrite (getProfileByUserId_ok _ _ Ha Hp).
  rewrite (select_run _ _ Hb), db_log, Hs.
  rewrite (is_expert_role _ Hr), andb_false_r. reflexivity.
Qed.

(** ** Concrete runs of the helpers *)

Example bearer_header :
  extractBearerToken (Some "Bearer abc.def") = Some "abc.def"
  /\ extractBearerToken (Some "bearer abc") = Some "abc"
  /\ extractBearerToken (Some "Basic abc") = None
  /\ extractBearerToken (Some "Bearer") = None
  /\ extractBearerToken (Some "Bearer  abc") = None
  /\ extractBearerToken None = None.
Proof. repeat split. Qed.

Example owner_repo_pattern :
  owner_repo_regex "octocat/Hello-World" = true
  /\ owner_repo_regex "octocat" = false
  /\ owner_repo_regex "octocat/" = false
  /\ owner_repo_regex "/Hello-World" = false
  /\ owner_repo_regex "a/b/c" = false
  /\ owner_repo_regex "" = false.
Proof. repeat split. Qed.

Example envelope_on_failure :
  @standardResponse unit false None 500 (Some "")
  = {| success := false; data := None; error := Some "Unexpected error";
       status_code := 500 |}.
Proof. reflexivity. Qed.

Example status_text : Str.of_Z 404 = "404".
Proof. reflexivity. Qed.

Example table_missing_codes :
  DocumentationRoute.isTableMissing
    {| db_message := "Could not find the table 'public.project_documentation'";
       db_code := Some "PGRST205" |} = true
  /\ DocumentationRoute.isTableMissing
       {| db_message := "connection reset"; db_code := None |} = false.
Proof. split; reflexivity. Qed.

(** ** Documentation: experts read, owners write *)

Lemma PUT_write_means_owner env req id w :
  In (EvQuery t_project_documentation v_upsert)
     (issued w (snd (DocumentationRoute.PUT env req id w))) ->
  exists token user ref,
    authenticated env req token user
    /\ select_project_ref id (db w) = DbOk (Some ref)
    /\ ref_user_id ref = Some (uid user).
Proof.
  unfold DocumentationRoute.PUT, try_catch, DocumentationRoute.PUT_body.
  unfold bind at 1.
  destruct (assertSupabaseUser_run env req w) as
    [(token & user & Hauth & ->)|(e & w' & -> & _ & Hev)].
  2:{ cbn. intros H. apply Hev in H as [t H]. discriminate. }
  unfold DocumentationRoute.ensureAccess. unfold_lib.
  rewrite !db_log.
  run_cases; norm_issued; cbn [In];
    intros H; try (exfalso; intuition discriminate).
  all: exists token, user; eexists; split; [assumption|].
  all: split; [reflexivity|].
  all: apply opt_eqb_true, negb_false_iff; assumption.
Qed.

(** C1.  An authenticated caller whose profile role is [expert] and who does
    not own the existing project [id] gets 403 with [success = false] from
    PUT /api/projects/{id}/documentation, and the PUT writes nothing; the GET
    on the same route answers 200 (the datastore answering its reads, a
    missing documentation table counting as "no documentation").  Whenever a
    PUT does reach the documentation upsert, the caller is the project's
    owning user. *)
Theorem documentation_expert_reads_owner_writes
    env req id w token user p ref :
  authenticated env req token user ->
  answers env t_profiles v_select ->
  answers env t_projects v_select ->
  (forall e, db_fault env t_project_documentation v_select = Some e ->
             DocumentationRoute.isTableMissing e = true) ->
  select_profile (uid user) (db w) = DbOk (Some p) ->
  profile_role p = Some expert ->
  select_project_ref id (db w) = DbOk (Some ref) ->
  ref_user_id ref <> Some (uid user) ->
  let put := DocumentationRoute.PUT env req id w in
  let get := DocumentationRoute.GET env req id w in
  (http_status (fst put) = 403
   /\ success (body (fst put)) = false
   /\ status_code (body (fst put)) = 403
   /\ db (snd put) = db w
   /\ ~ In (EvQuery t_project_documentation v_upsert) (issued w (snd put)))
  /\ (http_status (fst get) = 200
      /\ success (body (fst get)) = true
      /\ status_code (body (fst get)) = 200)
  /\ (forall env' req' w',
         In (EvQuery t_project_documentation v_upsert)
            (issued w' (snd (DocumentationRoute.PUT env' req' id w'))) ->
         exists token' user' ref',
           authenticated env' req' token' user'
           /\ select_project_ref id (db w') = DbOk (Some ref')
           /\ ref_user_id ref' = Some (uid user')).
Proof.
  intros Hauth Hp Hq Hd Hprof Hrole Hproj Hown put get.
  assert (Ea := @ensureAccess_expert env id (uid user) (log (EvGetUser token) w) p ref
                 Hp Hq Hprof Hrole Hproj).
  rewrite (opt_eqb_false Hown) in Ea.
  split; [|split].
  - subst put. unfold DocumentationRoute.PUT, try_catch, DocumentationRoute.PUT_body.
    unfold bind. rewrite (assertSupabaseUser_ok _ Hauth), Ea. cbn.
    repeat split. norm_issued. cbn. intuition discriminate.
  - subst get. unfold DocumentationRoute.GET, try_catch, DocumentationRoute.GET_body.
    unfold bind. rewrite (assertSupabaseUser_ok _ Hauth), Ea. cbn.
    unfold select, query.
    destruct (db_fault env t_project_documentation v_select) as [e|] eqn:F.
    + rewrite (Hd e eq_refl). cbn. auto.
    + cbn.
      destruct (DocumentationRoute.select_documentation id (db w)) as [row|e] eqn:S.
      * cbn. auto.
      * rewrite (select_documentation_error _ _ S). cbn. auto.
  - intros env' req' w'. apply PUT_write_means_owner.
Qed.

(** Bob, an expert, on Alice's project. *)
Lemma documentation_expert_reads_owner_writes_witness :
  http_status (fst (DocumentationRoute.PUT Sample.env
                      (Sample.request "jwt-bob" (Some (JObj []))) "p1" Sample.w0)) = 403
  /\ http_status (fst (DocumentationRoute.GET Sample.env
                         (Sample.request "jwt-bob" None) "p1" Sample.w0)) = 200.
Proof.
  pose proof (@documentation_expert_reads_owner_writes
                Sample.env (Sample.request "jwt-bob" (Some (JObj []))) "p1" Sample.w0
                "jwt-bob" Sample.bob
                {| profile_id := "bob"; profile_username := Some "bob";
                   profile_full_name := None; profile_role := Some expert;
                   profile_avatar_url := None |}
                {| ref_id := "p1"; ref_user_id := Some "alice" |}) as H.
  pose proof (@documentation_expert_reads_owner_writes
                Sample.env (Sample.request "jwt-bob" None) "p1" Sample.w0
                "jwt-bob" Sample.bob
                {| profile_id := "bob"; profile_username := Some "bob";
                   profile_full_name := None; profile_role := Some expert;
                   profile_avatar_url := None |}
                {| ref_id := "p1"; ref_user_id := Some "alice" |}) as G.
  split.
  - apply H; try reflexivity; try discriminate.
    repeat split.
  - apply G; try reflexivity; try discriminate.
    repeat split.
Defined.

(** With the documentation table unreachable the same GET is an upstream
    failure: the error is rethrown and the envelope carries 500. *)
Example documentation_get_store_down :
  http_status (fst (DocumentationRoute.GET Sample.env_doc_down
                      (Sample.request "jwt-bob" None) "p1" Sample.w0)) = 500.
Proof. reflexivity. Qed.

(** ** Project-scoped routes on a project id that matches no row *)



(** The metadata and attachment handlers when the lookup by [params.id]
    finds no row. *)
Section NoRow.

Variables (env : Env) (req : NextRequest) (params : RouteParams) (w : World).
Variables (token : string) (user : SupabaseUser) (prof : option ProfileRow).

Hypothesis Hauth : authenticated env req token user.
Hypothesis Hprofiles : answers env t_profiles v_select.
Hypothesis Hprojects : answers env t_projects v_select.
Hypothesis Hprof : select_profile (uid user) (db w) = DbOk prof.
Hypothesis Hnone : project_rows_by (params_id params) (db w) = [].







End NoRow.

Section MissingProject.

Variables (env : Env) (req : NextRequest) (id : string) (w : World).
Variables (token : string) (user : SupabaseUser) (prof : option ProfileRow).

Hypothesis Hauth : authenticated env req token user.
Hypothesis Hprofiles : answers env t_profiles v_select.
Hypothesis Hprojects : answers env t_projects v_select.
Hypothesis Hprof : select_profile (uid user) (db w) = DbOk prof.
Hypothesis Hnone : project_rows id (db w) = [].








End MissingProject.




(** ** Token storage validates before it writes *)

(** In every run of the token-storage handler, the upsert into [user_tokens]
    comes after a fetch of the GitHub profile endpoint. *)
Lemma store_token_fetch_before_upsert env req w pre post :
  issued w (snd (StoreGithubTokenRoute.POST env req w))
  = (pre ++ EvQuery t_user_tokens v_upsert :: post)%list ->
  exists t, In (EvFetch "https://api.github.com/user" t) pre.
Proof.
  unfold StoreGithubTokenRoute.POST, try_catch, StoreGithubTokenRoute.POST_body.
  unfold bind at 1.
  destruct (assertSupabaseUser_run env req w) as
    [(token & user & Hauth & ->)|(e & w' & -> & _ & Hev)].
  2:{ cbn. intros H.
      destruct (Hev (EvQuery t_user_tokens v_upsert)) as [t Ht]; [|discriminate].
      rewrite H. apply in_elt. }
  unfold_lib.
  run_cases; norm_issued; intros H.
  all: try (destruct pre as [|? [|? [|? [|? ?]]]]; cbn in H; discriminate).
  all: destruct pre as [|ev1 [|ev2 pre]]; cbn in H; try discriminate.
  all: injection H; intros; subst; eexists; right; left; reflexivity.
Qed.

(** C2.  When the provider token posted to /api/auth/store-github-token does
    not pass the GitHub profile check, the handler fails and the datastore,
    and so the caller's [user_tokens] row, is exactly as before: no upsert is
    issued.  In every run, an upsert into [user_tokens] is preceded by the
    profile fetch. *)
Theorem store_token_invalid_credential_keeps_vault env req w j provider_token :
  body_json req = Some j ->
  StoreGithubTokenRoute.payloadSchema j = Some provider_token ->
  profile_fetch_fails env provider_token ->
  let run := StoreGithubTokenRoute.POST env req w in
  user_tokens (db (snd run)) = user_tokens (db w)
  /\ db (snd run) = db w
  /\ success (body (fst run)) = false
  /\ ~ In (EvQuery t_user_tokens v_upsert) (issued w (snd run))
  /\ (forall env' req' w' pre post,
         issued w' (snd (StoreGithubTokenRoute.POST env' req' w'))
         = (pre ++ EvQuery t_user_tokens v_upsert :: post)%list ->
         exists t, In (EvFetch "https://api.github.com/user" t) pre).
Proof.
  intros Hj Hs Hf run.
  assert (db (snd run) = db w
          /\ success (body (fst run)) = false
          /\ ~ In (EvQuery t_user_tokens v_upsert) (issued w (snd run))) as (A & B & C).
  { remember run as r eqn:R. subst run. revert R.
    unfold StoreGithubTokenRoute.POST, try_catch, StoreGithubTokenRoute.POST_body.
    unfold bind at 1.
    destruct (assertSupabaseUser_run env req w) as
      [(token & user & Hauth & ->)|(e & w' & -> & Hd & Hev)]; intros ->.
    2:{ cbn. split; [exact Hd|]. split; [reflexivity|].
        intros H. apply Hev in H as [t H]. discriminate. }
    unfold_lib. rewrite Hj. cbn. rewrite Hs.
    unfold profile_fetch_fails in Hf. cbn in Hf.
    destruct Hf as [Hf|Hf]; rewrite Hf; cbn.
    - repeat split. norm_issued. cbn. intuition discriminate.
    - destruct (resp_ok _); cbn;
        repeat split; norm_issued; cbn; intuition discriminate. }
  rewrite A. repeat split; try assumption.
  intros env' req' w'. apply store_token_fetch_before_upsert.
Qed.

(** Alice posts a token GitHub rejects: her stored token stays. *)
Lemma store_token_invalid_credential_keeps_vault_witness :
  user_tokens (db (snd (StoreGithubTokenRoute.POST Sample.env
                          (Sample.request "jwt-alice"
                             (Some (JObj [("provider_token", JStr "gho_revoked")])))
                          Sample.w0)))
  = user_tokens Sample.db0.
Proof.
  apply (@store_token_invalid_credential_keeps_vault Sample.env
           (Sample.request "jwt-alice"
              (Some (JObj [("provider_token", JStr "gho_revoked")])))
           Sample.w0
           (JObj [("provider_token", JStr "gho_revoked")]) "gho_revoked").
  - reflexivity.
  - reflexivity.
  - left. reflexivity.
Defined.

(** ** A missing GitHub token is not an authentication failure *)

Lemma filter_none {A} (f : A -> bool) (l : list A) :
  (forall x, In x l -> f x = false) -> filter f l = [].
Proof.
  induction l as [|a l IH]; intros H; [reflexivity|].
  cbn. rewrite (H a (or_introl eq_refl)). apply IH.
  intros x Hx. apply H. right. assumption.
Qed.







(** ** Import: a malformed repository name stops the handler early *)





(** *** The pattern, spelled out *)

Lemma split_cons_parts sep s : Str.split sep s <> [].
Proof.
  destruct s as [|c r]; cbn; [discriminate|].
  destruct (Ascii.eqb c sep); [discriminate|].
  destruct (Str.split sep r); discriminate.
Qed.

(** Joining the pieces of [split] with the separator gives the string back. *)
Lemma concat_split sep s :
  String.concat (String sep EmptyString) (Str.split sep s) = s.
Proof.
  induction s as [|c r IH]; [reflexivity|].
  cbn [Str.split]. destruct (Ascii.eqb c sep) eqn:E.
  - apply Ascii.eqb_eq in E. subst c.
    pose proof (split_cons_parts sep r) as N.
    destruct (Str.split sep r) as [|x xs] eqn:S; [contradiction|].
    cbn in *. rewrite IH. reflexivity.
  - pose proof (split_cons_parts sep r) as N.
    destruct (Str.split sep r) as [|x xs] eqn:S; [contradiction|].
    cbn in *. destruct xs; cbn in *; rewrite <- IH; reflexivity.
Qed.

Lemma split_pieces_free sep s : Forall (free_of sep) (Str.split sep s).
Proof.
  induction s as [|c r IH]; cbn [Str.split].
  - repeat constructor.
  - destruct (Ascii.eqb c sep) eqn:E.
    + constructor; [exact I|assumption].
    + apply Ascii.eqb_neq in E.
      destruct (Str.split sep r) as [|x xs]; [repeat constructor; assumption|].
      inversion IH; subst. constructor; [split; assumption|assumption].
Qed.

Lemma split_free sep s : free_of sep s -> Str.split sep s = [s].
Proof.
  induction s as [|c r IH]; [reflexivity|].
  intros [Hc Hr]. cbn [Str.split].
  apply Ascii.eqb_neq in Hc. rewrite Hc, (IH Hr). reflexivity.
Qed.

Lemma split_app_sep sep a b :
  free_of sep a ->
  Str.split sep (a ++ String sep b) = a :: Str.split sep b.
Proof.
  induction a as [|c r IH]; intros H.
  - cbn. rewrite Ascii.eqb_refl. reflexivity.
  - destruct H as [Hc Hr]. cbn [append Str.split].
    apply Ascii.eqb_neq in Hc. rewrite Hc, (IH Hr). reflexivity.
Qed.

(** The import pattern accepts exactly the strings [owner/repo] with both
    parts non-empty and free of slashes. *)
Lemma owner_repo_regex_spec s :
  owner_repo_regex s = true
  <-> exists owner repo,
        s = owner ++ "/" ++ repo
        /\ owner <> "" /\ repo <> ""
        /\ free_of "/" owner /\ free_of "/" repo.
Proof.
  unfold owner_repo_regex. split.
  - pose proof (concat_split "/" s) as C.
    pose proof (split_pieces_free "/" s) as F.
    destruct (Str.split "/" s) as [|a [|b [|c l]]]; try discriminate.
    intros H. apply andb_true_iff in H as [Ha Hb].
    exists a, b. cbn in C. inversion F as [|? ? Fa F']; subst.
    inversion F' as [|? ? Fb _]; subst.
    repeat split; auto.
    + intros ->. discriminate.
    + intros ->. discriminate.
  - intros (a & b & -> & Ha & Hb & Fa & Fb).
    change (a ++ "/" ++ b) with (a ++ String "/" b).
    rewrite (@split_app_sep "/" a b Fa), (@split_free "/" b Fb).
    destruct a; [contradiction|]. destruct b; [contradiction|]. reflexivity.
Qed.

(** ** Upstream failures *)

Lemma or_else_truthy a b : Str.truthy b = true -> Str.truthy (Str.or_else a b) = true.
Proof. unfold Str.or_else. destruct (Str.truthy a) eqn:E; auto. Qed.

Lemma or_else_idem a b : Str.truthy a = true -> Str.or_else a b = a.
Proof. unfold Str.or_else. intros ->. reflexivity. Qed.

(** What [githubRequest] throws on a reply with status [st] and body [text]. *)
Lemma githubRequest_not_ok {T} env (fetch : string -> string -> HttpResponse T)
    path token w :
  resp_ok (fetch (GITHUB_API ++ path) token) = false ->
  githubRequest env fetch path token w
  = (Throw (Error (upstream_message "GitHub request failed with "
                     (fetch (GITHUB_API ++ path) token))),
     log (EvFetch (GITHUB_API ++ path) token) w).
Proof.
  intros H. unfold githubRequest, bind, emit. rewrite H. reflexivity.
Qed.

Lemma githubRequest_ok {T} env (fetch : string -> string -> HttpResponse T)
    path token w v :
  resp_ok (fetch (GITHUB_API ++ path) token) = true ->
  resp_json (fetch (GITHUB_API ++ path) token) = Some v ->
  githubRequest env fetch path token w = (Ok v, log (EvFetch (GITHUB_API ++ path) token) w).
Proof.
  intros Hok Hjson. unfold githubRequest, bind, emit.
  rewrite Hok, Hjson. reflexivity.
Qed.

(** The README part of [fetchGithubProfileRepo] never throws. *)
Lemma readme_is_best_effort env sv token username (repo : GithubApiRepository) w :
  resp_ok (gh_repo env (GITHUB_API ++ "/repos/" ++ username ++ "/" ++ username) token)
  = true ->
  resp_json (gh_repo env (GITHUB_API ++ "/repos/" ++ username ++ "/" ++ username) token)
  = Some repo ->
  exists readme w',
    fetchGithubProfileRepo env sv token username w = (Ok (repo, readme), w')
    /\ db w' = db w
    /\ let r := gh_readme sv (GITHUB_API ++ "/repos/" ++ username ++ "/" ++ username
                              ++ "/readme") token in
       forall text, readme = Some text ->
         resp_ok r = true
         /\ exists body, resp_json r = Some body
              /\ buffer_decode sv (readme_content body)
                   (Str.nullish (readme_encoding body) "base64") = Some text.
Proof.
  intros Hok Hjson. unfold fetchGithubProfileRepo.
  unfold bind at 1.
  rewrite (@githubRequest_ok _ env (gh_repo env) ("/repos/" ++ username ++ "/" ++ username)
             token w repo Hok Hjson).
  unfold bind at 1, try_with, bind at 1, githubRequest at 1, bind at 1, emit.
  set (r := gh_readme sv _ token).
  destruct (resp_ok r) eqn:E1; cbn [negb].
  2:{ eexists None, _. split; [reflexivity|]. split; [reflexivity|]. discriminate. }
  destruct (resp_json r) as [body|] eqn:E2.
  2:{ eexists None, _. split; [reflexivity|]. split; [reflexivity|]. discriminate. }
  unfold ret at 1.
  destruct (Str.truthy (readme_content body)) eqn:E3.
  2:{ eexists None, _. split; [reflexivity|]. split; [reflexivity|]. discriminate. }
  destruct (buffer_decode sv _ _) as [text|] eqn:E4.
  2:{ eexists None, _. split; [reflexivity|]. split; [reflexivity|]. discriminate. }
  eexists (Some text), _. split; [reflexivity|]. split; [reflexivity|].
  intros text' [= <-]. split; [reflexivity|]. exists body. split; [reflexivity|exact E4].
Qed.

(** The envelope shows the thrown message as it is: it is never empty. *)
Lemma upstream_message_surfaces {T} fallback (reply : HttpResponse T) :
  Str.truthy fallback = true ->
  error (body (@on_error unit (Error (upstream_message fallback reply))))
  = Some (upstream_message fallback reply).
Proof.
  intros Hf.
  assert (Str.truthy (upstream_message fallback reply) = true) as Hm.
  { apply or_else_truthy. destruct fallback; [discriminate|reflexivity]. }
  cbn. unfold Str.or_else at 1. rewrite Hm. reflexivity.
Qed.

Lemma fetchGithubContributions_not_ok env token w :
  resp_ok (gh_graphql env "https://api.github.com/graphql" token) = false ->
  fetchGithubContributions env token w
  = (Throw (Error (upstream_message "GitHub GraphQL failed with "
                     (gh_graphql env "https://api.github.com/graphql" token))),
     log (EvFetch "https://api.github.com/graphql" token) w).
Proof.
  intros H. unfold fetchGithubContributions, bind, emit. rewrite H. reflexivity.
Qed.

(** C7 (as amended).  A repository-client request that receives a non-2xx
    reply throws a plain [Error] whose message is the upstream body text, or,
    when the body is empty, a fallback naming the upstream status: "GitHub
    request failed with <status>" for the REST calls, which all go through
    [githubRequest], and "GitHub GraphQL failed with <status>" for the
    contributions call.  The one reply that is not surfaced is that of the
    README request inside [fetchGithubProfileRepo], whose failure only leaves
    the README empty.  The error has no [status] property, so a handler's
    envelope reports 500 together with that message; in particular POST
    /api/projects for a repository GitHub refuses answers 500 and writes
    nothing. *)
Theorem upstream_failure_surfaces_as_500 env sv req w token user j full_name tok :
  authenticated env req token user ->
  body_json req = Some j ->
  ProjectsRoute.importSchema j = Some full_name ->
  answers env t_user_tokens v_select ->
  select_github_token (uid user) (db w) = DbOk (Some (Some tok)) ->
  Str.truthy tok = true ->
  let reply := gh_repo env (GITHUB_API ++ "/repos/" ++ full_name) tok in
  resp_ok reply = false ->
  let message := upstream_message "GitHub request failed with " reply in
  (forall T (fetch : string -> string -> HttpResponse T) path t w0,
      resp_ok (fetch (GITHUB_API ++ path) t) = false ->
      exists e w1,
        githubRequest env fetch path t w0 = (Throw e, w1)
        /\ err_message e
           = upstream_message "GitHub request failed with " (fetch (GITHUB_API ++ path) t)
        /\ err_class e = PlainError
        /\ err_status e = None
        /\ http_status (@on_error unit e) = 500
        /\ error (body (@on_error unit e)) = Some (err_message e))
  /\ (forall t w0,
         (resp_ok (gh_user env (GITHUB_API ++ "/user") t) = false ->
          fst (fetchGithubUser env t w0)
          = Throw (Error (upstream_message "GitHub request failed with "
                            (gh_user env (GITHUB_API ++ "/user") t))))
         /\ (resp_ok (gh_repos sv (GITHUB_API ++ "/user/repos?per_page=100&sort=updated") t)
             = false ->
             fst (fetchGithubUserRepos env sv t w0)
             = Throw (Error (upstream_message "GitHub request failed with "
                               (gh_repos sv (GITHUB_API
                                             ++ "/user/repos?per_page=100&sort=updated") t))))
         /\ (forall username,
               resp_ok (gh_events sv (GITHUB_API ++ "/users/" ++ username ++ "/events") t)
               = false ->
               fst (fetchGithubActivity env sv t username w0)
               = Throw (Error (upstream_message "GitHub request failed with "
                                 (gh_events sv (GITHUB_API ++ "/users/" ++ username
                                                ++ "/events") t))))
         /\ (forall owner repo path,
               resp_ok (gh_content sv (GITHUB_API ++ "/repos/" ++ owner ++ "/" ++ repo
                                       ++ "/contents/" ++ path) t) = false ->
               fst (fetchRepoContent env sv t owner repo path w0)
               = Throw (Error (upstream_message "GitHub request failed with "
                                 (gh_content sv (GITHUB_API ++ "/repos/" ++ owner ++ "/"
                                                 ++ repo ++ "/contents/" ++ path) t))))
         /\ (forall username,
               resp_ok (gh_repo env (GITHUB_API ++ "/repos/" ++ username ++ "/" ++ username)
                          t) = false ->
               fst (fetchGithubProfileRepo env sv t username w0)
               = Throw (Error (upstream_message "GitHub request failed with "
                                 (gh_repo env (GITHUB_API ++ "/repos/" ++ username ++ "/"
                                               ++ username) t)))))
  /\ (forall t w0,
         resp_ok (gh_graphql env "https://api.github.com/graphql" t) = false ->
         exists e w1,
           fetchGithubContributions env t w0 = (Throw e, w1)
           /\ err_message e
              = upstream_message "GitHub GraphQL failed with "
                  (gh_graphql env "https://api.github.com/graphql" t)
           /\ err_class e = PlainError
           /\ err_status e = None
           /\ http_status (@on_error unit e) = 500
           /\ error (body (@on_error unit e)) = Some (err_message e))
  /\ (forall t username repo w0,
         resp_ok (gh_repo env (GITHUB_API ++ "/repos/" ++ username ++ "/" ++ username) t)
         = true ->
         resp_json (gh_repo env (GITHUB_API ++ "/repos/" ++ username ++ "/" ++ username) t)
         = Some repo ->
         resp_ok (gh_readme sv (GITHUB_API ++ "/repos/" ++ username ++ "/" ++ username
                                ++ "/readme") t) = false ->
         fst (fetchGithubProfileRepo env sv t username w0) = Ok (repo, None))
  /\ (exists w',
         fetchRepoByFullName env tok full_name w = (Throw (Error message), w'))
  /\ (Str.truthy (resp_text reply) = true -> message = resp_text reply)
  /\ (resp_text reply = ""
      -> message = "GitHub request failed with " ++ Str.of_Z (resp_status reply))
  /\ (let run := ProjectsRoute.POST env req w in
      http_status (fst run) = 500
      /\ status_code (body (fst run)) = 500
      /\ success (body (fst run)) = false
      /\ error (body (fst run)) = Some message
      /\ db (snd run) = db w).
Proof.
  intros Hauth Hj Hi Ha Hs Ht reply Hok message.
  split; [|split; [|split; [|split; [|split; [|split; [|split]]]]]].
  - intros T fetch path t w0 H. eexists _, _.
    split; [apply (githubRequest_not_ok env fetch path t w0 H)|].
    do 4 (split; [reflexivity|]).
    apply upstream_message_surfaces. reflexivity.
  - intros t w0. split; [|split; [|split; [|split]]].
    + intros H. unfold fetchGithubUser.
      rewrite (githubRequest_not_ok env (gh_user env) "/user" t w0 H). reflexivity.
    + intros H. unfold fetchGithubUserRepos.
      rewrite (githubRequest_not_ok env (gh_repos sv)
                 "/user/repos?per_page=100&sort=updated" t w0 H). reflexivity.
    + intros username H. unfold fetchGithubActivity.
      rewrite (githubRequest_not_ok env (gh_events sv)
                 ("/users/" ++ username ++ "/events") t w0 H). reflexivity.
    + intros owner repo path H. unfold fetchRepoContent.
      rewrite (githubRequest_not_ok env (gh_content sv)
                 ("/repos/" ++ owner ++ "/" ++ repo ++ "/contents/" ++ path) t w0 H).
      reflexivity.
    + intros username H. unfold fetchGithubProfileRepo, bind.
      rewrite (githubRequest_not_ok env (gh_repo env)
                 ("/repos/" ++ username ++ "/" ++ username) t w0 H). reflexivity.
  - intros t w0 H. eexists _, _.
    split; [apply (fetchGithubContributions_not_ok env t w0 H)|].
    do 4 (split; [reflexivity|]).
    apply upstream_message_surfaces. reflexivity.
  - intros t username repo w0 Hrok Hrjson Hbad.
    destruct (@readme_is_best_effort env sv t username repo w0 Hrok Hrjson)
      as (readme & w' & E & _ & Hr).
    rewrite E. cbn [fst]. destruct readme as [text|]; [|reflexivity].
    destruct (Hr text eq_refl) as (Hgood & _). congruence.
  - eexists. unfold fetchRepoByFullName. apply githubRequest_not_ok. exact Hok.
  - intros H. apply or_else_idem. exact H.
  - intros H. unfold message, upstream_message. rewrite H. reflexivity.
  - assert (ProjectsRoute.POST env req w
            = (on_error (Error message),
               log (EvFetch (GITHUB_API ++ "/repos/" ++ full_name) tok)
                 (log (EvQuery t_user_tokens v_select) (log (EvGetUser token) w)))) as R.
    { unfold ProjectsRoute.POST, try_catch, ProjectsRoute.POST_body.
      unfold bind at 1. rewrite (assertSupabaseUser_ok w Hauth).
      unfold bind at 1. unfold request_json. rewrite Hj. unfold ret at 1.
      rewrite Hi. unfold bind at 1.
      rewrite (@getGithubTokenForUser_ok env (uid user) (log (EvGetUser token) w) tok
                 Ha Hs Ht).
      unfold bind at 1. unfold fetchRepoByFullName.
      rewrite (githubRequest_not_ok env (gh_repo env) ("/repos/" ++ full_name) tok _ Hok).
      reflexivity. }
    cbv zeta. rewrite R. cbn.
    repeat split.
    assert (Str.truthy message = true) as Hm.
    { apply or_else_truthy. reflexivity. }
    unfold Str.or_else at 1. rewrite Hm. reflexivity.
Qed.

(** Alice imports a repository GitHub answers 404 for. *)
Lemma upstream_failure_surfaces_as_500_witness :
  http_status (fst (ProjectsRoute.POST Sample.env Sample.import_missing Sample.w0)) = 500
  /\ error (body (fst (ProjectsRoute.POST Sample.env Sample.import_missing Sample.w0)))
     = Some "Not Found".
Proof.
  destruct (@upstream_failure_surfaces_as_500 Sample.env Demo.sv Sample.import_missing
              Sample.w0 "jwt-alice" Sample.alice
              (JObj [("repository_full_name", JStr "octocat/secret")])
              "octocat/secret" "gho_good")
    as (_ & _ & _ & _ & _ & _ & _ & A & _ & _ & B & _).
  - repeat split.
  - reflexivity.
  - reflexivity.
  - reflexivity.
  - reflexivity.
  - reflexivity.
  - reflexivity.
  - split; assumption.
Defined.

(** C7 as stated fails: GitHub answers 404, the handler answers 500, and the
    thrown error has no status to surface. *)
Lemma upstream_status_is_not_surfaced :
  resp_status (gh_repo Sample.env "https://api.github.com/repos/octocat/secret" "gho_good")
  = 404
  /\ http_status (fst (ProjectsRoute.POST Sample.env Sample.import_missing Sample.w0))
     <> 404
  /\ (forall e w', fetchRepoByFullName Sample.env "gho_good" "octocat/secret" Sample.w0
                   = (Throw e, w') -> err_status e <> Some 404).
Proof.
  split; [reflexivity|]. split; [vm_compute; discriminate|].
  intros e w'. vm_compute. intros [= <- _]. discriminate.
Qed.

(** ** Profile reads *)

(** A profile read never writes: whatever it returns, the tables are the
    same afterwards. *)
Lemma getProfileByUserId_reads_only env userId w :
  db (snd (getProfileByUserId env userId w)) = db w.
Proof.
  unfold getProfileByUserId. unfold_lib. run_cases; reflexivity.
Qed.

(** C8 (as amended).  For an identity with no Profile row, a profile read
    returns no row and leaves the datastore unchanged, so there is still no
    row for the identity afterwards; no read ever creates one.  The pages
    that show the profile fall back to a profile object with role
    [developer], which is not stored. *)
Theorem profile_read_does_not_create env userId w :
  answers env t_profiles v_select ->
  select_profile userId (db w) = DbOk None ->
  fst (getProfileByUserId env userId w) = Ok None
  /\ db (snd (getProfileByUserId env userId w)) = db w
  /\ select_profile userId (db (snd (getProfileByUserId env userId w))) = DbOk None
  /\ (forall user,
         uid user = userId ->
         exists p,
           fst (Pages.dashboard_profile env user w) = Ok p
           /\ profile_id p = userId
           /\ profile_role p = Some developer
           /\ db (snd (Pages.dashboard_profile env user w)) = db w)
  /\ (forall env' u w', db (snd (getProfileByUserId env' u w')) = db w').
Proof.
  intros Ha Hs.
  pose proof (@getProfileByUserId_ok env userId w None Ha Hs) as E.
  rewrite E. cbn. repeat split; try assumption.
  - intros user <-. unfold Pages.dashboard_profile, bind. rewrite E. cbn.
    eexists. repeat split.
  - intros env' u w'. apply getProfileByUserId_reads_only.
Qed.

(** Carol signs in for the first time. *)
Lemma profile_read_does_not_create_witness :
  fst (getProfileByUserId Sample.env "carol" Sample.w0) = Ok None
  /\ db (snd (getProfileByUserId Sample.env "carol" Sample.w0)) = Sample.db0.
Proof.
  destruct (@profile_read_does_not_create Sample.env "carol" Sample.w0 eq_refl eq_refl)
    as (A & B & _).
  split; assumption.
Defined.

(** C8 as stated fails: after Carol's first profile read there is still no
    Profile row for her. *)
Lemma profile_read_leaves_no_row :
  select_profile "carol" (db Sample.w0) = DbOk None
  /\ fst (getProfileByUserId Sample.env "carol" Sample.w0) = Ok None
  /\ ~ (exists p, In p (profiles (db (snd (getProfileByUserId Sample.env "carol"
                                              Sample.w0))))
                  /\ profile_id p = "carol").
Proof.
  split; [reflexivity|]. split; [reflexivity|].
  intros (p & H & E). cbn in H.
  destruct H as [<-|[<-|[]]]; discriminate.
Qed.

(** ** Contribution calendar *)

Lemma entry_fields d :
  ContributionsRoute.entry d
  = {| ContributionsRoute.date := date d;
       ContributionsRoute.count := contributionCount d |}.
Proof. destruct d. reflexivity. Qed.

Lemma flatten_concat ws :
  ContributionsRoute.flatten ws
  = map ContributionsRoute.entry (concat (map contributionDays ws)).
Proof.
  unfold ContributionsRoute.flatten.
  induction ws as [|wk ws IH]; [reflexivity|].
  cbn. rewrite map_app, IH. reflexivity.
Qed.

Lemma flatten_length ws :
  (forall wk, In wk ws -> List.length (contributionDays wk) = 7%nat) ->
  List.length (ContributionsRoute.flatten ws) = (7 * List.length ws)%nat.
Proof.
  unfold ContributionsRoute.flatten.
  induction ws as [|wk ws IH]; intros H; [reflexivity|].
  cbn [flat_map List.length]. rewrite length_app, length_map.
  rewrite (H wk (or_introl eq_refl)), IH; [lia|].
  intros wk' Hin. apply H. right. exact Hin.
Qed.

Lemma flatten_nth ws : forall i j wk d,
  (forall wk', In wk' ws -> List.length (contributionDays wk') = 7%nat) ->
  nth_error ws i = Some wk ->
  nth_error (contributionDays wk) j = Some d ->
  nth_error (ContributionsRoute.flatten ws) (7 * i + j) = Some (ContributionsRoute.entry d).
Proof.
  unfold ContributionsRoute.flatten.
  induction ws as [|w0 ws IH]; intros i j wk d H Hi Hj.
  - destruct i; discriminate.
  - destruct i as [|i]; cbn [flat_map].
    + cbn in Hi. injection Hi as ->. cbn [Nat.mul Nat.add].
      rewrite nth_error_app1.
      * apply map_nth_error. exact Hj.
      * rewrite length_map. apply nth_error_Some. rewrite Hj. discriminate.
    + cbn in Hi. rewrite nth_error_app2.
      * rewrite length_map, (H w0 (or_introl eq_refl)).
        replace (7 * S i + j - 7)%nat with (7 * i + j)%nat by lia.
        apply (IH i j wk d); auto.
        intros wk' Hin. apply H. right. exact Hin.
      * rewrite length_map, (H w0 (or_introl eq_refl)). lia.
Qed.

(** C6.  When the GraphQL reply carries a calendar of N weeks of 7 days each,
    the [contributions] of the GET /api/github/contributions payload has
    7 * N entries; the entry at position 7 * i + j carries the date and the
    contribution count of day j of week i, so the days appear week by week
    and, within a week, day by day. *)
Theorem contributions_flattened_in_order
    env req w token user tok reply cal ws :
  authenticated env req token user ->
  answers env t_user_tokens v_select ->
  select_github_token (uid user) (db w) = DbOk (Some (Some tok)) ->
  Str.truthy tok = true ->
  gh_graphql env "https://api.github.com/graphql" tok = reply ->
  resp_ok reply = true ->
  resp_json reply = Some {| contributionCalendar := Some cal |} ->
  weeks cal = Some ws ->
  (forall wk, In wk ws -> List.length (contributionDays wk) = 7%nat) ->
  exists payload,
    http_status (fst (ContributionsRoute.GET env req w)) = 200
    /\ data (body (fst (ContributionsRoute.GET env req w))) = Some payload
    /\ List.length (ContributionsRoute.contributions payload) = (7 * List.length ws)%nat
    /\ ContributionsRoute.contributions payload
       = map ContributionsRoute.entry (concat (map contributionDays ws))
    /\ (forall i j wk d,
           nth_error ws i = Some wk ->
           nth_error (contributionDays wk) j = Some d ->
           nth_error (ContributionsRoute.contributions payload) (7 * i + j)
           = Some {| ContributionsRoute.date := date d;
                     ContributionsRoute.count := contributionCount d |}).
Proof.
  intros Hauth Ha Hs Ht Hr Hok Hjson Hw H7.
  exists (ContributionsRoute.payload_of {| contributionCalendar := Some cal |}).
  assert (ContributionsRoute.GET env req w
          = (json (standardResponse true
                     (Some (ContributionsRoute.payload_of
                              {| contributionCalendar := Some cal |})) 200 None) None,
             log (EvFetch "https://api.github.com/graphql" tok)
               (log (EvQuery t_user_tokens v_select) (log (EvGetUser token) w)))) as R.
  { unfold ContributionsRoute.GET, try_catch, ContributionsRoute.GET_body.
    unfold bind at 1. rewrite (assertSupabaseUser_ok w Hauth).
    unfold bind at 1.
    rewrite (@getGithubTokenForUser_ok env (uid user) (log (EvGetUser token) w) tok
               Ha Hs Ht).
    unfold fetchGithubContributions, bind, emit. rewrite Hr, Hok, Hjson.
    reflexivity. }
  rewrite R. cbn. rewrite Hw.
  split; [reflexivity|]. split; [reflexivity|].
  split; [apply flatten_length; exact H7|].
  split; [apply flatten_concat|].
  intros i j wk d Hi Hj. rewrite <- entry_fields.
  apply (flatten_nth ws i j H7 Hi Hj).
Qed.

(** Alice's two-week calendar. *)
Lemma contributions_flattened_in_order_witness :
  exists payload,
    data (body (fst (ContributionsRoute.GET Sample.env (Sample.request "jwt-alice" None)
                       Sample.w0))) = Some payload
    /\ List.length (ContributionsRoute.contributions payload) = 14%nat
    /\ nth_error (ContributionsRoute.contributions payload) 10
       = Some {| ContributionsRoute.date := "2024-01-17";
                 ContributionsRoute.count := 7 |}.
Proof.
  destruct (@contributions_flattened_in_order Sample.env (Sample.request "jwt-alice" None)
              Sample.w0 "jwt-alice" Sample.alice "gho_good"
              {| resp_status := 200; resp_text := "";
                 resp_json := Some Sample.calendar |}
              {| totalContributions := 25;
                 weeks := Some [Sample.week1; Sample.week2] |}
              [Sample.week1; Sample.week2])
    as (payload & _ & D & L & _ & N).
  - repeat split.
  - reflexivity.
  - reflexivity.
  - reflexivity.
  - reflexivity.
  - reflexivity.
  - reflexivity.
  - reflexivity.
  - intros wk [<-|[<-|[]]]; reflexivity.
  - exists payload. split; [exact D|]. split; [exact L|].
    apply (N 1%nat 3%nat Sample.week2 (Sample.day "2024-01-17" 7)); reflexivity.
Defined.

(** ** The expert view of the project list *)

Lemma insert_by_perm {A} (le : A -> A -> bool) x l :
  Permutation (insert_by le x l) (x :: l).
Proof.
  induction l as [|y r IH]; cbn; [reflexivity|].
  destruct (le x y); [reflexivity|].
  rewrite IH. apply perm_swap.
Qed.

Lemma order_by_perm {A} (le : A -> A -> bool) l : Permutation (order_by le l) l.
Proof.
  unfold order_by. induction l as [|x r IH]; cbn; [reflexivity|].
  rewrite insert_by_perm, IH. reflexivity.
Qed.

Section Grouping.

Import ProjectsRoute.

Lemma push_project_members o p acc :
  Permutation (members (push_project o p acc)) (members acc ++ [p]).
Proof.
  unfold members. induction acc as [|g r IH]; cbn; [reflexivity|].
  destruct (String.eqb (owner_id g) o); cbn.
  - rewrite <- !app_assoc. apply Permutation_app_head, Permutation_app_comm.
  - rewrite IH, app_assoc. reflexivity.
Qed.

Lemma push_project_owners o p acc :
  map owner_id (push_project o p acc)
  = if existsb (fun g => String.eqb (owner_id g) o) acc
    then map owner_id acc else (map owner_id acc ++ [o])%list.
Proof.
  induction acc as [|g r IH]; cbn; [reflexivity|].
  destruct (String.eqb (owner_id g) o); cbn; [reflexivity|].
  rewrite IH. destruct (existsb _ r); reflexivity.
Qed.

Lemma push_project_in o p acc g q :
  In g (push_project o p acc) -> In q (group_projects g) ->
  (exists g0, In g0 acc /\ owner_id g0 = owner_id g /\ In q (group_projects g0))
  \/ (q = p /\ owner_id g = o).
Proof.
  induction acc as [|g0 r IH]; cbn.
  - intros [<-|[]]. cbn. intros [<-|[]]. right. split; reflexivity.
  - destruct (String.eqb (owner_id g0) o) eqn:E; cbn.
    + intros [<-|Hin] Hq; cbn in *.
      * apply in_app_or in Hq as [Hq|[<-|[]]].
        -- left. exists g0. auto.
        -- right. split; [reflexivity|]. apply String.eqb_eq. exact E.
      * left. exists g. auto.
    + intros [<-|Hin] Hq.
      * left. exists g0. auto.
      * destruct (IH Hin Hq) as [(g1 & H1 & H2 & H3)|H]; [|right; exact H].
        left. exists g1. auto.
Qed.

Lemma push_project_well_grouped p acc :
  well_grouped acc -> well_grouped (push_project (ownerId_of p) p acc).
Proof.
  intros [Hm Hn]. split.
  - intros g q Hg Hq.
    destruct (push_project_in _ _ _ _ _ Hg Hq) as [(g0 & H0 & H1 & H2)|[-> H]].
    + rewrite <- H1. apply (Hm g0 q H0 H2).
    + symmetry. exact H.
  - rewrite push_project_owners.
    destruct (existsb _ acc) eqn:E; [exact Hn|].
    apply NoDup_app; [exact Hn|repeat constructor; intros []|].
    intros o Ho [<-|[]].
    apply in_map_iff in Ho as (g & Hg & Hin).
    assert (existsb (fun g0 => String.eqb (owner_id g0) (ownerId_of p)) acc = true) as X.
    { apply existsb_exists. exists g. split; [exact Hin|].
      apply String.eqb_eq. exact Hg. }
    rewrite X in E. discriminate.
Qed.

Lemma group_fold_members rows : forall acc,
  Permutation
    (members (fold_left (fun a p => push_project (ownerId_of p) p a) rows acc))
    (members acc ++ rows).
Proof.
  induction rows as [|p rows IH]; intros acc; cbn.
  - rewrite app_nil_r. reflexivity.
  - rewrite IH, push_project_members, <- app_assoc. reflexivity.
Qed.

Lemma group_fold_well_grouped rows : forall acc,
  well_grouped acc ->
  well_grouped (fold_left (fun a p => push_project (ownerId_of p) p a) rows acc).
Proof.
  induction rows as [|p rows IH]; intros acc H; cbn; [exact H|].
  apply IH, push_project_well_grouped, H.
Qed.

Lemma group_by_owner_members rows :
  Permutation (members (group_by_owner rows)) rows.
Proof. unfold group_by_owner. rewrite group_fold_members. reflexivity. Qed.

Lemma group_by_owner_well_grouped rows : well_grouped (group_by_owner rows).
Proof.
  apply group_fold_well_grouped. split; [intros g p []|constructor].
Qed.

End Grouping.

Lemma map_attach_project pd rows :
  map ProjectsRoute.pw_project (map (ProjectsRoute.attach_profile pd) rows) = rows.
Proof.
  rewrite map_map. cbn. apply map_id.
Qed.

Lemma expert_view_run env req w token user :
  authenticated env req token user ->
  assoc "view" (searchParams req) = Some "expert" ->
  answers env t_projects v_select ->
  answers env t_profiles v_select ->
  ProjectsRoute.GET env req w
  = (json (standardResponse true (Some (ProjectsRoute.Grouped (expert_listing (db w))))
             200 None) None,
     log (EvQuery t_profiles v_select)
       (log (EvQuery t_projects v_select) (log (EvGetUser token) w))).
Proof.
  intros Hauth Hview Hp Hq.
  unfold ProjectsRoute.GET, try_catch, ProjectsRoute.GET_body.
  unfold bind at 1. rewrite (assertSupabaseUser_ok w Hauth).
  rewrite Hview. cbn [Str.nullish]. change (String.eqb "expert" "expert") with true.
  cbv iota. unfold bind.
  rewrite (select_run _ _ Hp), (select_run _ _ Hq). reflexivity.
Qed.

(** C9.  GET /api/projects?view=expert answers every authenticated caller with
    200 and the projects of all users grouped by owner: each stored project
    is listed once, in the group of its own owner, and each owner has one
    group.  The statement puts no condition on the caller's profile, so it
    covers developer-role callers and callers with no profile at all (the
    datastore answering the two reads); any two authenticated callers get the
    same answer. *)
Theorem expert_view_open_to_every_caller env req w token user :
  authenticated env req token user ->
  assoc "view" (searchParams req) = Some "expert" ->
  answers env t_projects v_select ->
  answers env t_profiles v_select ->
  exists groups,
    http_status (fst (ProjectsRoute.GET env req w)) = 200
    /\ success (body (fst (ProjectsRoute.GET env req w))) = true
    /\ data (body (fst (ProjectsRoute.GET env req w))) = Some (ProjectsRoute.Grouped groups)
    /\ Permutation (map ProjectsRoute.pw_project (ProjectsRoute.members groups))
                   (projects (db w))
    /\ (forall g p, In g groups -> In p (ProjectsRoute.group_projects g) ->
                    ProjectsRoute.owner_id g
                    = Str.nullish (project_user_id (ProjectsRoute.pw_project p)) "unknown")
    /\ NoDup (map ProjectsRoute.owner_id groups)
    /\ db (snd (ProjectsRoute.GET env req w)) = db w
    /\ (forall req' token' user',
           authenticated env req' token' user' ->
           assoc "view" (searchParams req') = Some "expert" ->
           fst (ProjectsRoute.GET env req' w) = fst (ProjectsRoute.GET env req w)).
Proof.
  intros Hauth Hview Hp Hq.
  exists (expert_listing (db w)).
  rewrite (expert_view_run w Hauth Hview Hp Hq). cbn.
  destruct (group_by_owner_well_grouped
              (map (ProjectsRoute.attach_profile
                      (filter (fun p => existsb (String.eqb (profile_id p))
                                 (ProjectsRoute.unique []
                                    (ProjectsRoute.owner_ids
                                       (order_by (fun a b => stars (project_import b)
                                                             <=? stars (project_import a))
                                                 (projects (db w))))))
                              (profiles (db w))))
                   (order_by (fun a b => stars (project_import b)
                                         <=? stars (project_import a))
                             (projects (db w))))) as [Hm Hn].
  split; [reflexivity|]. split; [reflexivity|]. split; [reflexivity|].
  split; [|split; [|split; [|split]]].
  - unfold expert_listing. rewrite group_by_owner_members, map_attach_project.
    apply order_by_perm.
  - intros g p Hg Hin. symmetry. apply (Hm g p Hg Hin).
  - exact Hn.
  - reflexivity.
  - intros req' token' user' Hauth' Hview'.
    rewrite (expert_view_run w Hauth' Hview' Hp Hq). reflexivity.
Qed.

(** Alice, a developer, asks for the expert view. *)
Lemma expert_view_open_to_every_caller_witness :
  http_status (fst (ProjectsRoute.GET Sample.env (Sample.expert_view "jwt-alice")
                      Sample.w0)) = 200.
Proof.
  destruct (@expert_view_open_to_every_caller Sample.env (Sample.expert_view "jwt-alice")
              Sample.w0 "jwt-alice" Sample.alice) as (groups & H & _).
  - repeat split.
  - reflexivity.
  - reflexivity.
  - reflexivity.
  - exact H.
Defined.

(** ** Import is an upsert on the GitHub repository id *)

Section Upsert.

Variables (A : Type) (same : A -> bool) (merge : A -> A) (fresh : A).
Hypothesis same_fresh : same fresh = true.
Hypothesis same_merge : forall r, same r = true -> same (merge r) = true.

Lemma upsert_with_length_hit rows :
  existsb same rows = true ->
  List.length (upsert_with same merge fresh rows) = List.length rows.
Proof.
  induction rows as [|r rest IH]; cbn; [discriminate|].
  destruct (same r); cbn; [reflexivity|].
  intros H. rewrite (IH H). reflexivity.
Qed.

Lemma upsert_with_hit rows :
  existsb same (upsert_with same merge fresh rows) = true.
Proof.
  induction rows as [|r rest IH]; cbn.
  - rewrite same_fresh. reflexivity.
  - destruct (same r) eqn:E; cbn.
    + rewrite (same_merge E). reflexivity.
    + rewrite E, IH. reflexivity.
Qed.

Lemma upsert_with_single rows :
  (List.length (filter same rows) <= 1)%nat ->
  filter same (upsert_with same merge fresh rows)
  = [upserted same merge fresh rows].
Proof.
  induction rows as [|r rest IH]; cbn.
  - rewrite same_fresh. reflexivity.
  - destruct (same r) eqn:E; cbn.
    + intros H. rewrite (same_merge E).
      destruct (filter same rest); [reflexivity|cbn in H; lia].
    + rewrite E. exact IH.
Qed.

Lemma upserted_hit_merge rows :
  existsb same rows = true ->
  exists r, In r rows /\ same r = true
            /\ upserted same merge fresh rows = merge r.
Proof.
  induction rows as [|r rest IH]; cbn; [discriminate|].
  destruct (same r) eqn:E; cbn.
  - intros _. exists r. auto.
  - intros H. destruct (IH H) as (r' & Hin & Hs & Hu). exists r'. auto.
Qed.

End Upsert.

Lemma unique_key_filter {A} (key : A -> Z) (k : Z) (rows : list A) :
  NoDup (map key rows) ->
  (List.length (filter (fun r => (key r =? k)%Z) rows) <= 1)%nat.
Proof.
  induction rows as [|r rest IH]; cbn; [lia|].
  intros H. inversion H as [|? ? Hn Hr]; subst.
  destruct (key r =? k) eqn:E; [|apply IH; exact Hr].
  apply Z.eqb_eq in E. cbn.
  rewrite filter_none; [cbn; lia|].
  intros x Hx. apply Z.eqb_neq. intros Hk. apply Hn.
  rewrite E, <- Hk. apply in_map. exact Hx.
Qed.

Lemma upsert_project_keys record fresh rows :
  map project_repo_id
      (upsert_with (ProjectsRoute.same_repo record) (ProjectsRoute.refresh record)
                   fresh rows)
  = if existsb (ProjectsRoute.same_repo record) rows
    then map project_repo_id rows
    else (map project_repo_id rows ++ [project_repo_id fresh])%list.
Proof.
  induction rows as [|r rest IH]; cbn; [reflexivity|].
  destruct (ProjectsRoute.same_repo record r) eqn:E; cbn.
  - unfold ProjectsRoute.same_repo in E. apply Z.eqb_eq in E.
    f_equal. symmetry. exact E.
  - rewrite IH. destruct (existsb _ rest); reflexivity.
Qed.

Lemma upserted_project_key record fresh rows :
  project_repo_id fresh = github_repo_id record ->
  project_repo_id (upserted (ProjectsRoute.same_repo record)
                     (ProjectsRoute.refresh record) fresh rows)
  = github_repo_id record.
Proof.
  intros Hf. induction rows as [|r rest IH]; cbn; [exact Hf|].
  destruct (ProjectsRoute.same_repo record r); [reflexivity|exact IH].
Qed.

(** The unique constraint on [github_repo_id] survives an import. *)
Lemma upsert_project_keeps_unique record fresh rows :
  project_repo_id fresh = github_repo_id record ->
  NoDup (map project_repo_id rows) ->
  NoDup (map project_repo_id
           (upsert_with (ProjectsRoute.same_repo record) (ProjectsRoute.refresh record)
                        fresh rows)).
Proof.
  intros Hf Hn. rewrite upsert_project_keys.
  destruct (existsb (ProjectsRoute.same_repo record) rows) eqn:E; [exact Hn|].
  apply NoDup_app; [exact Hn|repeat constructor; intros []|].
  intros k Hk [<-|[]].
  apply in_map_iff in Hk as (r & Hr & Hin).
  assert (existsb (ProjectsRoute.same_repo record) rows = true) as X.
  { apply existsb_exists. exists r. split; [exact Hin|].
    unfold ProjectsRoute.same_repo. apply Z.eqb_eq. congruence. }
  rewrite X in E. discriminate.
Qed.

(** A 201 from the import handler means: the caller was authenticated, the
    name validated, GitHub returned the repository, and the projects table
    received the upsert of that snapshot. *)
Lemma POST_created env req w :
  http_status (fst (ProjectsRoute.POST env req w)) = 201 ->
  exists token user full_name tok repo,
    authenticated env req token user
    /\ resp_json (gh_repo env (GITHUB_API ++ "/repos/" ++ full_name) tok) = Some repo
    /\ let record := ProjectsRoute.import_record env user full_name repo in
       let fresh := ProjectsRoute.new_project env record
                      (List.length (projects (db w))) in
       data (body (fst (ProjectsRoute.POST env req w)))
       = Some (upserted (ProjectsRoute.same_repo record) (ProjectsRoute.refresh record)
                        fresh (projects (db w)))
       /\ projects (db (snd (ProjectsRoute.POST env req w)))
          = upsert_with (ProjectsRoute.same_repo record) (ProjectsRoute.refresh record)
                        fresh (projects (db w)).
Proof.
  remember (ProjectsRoute.POST env req w) as run eqn:R. revert R.
  unfold ProjectsRoute.POST, try_catch, ProjectsRoute.POST_body.
  unfold bind at 1.
  destruct (assertSupabaseUser_run env req w) as
    [(token & user & Hauth & E)|(e & w' & E & _ & _)]; rewrite E.
  2:{ intros -> H. cbn in H. unfold on_error in H.
      destruct (@assertSupabaseUser_throws env req w e w' E)
        as (_ & _ & [(t & _ & _ & Hs & _)|(_ & _ & Hs & _)]);
        rewrite Hs in H; discriminate. }
  unfold fetchRepoByFullName. unfold_lib.
  run_cases; intros -> H; cbn in H; try discriminate.
  match goal with
  | Hn : ProjectsRoute.importSchema _ = Some ?n,
    Hk : select_github_token _ _ = DbOk (Some (Some ?k)),
    Hr : resp_json _ = Some ?g |- _ =>
      exists token, user, n, k, g; split; [exact Hauth|]; split; [exact Hr|]
  end.
  split; reflexivity.
Qed.

(** C5.  Two successful imports of the same GitHub repository id leave one
    Project row for that id: the second import adds no row, keeps the row's
    key and its user-edited columns, and overwrites the imported columns
    (name, stars, forks, description, language, GitHub timestamps, sync time)
    with the snapshot fetched by the second import. *)
Theorem reimport_updates_single_row env1 env2 req1 req2 w p1 p2 :
  NoDup (map project_repo_id (projects (db w))) ->
  let run1 := ProjectsRoute.POST env1 req1 w in
  let run2 := ProjectsRoute.POST env2 req2 (snd run1) in
  http_status (fst run1) = 201 ->
  data (body (fst run1)) = Some p1 ->
  http_status (fst run2) = 201 ->
  data (body (fst run2)) = Some p2 ->
  project_repo_id p1 = project_repo_id p2 ->
  filter (fun p => project_repo_id p =? project_repo_id p2) (projects (db (snd run2)))
  = [p2]
  /\ List.length (projects (db (snd run2))) = List.length (projects (db (snd run1)))
  /\ project_id p2 = project_id p1
  /\ project_meta p2 = project_meta p1
  /\ NoDup (map project_repo_id (projects (db (snd run2))))
  /\ exists token user full_name tok repo,
       authenticated env2 req2 token user
       /\ resp_json (gh_repo env2 (GITHUB_API ++ "/repos/" ++ full_name) tok) = Some repo
       /\ repo_id repo = project_repo_id p2
       /\ project_import p2 = ProjectsRoute.import_record env2 user full_name repo
       /\ name (project_import p2) = repo_name repo
       /\ stars (project_import p2) = Str.nullish (repo_stargazers_count repo) 0
       /\ forks (project_import p2) = Str.nullish (repo_forks_count repo) 0
       /\ description (project_import p2) = repo_description repo
       /\ language (project_import p2) = repo_language repo
       /\ pushed_at (project_import p2) = repo_pushed_at repo
       /\ created_at_github (project_import p2) = repo_created_at repo
       /\ updated_at_github (project_import p2) = repo_updated_at repo
       /\ last_synced_at (project_import p2) = now_iso env2.
Proof.
  intros Hu run1 run2 H1 D1 H2 D2 Hid.
  destruct (POST_created env1 req1 w H1)
    as (t1 & u1 & n1 & k1 & r1 & _ & _ & E1 & T1).
  destruct (POST_created env2 req2 (snd run1) H2)
    as (t2 & u2 & n2 & k2 & r2 & A2 & J2 & E2 & T2).
  fold run1 in E1, T1. fold run2 in E2, T2.
  set (rec1 := ProjectsRoute.import_record env1 u1 n1 r1) in *.
  set (rec2 := ProjectsRoute.import_record env2 u2 n2 r2) in *.
  set (rows0 := projects (db w)) in *.
  set (rows1 := projects (db (snd run1))) in *.
  set (fresh1 := ProjectsRoute.new_project env1 rec1 (List.length rows0)) in *.
  set (fresh2 := ProjectsRoute.new_project env2 rec2 (List.length rows1)) in *.
  rewrite D1 in E1. rewrite D2 in E2.
  injection E1 as E1. injection E2 as E2.
  assert (forall rec f, ProjectsRoute.same_repo rec (ProjectsRoute.refresh rec f) = true)
    as Hmerge.
  { intros rec f. unfold ProjectsRoute.same_repo. apply Z.eqb_eq. reflexivity. }
  assert (forall env rec n,
             ProjectsRoute.same_repo rec (ProjectsRoute.new_project env rec n) = true)
    as Hfresh.
  { intros env rec n. unfold ProjectsRoute.same_repo. apply Z.eqb_eq. reflexivity. }
  (* both imports carry the same repository id *)
  assert (github_repo_id rec1 = project_repo_id p1) as G1.
  { rewrite E1. symmetry. apply upserted_project_key. reflexivity. }
  assert (github_repo_id rec2 = project_repo_id p2) as G2.
  { rewrite E2. symmetry. apply upserted_project_key. reflexivity. }
  assert (forall p, ProjectsRoute.same_repo rec2 p = ProjectsRoute.same_repo rec1 p) as S.
  { intros p. unfold ProjectsRoute.same_repo. congruence. }
  assert (NoDup (map project_repo_id rows1)) as Hu1.
  { rewrite T1. apply upsert_project_keeps_unique; [reflexivity|exact Hu]. }
  assert (existsb (ProjectsRoute.same_repo rec2) rows1 = true) as Hit.
  { assert (github_repo_id rec2 = github_repo_id rec1) as Heq by congruence.
    unfold ProjectsRoute.same_repo. rewrite Heq.
    change (existsb (ProjectsRoute.same_repo rec1) rows1 = true).
    rewrite T1. apply upsert_with_hit; [apply Hfresh|intros; apply Hmerge]. }
  assert (filter (ProjectsRoute.same_repo rec1) rows1 = [p1]) as F1.
  { rewrite T1, E1.
    apply upsert_with_single; [apply Hfresh|intros; apply Hmerge|].
    apply (@unique_key_filter _ project_repo_id (github_repo_id rec1) rows0 Hu). }
  split; [|split; [|split; [|split; [|split]]]].
  - rewrite (filter_ext _ (ProjectsRoute.same_repo rec2)).
    + rewrite T2, E2.
      apply upsert_with_single; [apply Hfresh|intros; apply Hmerge|].
      apply (@unique_key_filter _ project_repo_id (github_repo_id rec2) rows1 Hu1).
    + intros p. unfold ProjectsRoute.same_repo. rewrite G2. reflexivity.
  - rewrite T2. apply upsert_with_length_hit. exact Hit.
  - destruct (@upserted_hit_merge _ (ProjectsRoute.same_repo rec2)
                (ProjectsRoute.refresh rec2) fresh2 rows1 Hit) as (r & Hin & Hs & Hr).
    assert (In r (filter (ProjectsRoute.same_repo rec1) rows1)) as X.
    { apply filter_In. split; [exact Hin|]. rewrite <- S. exact Hs. }
    rewrite F1 in X. destruct X as [<-|[]].
    rewrite E2, Hr. reflexivity.
  - destruct (@upserted_hit_merge _ (ProjectsRoute.same_repo rec2)
                (ProjectsRoute.refresh rec2) fresh2 rows1 Hit) as (r & Hin & Hs & Hr).
    assert (In r (filter (ProjectsRoute.same_repo rec1) rows1)) as X.
    { apply filter_In. split; [exact Hin|]. rewrite <- S. exact Hs. }
    rewrite F1 in X. destruct X as [<-|[]].
    rewrite E2, Hr. reflexivity.
  - rewrite T2. apply upsert_project_keeps_unique; [reflexivity|exact Hu1].
  - exists t2, u2, n2, k2, r2.
    destruct (@upserted_hit_merge _ (ProjectsRoute.same_repo rec2)
                (ProjectsRoute.refresh rec2) fresh2 rows1 Hit) as (r & _ & _ & Hr).
    assert (project_import p2 = rec2) as I2 by (rewrite E2, Hr; reflexivity).
    split; [exact A2|]. split; [exact J2|]. split; [rewrite <- G2; reflexivity|].
    rewrite I2. repeat split.
Qed.

(** Alice imports octocat/Hello-World, and again a month later. *)
Lemma reimport_updates_single_row_witness :
  filter (fun p => project_repo_id p =? 1296269)
         (projects (db (snd (ProjectsRoute.POST Sample.env_later Sample.import_hello
                               (snd (ProjectsRoute.POST Sample.env Sample.import_hello
                                       Sample.w0))))))
  = [Sample.alice_project_later]
  /\ stars (project_import Sample.alice_project_later) = 95.
Proof.
  split; [|reflexivity].
  apply (@reimport_updates_single_row Sample.env Sample.env_later
           Sample.import_hello Sample.import_hello Sample.w0
           Sample.alice_project Sample.alice_project_later).
  - repeat constructor. intros [].
  - reflexivity.
  - reflexivity.
  - reflexivity.
  - reflexivity.
  - reflexivity.
Defined.

(* ================================================================== *)
(** * Further properties of the handlers *)
(* ================================================================== *)

(** ** Requests without a valid session *)

(** A handler that starts with the session check answers 401 when the
    identity provider rejects the bearer token. *)
Lemma session_gate {T} env req token (k : SupabaseUser -> M (NextResponse T)) w :
  token_rejected env req token ->
  rejected w (try_catch (bind (assertSupabaseUser env (Some req)) k) w).
Proof.
  intros Hrej. destruct (assertSupabaseUser_rejected w Hrej) as (e & E & _ & Hs).
  unfold try_catch, bind. rewrite E. unfold on_error. rewrite Hs.
  cbn. do 4 (split; [reflexivity|]).
  intros ev. cbn [snd]. unfold log. rewrite issued_log. intros [<-|[]]. eauto.
Qed.

(** Without a bearer token of its own the request never gets past the
    session check either, but as a 500. *)
Lemma headers_gate {T} env req (k : SupabaseUser -> M (NextResponse T)) w :
  no_bearer req ->
  headers_crash w (try_catch (bind (assertSupabaseUser env (Some req)) k) w).
Proof.
  intros Hno. unfold try_catch, bind.
  rewrite (assertSupabaseUser_no_bearer env w Hno). repeat split.
Qed.

(** X1.  The two ways the session check of the fifteen envelope routes
    fails.  A request whose bearer token the identity provider does not
    accept is answered 401 with [success = false]; the handler stops there,
    having called only the provider.  A request with no bearer token in its
    Authorization header is answered 500 with the text of the TypeError that
    the un-awaited [headers()] call raises, before any outbound call.  In
    both cases nothing is read from or written to the tables, and GitHub is
    not called. *)
Theorem session_check_failures env sv req id w :
  (forall token,
      token_rejected env req token ->
      every_route (fun T => @rejected T w) env sv req id w)
  /\ (no_bearer req ->
      every_route (fun T => @headers_crash T w) env sv req id w).
Proof.
  split.
  - intros token Hrej. unfold every_route. repeat split; apply (session_gate _ w Hrej).
  - intros Hno. unfold every_route. repeat split; apply (headers_gate env _ w Hno).
Qed.

(** A request with a token the identity provider does not know, and one with
    no Authorization header at all. *)
Lemma session_check_failures_witness :
  rejected Sample.w0
    (ProjectsRoute.POST Sample.env (Sample.request "forged" None) Sample.w0)
  /\ headers_crash Sample.w0
       (DocumentationRoute.PUT Sample.env Demo.promote_carol "p1" Sample.w0).
Proof.
  split.
  - destruct (@session_check_failures Sample.env Demo.sv
                (Sample.request "forged" None) "p1" Sample.w0) as (A & _).
    destruct (A "forged") as (_ & _ & _ & _ & _ & _ & _ & B & _).
    + split; [reflexivity|]. left. discriminate.
    + exact B.
  - destruct (@session_check_failures Sample.env Demo.sv
                Demo.promote_carol "p1" Sample.w0) as (_ & A).
    destruct (A eq_refl) as (_ & B & _). exact B.
Defined.

(** ** The bearer header *)

Lemma split_concat sep l :
  l <> [] ->
  Forall (free_of sep) l ->
  Str.split sep (String.concat (String sep EmptyString) l) = l.
Proof.
  induction l as [|x [|y r] IH]; intros Hne Hf.
  - contradiction.
  - cbn. apply split_free. inversion Hf; assumption.
  - inversion Hf as [|? ? Hx Hr]; subst.
    change (String.concat (String sep EmptyString) (x :: y :: r))
      with (x ++ String sep (String.concat (String sep EmptyString) (y :: r))).
    rewrite (@split_app_sep sep x _ Hx), IH; [reflexivity|discriminate|assumption].
Qed.

Lemma toLowerCase_bearer_truthy scheme :
  Str.toLowerCase scheme = "bearer" -> Str.truthy scheme = true.
Proof. destruct scheme; [discriminate|reflexivity]. Qed.

(** X2.  [extractBearerToken] returns a token exactly when the header is a
    list of space-separated pieces whose first piece is "bearer" in any
    letter case and whose second piece is not empty; the token is that second
    piece, so it is never empty and never contains a space.  In particular
    "Bearer t" yields [t]. *)
Theorem extractBearerToken_spec h t :
  (extractBearerToken (Some h) = Some t
   <-> exists scheme rest,
         h = String.concat " " (scheme :: t :: rest)
         /\ Forall (free_of " ") (scheme :: t :: rest)
         /\ Str.toLowerCase scheme = "bearer"
         /\ t <> "")
  /\ (t <> "" -> free_of " " t -> extractBearerToken (Some ("Bearer " ++ t)) = Some t).
Proof.
  assert (forall scheme rest,
             Forall (free_of " ") (scheme :: t :: rest) ->
             Str.toLowerCase scheme = "bearer" -> t <> "" ->
             extractBearerToken (Some (String.concat " " (scheme :: t :: rest))) = Some t)
    as Hback.
  { intros scheme rest Hf Hl Ht. unfold extractBearerToken.
    assert (Str.truthy (String.concat " " (scheme :: t :: rest)) = true) as Hh.
    { pose proof (toLowerCase_bearer_truthy _ Hl) as Hs.
      destruct scheme; [discriminate|reflexivity]. }
    rewrite Hh. cbn [negb].
    rewrite (@split_concat " " (scheme :: t :: rest)); [|discriminate|assumption].
    rewrite Hl. cbn. destruct t; [contradiction|reflexivity]. }
  split; [split|].
  - unfold extractBearerToken.
    destruct (negb (Str.truthy h)); [discriminate|].
    pose proof (concat_split " " h) as C.
    pose proof (split_pieces_free " " h) as F.
    destruct (Str.split " " h) as [|scheme [|token rest]]; try discriminate.
    destruct (String.eqb (Str.toLowerCase scheme) "bearer") eqn:E; [|discriminate].
    destruct (Str.truthy token) eqn:T; [|discriminate].
    cbn. intros [= <-]. exists scheme, rest.
    split; [symmetry; exact C|]. split; [exact F|].
    split; [apply String.eqb_eq; exact E|].
    intros ->. discriminate.
  - intros (scheme & rest & -> & Hf & Hl & Ht). apply Hback; assumption.
  - intros Ht Hf.
    apply (Hback "Bearer" []); [|reflexivity|assumption].
    repeat constructor; try discriminate. exact Hf.
Qed.

Lemma extractBearerToken_spec_witness :
  extractBearerToken (Some ("Bearer " ++ "jwt-alice")) = Some "jwt-alice".
Proof.
  apply (proj2 (extractBearerToken_spec "Bearer jwt-alice" "jwt-alice")).
  - discriminate.
  - cbn. repeat split; discriminate.
Defined.

(** ** The uniform envelope *)

Lemma yields_ret {A} (P : A -> Prop) a : P a -> yields P (ret a).
Proof. intros H w a' w' [= <- _]. exact H. Qed.

Lemma yields_throw {A} (P : A -> Prop) e : yields P (throw e).
Proof. intros w a w' E. discriminate. Qed.

Lemma yields_bind {A B} (P : B -> Prop) (m : M A) (k : A -> M B) :
  (forall a, yields P (k a)) -> yields P (bind m k).
Proof.
  intros H w b w'. unfold bind.
  destruct (m w) as [[a|e] w1]; [apply H|discriminate].
Qed.

Lemma well_formed_ok {T} (d : T) st init :
  Str.nullish init 200 = st ->
  well_formed (json (standardResponse true (Some d) st None) init).
Proof.
  intros H. unfold well_formed. cbn. repeat split; try discriminate.
  exact H.
Qed.

Lemma well_formed_fail {T} st msg :
  well_formed (json (@standardResponse T false None st (Some msg)) (Some st)).
Proof.
  unfold well_formed. cbn. repeat split; try discriminate.
  eexists. split; [reflexivity|].
  assert (Str.truthy (Str.or_else msg "Unexpected error") = true) as Hm
      by (apply or_else_truthy; reflexivity).
  intros E. rewrite E in Hm. discriminate.
Qed.

Lemma try_catch_well_formed {T} (m : M (NextResponse T)) w :
  yields well_formed m -> well_formed (fst (try_catch m w)).
Proof.
  intros H. unfold try_catch. destruct (m w) as [[r|e] w'] eqn:E; cbn.
  - apply (H w r w' E).
  - apply well_formed_fail.
Qed.

Ltac envelope :=
  repeat first
    [ apply yields_bind; intros ?
    | apply yields_throw
    | apply yields_ret; first [ apply well_formed_fail | apply well_formed_ok; reflexivity ]
    | match goal with
      | |- yields _ (match ?x with _ => _ end) => destruct x
      end ].

(** X3.  Whatever the request and whatever the outside services answer, every
    route answers with the uniform envelope: the HTTP status equals the
    envelope's [status_code]; a success carries data and no error; a failure
    carries no data and a non-empty error text. *)
Theorem every_answer_is_well_formed env sv req id w :
  well_formed (fst (DocumentationRoute.GET env req id w))
  /\ well_formed (fst (DocumentationRoute.PUT env req id w))
  /\ well_formed (fst (AttachmentsRoute.GET env req id w))
  /\ well_formed (fst (AttachmentsRoute.POST env req id w))
  /\ well_formed (fst (ProjectRoute.GET env req id w))
  /\ well_formed (fst (ProjectRoute.PATCH env req id w))
  /\ well_formed (fst (ProjectsRoute.GET env req w))
  /\ well_formed (fst (ProjectsRoute.POST env req w))
  /\ well_formed (fst (StoreGithubTokenRoute.POST env req w))
  /\ well_formed (fst (ContributionsRoute.GET env req w))
  /\ well_formed (fst (ReposRoute.GET env sv req w))
  /\ well_formed (fst (UserRoute.GET env req w))
  /\ well_formed (fst (ActivityRoute.GET env sv req w))
  /\ well_formed (fst (ProfileRepoRoute.GET env sv req w))
  /\ well_formed (fst (SessionRoute.GET env req w)).
Proof.
  repeat match goal with |- _ /\ _ => split end;
    apply try_catch_well_formed.
  - unfold DocumentationRoute.GET_body. envelope.
  - unfold DocumentationRoute.PUT_body, zod_fail. envelope.
  - unfold AttachmentsRoute.GET_body. envelope.
  - unfold AttachmentsRoute.POST_body. envelope.
  - unfold ProjectRoute.GET_body. envelope.
  - unfold ProjectRoute.PATCH_body, zod_fail. envelope.
  - unfold ProjectsRoute.GET_body. envelope.
  - unfold ProjectsRoute.POST_body, zod_fail. envelope.
  - unfold StoreGithubTokenRoute.POST_body, zod_fail. envelope.
  - unfold ContributionsRoute.GET_body. envelope.
  - unfold ReposRoute.GET_body. envelope.
  - unfold UserRoute.GET_body. envelope.
  - unfold ActivityRoute.GET_body. envelope.
  - unfold ProfileRepoRoute.GET_body. envelope.
  - unfold SessionRoute.GET_body. envelope.
Qed.

(** ** Reads never write *)

Lemma keeps_ret {A} (a : A) : keeps_db (ret a).
Proof. intros w. reflexivity. Qed.

Lemma keeps_throw {A} e : keeps_db (@throw A e).
Proof. intros w. reflexivity. Qed.

Lemma keeps_emit e : keeps_db (emit e).
Proof. intros w. reflexivity. Qed.

Lemma keeps_bind {A B} (m : M A) (k : A -> M B) :
  keeps_db m -> (forall a, keeps_db (k a)) -> keeps_db (bind m k).
Proof.
  intros Hm Hk w. unfold bind. specialize (Hm w).
  destruct (m w) as [[a|e] w1]; cbn in *; [|exact Hm].
  rewrite (Hk a w1). exact Hm.
Qed.

Lemma keeps_try_with {A} (m : M A) (h : Err -> M A) :
  keeps_db m -> (forall e, keeps_db (h e)) -> keeps_db (try_with m h).
Proof.
  intros Hm Hh w. unfold try_with. specialize (Hm w).
  destruct (m w) as [[a|e] w1]; cbn in *; [exact Hm|].
  rewrite (Hh e w1). exact Hm.
Qed.

Lemma keeps_select {A} env t (read : Db -> DbResult A) : keeps_db (select env t read).
Proof.
  intros w. unfold select, query. destruct (db_fault env t v_select); reflexivity.
Qed.

Lemma keeps_assertSupabaseUser env req : keeps_db (assertSupabaseUser env req).
Proof.
  intros w. unfold assertSupabaseUser, getTokenFromRequest, bind.
  destruct (match req with
            | Some r => extractBearerToken (authorization r)
            | None => None
            end) as [token|]; [|reflexivity].
  unfold ret, emit.
  destruct (idp_error _); [reflexivity|]. destruct (idp_user _); reflexivity.
Qed.

Lemma try_catch_keeps {T} (m : M (NextResponse T)) w :
  keeps_db m -> db (snd (try_catch m w)) = db w.
Proof.
  intros H. unfold try_catch. specialize (H w).
  destruct (m w) as [[r|e] w']; exact H.
Qed.

Ltac reads_only :=
  repeat first
    [ apply keeps_ret
    | apply keeps_throw
    | apply keeps_emit
    | apply keeps_select
    | apply keeps_assertSupabaseUser
    | apply keeps_try_with; [|intros ?]
    | apply keeps_bind; [|intros ?]
    | progress cbv zeta
    | match goal with
      | |- keeps_db (match ?x with _ => _ end) => destruct x
      end ].

Lemma keeps_getProfileByUserId env userId : keeps_db (getProfileByUserId env userId).
Proof. unfold getProfileByUserId. reads_only. Qed.

Lemma keeps_getGithubTokenForUser env userId : keeps_db (getGithubTokenForUser env userId).
Proof. unfold getGithubTokenForUser. reads_only. Qed.

Lemma keeps_githubRequest {T} env (fetch : string -> string -> HttpResponse T) path token :
  keeps_db (githubRequest env fetch path token).
Proof. unfold githubRequest. reads_only. Qed.

Lemma keeps_fetchGithubContributions env token :
  keeps_db (fetchGithubContributions env token).
Proof. unfold fetchGithubContributions. reads_only. Qed.

Lemma keeps_fetchGithubProfileRepo env sv token username :
  keeps_db (fetchGithubProfileRepo env sv token username).
Proof.
  unfold fetchGithubProfileRepo.
  repeat first [ apply keeps_githubRequest | progress reads_only ].
Qed.

Ltac reads_only_handler :=
  repeat first
    [ apply keeps_getProfileByUserId
    | apply keeps_getGithubTokenForUser
    | apply keeps_githubRequest
    | apply keeps_fetchGithubContributions
    | apply keeps_fetchGithubProfileRepo
    | progress reads_only ].

(** X4.  No GET route writes: whatever the request, the caller and the
    answers of the outside services, the tables and the bucket are the same
    after the call as before it, also when the call fails. *)
Theorem get_routes_never_write env sv req id w :
  db (snd (DocumentationRoute.GET env req id w)) = db w
  /\ db (snd (AttachmentsRoute.GET env req id w)) = db w
  /\ db (snd (ProjectRoute.GET env req id w)) = db w
  /\ db (snd (ProjectsRoute.GET env req w)) = db w
  /\ db (snd (ContributionsRoute.GET env req w)) = db w
  /\ db (snd (ReposRoute.GET env sv req w)) = db w
  /\ db (snd (UserRoute.GET env req w)) = db w
  /\ db (snd (ActivityRoute.GET env sv req w)) = db w
  /\ db (snd (ProfileRepoRoute.GET env sv req w)) = db w
  /\ db (snd (SessionRoute.GET env req w)) = db w.
Proof.
  repeat match goal with |- _ /\ _ => split end; apply try_catch_keeps.
  - unfold DocumentationRoute.GET_body, DocumentationRoute.ensureAccess.
    reads_only_handler.
  - unfold AttachmentsRoute.GET_body, AttachmentsRoute.ensureAccess.
    reads_only_handler.
  - unfold ProjectRoute.GET_body. reads_only_handler.
  - unfold ProjectsRoute.GET_body. reads_only_handler.
  - unfold ContributionsRoute.GET_body. reads_only_handler.
  - unfold ReposRoute.GET_body, fetchRepoByFullName, fetchGithubUserRepos.
    reads_only_handler.
  - unfold UserRoute.GET_body, fetchGithubUser. reads_only_handler.
  - unfold ActivityRoute.GET_body, fetchGithubUser, fetchGithubActivity.
    reads_only_handler.
  - unfold ProfileRepoRoute.GET_body, fetchGithubUser. reads_only_handler.
  - unfold SessionRoute.GET_body. reads_only_handler.
Qed.

(** ** Project-scoped routes on an existing project *)

Section ExistingProject.

Variables (env : Env) (req : NextRequest) (id : string) (w : World).
Variables (token : string) (user : SupabaseUser).
Variables (prof : option ProfileRow) (p : ProjectRow).

Hypothesis Hauth : authenticated env req token user.
Hypothesis Hprofiles : answers env t_profiles v_select.
Hypothesis Hprojects : answers env t_projects v_select.
Hypothesis Hprof : select_profile (uid user) (db w) = DbOk prof.
Hypothesis Hrow : project_rows id (db w) = [p].

Lemma documentation_ensureAccess_run :
  DocumentationRoute.ensureAccess env id (uid user) (log (EvGetUser token) w)
  = if may_access user prof p
    then (Ok {| DocumentationRoute.project := Some (project_ref p);
                DocumentationRoute.profile := prof;
                DocumentationRoute.isOwner := opt_eqb (project_user_id p) (uid user);
                DocumentationRoute.isExpert := is_expert prof |}, after_access token w)
    else (Throw (Error_with_status "Not authorized" 403), after_access token w).
Proof.
  unfold DocumentationRoute.ensureAccess, bind.
  rewrite (@getProfileByUserId_ok env (uid user) (log (EvGetUser token) w) prof
             Hprofiles Hprof).
  rewrite (select_run _ _ Hprojects), !db_log.
  unfold select_project_ref. rewrite Hrow. cbn [map maybeSingle].
  unfold may_access. cbn [project_ref ref_user_id].
  destruct (opt_eqb (project_user_id p) (uid user)), (is_expert prof); reflexivity.
Qed.








End ExistingProject.



(** ** Documentation: what is written is what is read *)

Lemma upserted_const {A} (same : A -> bool) (row : A) rows :
  upserted same (fun _ => row) row rows = row.
Proof.
  induction rows as [|r rest IH]; cbn; [reflexivity|].
  destruct (same r); [reflexivity|exact IH].
Qed.

(** What GET answers to a caller who may access the project. *)
Lemma documentation_GET_run env req id w token user prof p :
  authenticated env req token user ->
  answers env t_profiles v_select ->
  answers env t_projects v_select ->
  answers env t_project_documentation v_select ->
  select_profile (uid user) (db w) = DbOk prof ->
  project_rows id (db w) = [p] ->
  may_access user prof p = true ->
  fst (DocumentationRoute.GET env req id w)
  = json (standardResponse true
            (Some match DocumentationRoute.select_documentation id (db w) with
                  | DbOk d => d
                  | DbErr _ => None
                  end) 200 None) None.
Proof.
  intros Hauth Hp Hq Hd Hprof Hrow Hyes.
  unfold DocumentationRoute.GET, try_catch, DocumentationRoute.GET_body, bind.
  rewrite (assertSupabaseUser_ok w Hauth).
  rewrite (@documentation_ensureAccess_run env id w token user prof p Hp Hq Hprof Hrow).
  rewrite Hyes. cbn [DocumentationRoute.project].
  rewrite (select_run _ _ Hd). unfold after_access. rewrite !db_log.
  destruct (DocumentationRoute.select_documentation id (db w)) as [d|e] eqn:S.
  - reflexivity.
  - rewrite (select_documentation_error _ _ S). reflexivity.
Qed.

(** What PUT does for the owner with a body the schema accepts. *)
Lemma documentation_PUT_run env req id w token user prof p j payload :
  authenticated env req token user ->
  answers env t_profiles v_select ->
  answers env t_projects v_select ->
  answers env t_project_documentation v_upsert ->
  select_profile (uid user) (db w) = DbOk prof ->
  project_rows id (db w) = [p] ->
  project_user_id p = Some (uid user) ->
  body_json req = Some j ->
  DocumentationRoute.updateSchema j = Some payload ->
  let row := documentation_row env user id payload in
  DocumentationRoute.PUT env req id w
  = (json (standardResponse true (Some (Some row)) 200 None) None,
     {| db := snd (DocumentationRoute.upsert_documentation row (db w));
        trace := trace (log (EvQuery t_project_documentation v_upsert)
                          (after_access token w)) |}).
Proof.
  intros Hauth Hp Hq Hu Hprof Hrow Hown Hj Hs row.
  assert (opt_eqb (project_user_id p) (uid user) = true) as Ho
      by (apply opt_eqb_true; exact Hown).
  assert (may_access user prof p = true) as Hyes
      by (unfold may_access; rewrite Ho; reflexivity).
  unfold DocumentationRoute.PUT, try_catch, DocumentationRoute.PUT_body, bind.
  rewrite (assertSupabaseUser_ok w Hauth).
  rewrite (@documentation_ensureAccess_run env id w token user prof p Hp Hq Hprof Hrow).
  rewrite Hyes. cbn [DocumentationRoute.project DocumentationRoute.isOwner].
  rewrite Ho. cbn [negb]. unfold request_json. rewrite Hj. unfold ret at 1.
  rewrite Hs. unfold query. rewrite Hu. unfold after_access.
  reflexivity.
Qed.

(** X6.  When the owner PUTs a documentation body the schema accepts, the
    answer is 200 with the stored row (project id, content, text, the time of
    the call, the owner as last editor), and from then on a documentation GET
    by any caller who may access the project, owner or expert, returns that
    row.  The project has at most one documentation row before the call, as
    the upsert on [project_id] presupposes. *)
Theorem documentation_put_then_get
    env req id w token user prof p j payload :
  authenticated env req token user ->
  answers env t_profiles v_select ->
  answers env t_projects v_select ->
  answers env t_project_documentation v_upsert ->
  answers env t_project_documentation v_select ->
  select_profile (uid user) (db w) = DbOk prof ->
  project_rows id (db w) = [p] ->
  project_user_id p = Some (uid user) ->
  body_json req = Some j ->
  DocumentationRoute.updateSchema j = Some payload ->
  (List.length (filter (fun r => String.eqb (doc_project_id r) id)
                       (project_documentation (db w))) <= 1)%nat ->
  let put := DocumentationRoute.PUT env req id w in
  let row := documentation_row env user id payload in
  answers_with (fst put) (Some row)
  /\ DocumentationRoute.select_documentation id (db (snd put)) = DbOk (Some row)
  /\ forall req' token' reader prof',
       authenticated env req' token' reader ->
       select_profile (uid reader) (db w) = DbOk prof' ->
       may_access reader prof' p = true ->
       answers_with (fst (DocumentationRoute.GET env req' id (snd put))) (Some row).
Proof.
  intros Hauth Hp Hq Hu Hd Hprof Hrow Hown Hj Hs Huniq put row.
  pose proof (@documentation_PUT_run env req id w token user prof p j payload
                Hauth Hp Hq Hu Hprof Hrow Hown Hj Hs) as E.
  fold put in E. fold row in E.
  assert (fst put = json (standardResponse true (Some (Some row)) 200 None) None) as R
      by (rewrite E; reflexivity).
  assert (db (snd put) = snd (DocumentationRoute.upsert_documentation row (db w))) as D
      by (rewrite E; reflexivity).
  clearbody put. clear E.
  assert (DocumentationRoute.select_documentation id (db (snd put)) = DbOk (Some row)) as S.
  { rewrite D. unfold DocumentationRoute.select_documentation. cbn.
    rewrite (@upsert_with_single _ (fun r => String.eqb (doc_project_id r) id)
               (fun _ => row) row).
    - rewrite upserted_const. reflexivity.
    - cbn. apply String.eqb_refl.
    - intros _ _. cbn. apply String.eqb_refl.
    - exact Huniq. }
  split; [rewrite R; repeat split|]. split; [exact S|].
  intros req' token' reader prof' Hauth' Hprof' Hyes.
  rewrite (@documentation_GET_run env req' id (snd put) token' reader prof' p
             Hauth' Hp Hq Hd).
  - rewrite S. repeat split.
  - rewrite D. exact Hprof'.
  - rewrite D. exact Hrow.
  - exact Hyes.
Qed.

(** Alice documents her project; Bob, an expert, reads it. *)
Lemma documentation_put_then_get_witness :
  answers_with
    (fst (DocumentationRoute.GET Sample.env (Sample.request "jwt-bob" None) "p1"
            (snd (DocumentationRoute.PUT Sample.env
                    (Sample.request "jwt-alice" (Some Demo.doc_body)) "p1" Sample.w0))))
    (Some {| doc_project_id := "p1";
             doc_content := Some (JObj [("type", JStr "doc")]);
             doc_content_text := Some "Hello";
             doc_updated_at := "2024-02-01T00:00:00.000Z";
             doc_updated_by := "alice" |}).
Proof.
  destruct (@documentation_put_then_get Sample.env
              (Sample.request "jwt-alice" (Some Demo.doc_body)) "p1" Sample.w0
              "jwt-alice" Sample.alice
              (Some {| profile_id := "alice"; profile_username := Some "alice";
                       profile_full_name := None; profile_role := Some developer;
                       profile_avatar_url := None |})
              Sample.alice_project Demo.doc_body
              {| DocumentationRoute.content := Some (JObj [("type", JStr "doc")]);
                 DocumentationRoute.content_text := Some "Hello" |})
    as (_ & _ & H).
  - repeat split.
  - reflexivity.
  - reflexivity.
  - reflexivity.
  - reflexivity.
  - reflexivity.
  - reflexivity.
  - reflexivity.
  - reflexivity.
  - reflexivity.
  - cbn. lia.
  - apply (H (Sample.request "jwt-bob" None) "jwt-bob" Sample.bob
             (Some {| profile_id := "bob"; profile_username := Some "bob";
                      profile_full_name := None; profile_role := Some expert;
                      profile_avatar_url := None |})).
    + repeat split.
    + reflexivity.
    + reflexivity.
Defined.

(** X7.  A project without a documentation row is not an error: the GET
    of a caller who may access the project answers 200 with [data = null]. *)
Theorem documentation_absent_is_null env req id w token user prof p :
  authenticated env req token user ->
  answers env t_profiles v_select ->
  answers env t_projects v_select ->
  answers env t_project_documentation v_select ->
  select_profile (uid user) (db w) = DbOk prof ->
  project_rows id (db w) = [p] ->
  may_access user prof p = true ->
  (forall r, In r (project_documentation (db w)) -> doc_project_id r <> id) ->
  answers_with (fst (DocumentationRoute.GET env req id w)) None
  /\ error (body (fst (DocumentationRoute.GET env req id w))) = None.
Proof.
  intros Hauth Hp Hq Hd Hprof Hrow Hyes Hnone.
  rewrite (@documentation_GET_run env req id w token user prof p
             Hauth Hp Hq Hd Hprof Hrow Hyes).
  unfold DocumentationRoute.select_documentation.
  rewrite filter_none; [repeat split|].
  intros r Hr. apply String.eqb_neq. apply Hnone. exact Hr.
Qed.

(** Bob opens the documentation of Alice's project before she wrote any. *)
Lemma documentation_absent_is_null_witness :
  answers_with
    (fst (DocumentationRoute.GET Sample.env (Sample.request "jwt-bob" None) "p1" Sample.w0))
    None.
Proof.
  apply (@documentation_absent_is_null Sample.env (Sample.request "jwt-bob" None) "p1"
           Sample.w0 "jwt-bob" Sample.bob
           (Some {| profile_id := "bob"; profile_username := Some "bob";
                    profile_full_name := None; profile_role := Some expert;
                    profile_avatar_url := None |})
           Sample.alice_project).
  - repeat split.
  - reflexivity.
  - reflexivity.
  - reflexivity.
  - reflexivity.
  - reflexivity.
  - reflexivity.
  - intros r [].
Defined.

(** X8.  When a datastore error counts as a missing documentation table for
    [isTableMissing] (code PGRST116 or PGRST101, or a message that contains,
    in any letter case, "could not find the table" or
    "relationship 'project_documentation'"), the GET of a caller who may
    access the project degrades to 200 with [data = null], while the owner's
    PUT answers 503 "Project documentation storage is not configured. ..."
    and writes nothing. *)
Theorem documentation_storage_not_configured
    env req id w token user prof p e_read e_write :
  authenticated env req token user ->
  answers env t_profiles v_select ->
  answers env t_projects v_select ->
  select_profile (uid user) (db w) = DbOk prof ->
  project_rows id (db w) = [p] ->
  db_fault env t_project_documentation v_select = Some e_read ->
  DocumentationRoute.isTableMissing e_read = true ->
  db_fault env t_project_documentation v_upsert = Some e_write ->
  DocumentationRoute.isTableMissing e_write = true ->
  (may_access user prof p = true ->
   answers_with (fst (DocumentationRoute.GET env req id w)) None)
  /\ (forall j payload,
         project_user_id p = Some (uid user) ->
         body_json req = Some j ->
         DocumentationRoute.updateSchema j = Some payload ->
         let put := DocumentationRoute.PUT env req id w in
         http_status (fst put) = 503
         /\ success (body (fst put)) = false
         /\ error (body (fst put))
            = Some "Project documentation storage is not configured. Please run the associated migration."
         /\ db (snd put) = db w).
Proof.
  intros Hauth Hp Hq Hprof Hrow Fr Mr Fw Mw. split.
  - intros Hyes.
    unfold DocumentationRoute.GET, try_catch, DocumentationRoute.GET_body, bind.
    rewrite (assertSupabaseUser_ok w Hauth).
    rewrite (@documentation_ensureAccess_run env id w token user prof p Hp Hq Hprof Hrow).
    rewrite Hyes. cbn [DocumentationRoute.project].
    unfold select, query. rewrite Fr, Mr. repeat split.
  - intros j payload Hown Hj Hs put.
    assert (opt_eqb (project_user_id p) (uid user) = true) as Ho
        by (apply opt_eqb_true; exact Hown).
    assert (may_access user prof p = true) as Hyes
        by (unfold may_access; rewrite Ho; reflexivity).
    assert (put = (json (standardResponse false None 503
                           (Some "Project documentation storage is not configured. Please run the associated migration."))
                        (Some 503),
                   log (EvQuery t_project_documentation v_upsert)
                     (after_access token w))) as E.
    { subst put.
      unfold DocumentationRoute.PUT, try_catch, DocumentationRoute.PUT_body, bind.
      rewrite (assertSupabaseUser_ok w Hauth).
      rewrite (@documentation_ensureAccess_run env id w token user prof p
                 Hp Hq Hprof Hrow).
      rewrite Hyes. cbn [DocumentationRoute.project DocumentationRoute.isOwner].
      rewrite Ho. cbn [negb]. unfold request_json. rewrite Hj. unfold ret at 1.
      rewrite Hs. unfold query. rewrite Fw, Mw. reflexivity. }
    rewrite E. repeat split.
Qed.

(** Alice and the documentation table that was never created. *)
Lemma documentation_storage_not_configured_witness :
  answers_with
    (fst (DocumentationRoute.GET Demo.env_no_doc_table
            (Sample.request "jwt-alice" (Some Demo.doc_body)) "p1" Sample.w0)) None
  /\ http_status
       (fst (DocumentationRoute.PUT Demo.env_no_doc_table
               (Sample.request "jwt-alice" (Some Demo.doc_body)) "p1" Sample.w0)) = 503.
Proof.
  destruct (@documentation_storage_not_configured Demo.env_no_doc_table
              (Sample.request "jwt-alice" (Some Demo.doc_body)) "p1" Sample.w0
              "jwt-alice" Sample.alice
              (Some {| profile_id := "alice"; profile_username := Some "alice";
                       profile_full_name := None; profile_role := Some developer;
                       profile_avatar_url := None |})
              Sample.alice_project
              {| db_message := "Could not find the table 'public.project_documentation' in the schema cache";
                 db_code := Some "PGRST205" |}
              {| db_message := "Could not find the table 'public.project_documentation' in the schema cache";
                 db_code := Some "PGRST205" |})
    as (G & P).
  - repeat split.
  - reflexivity.
  - reflexivity.
  - reflexivity.
  - reflexivity.
  - reflexivity.
  - reflexivity.
  - reflexivity.
  - reflexivity.
  - split; [apply G; reflexivity|].
    apply (P Demo.doc_body
             {| DocumentationRoute.content := Some (JObj [("type", JStr "doc")]);
                DocumentationRoute.content_text := Some "Hello" |});
      reflexivity.
Defined.

(** ** Metadata PATCH *)




(** ** Attachments *)












Lemma insert_by_ordered {A} (le : A -> A -> bool) x l :
  (forall a b, le a b = true \/ le b a = true) ->
  ordered le l -> ordered le (insert_by le x l).
Proof.
  intros Htot. induction l as [|y r IH]; intros Ho; cbn.
  - auto.
  - destruct (le x y) eqn:E.
    + cbn. auto.
    + destruct Ho as [Hy Hr]. specialize (IH Hr).
      cbn [ordered]. split; [|exact IH].
      destruct r as [|z r']; cbn.
      * destruct (Htot x y) as [H|H]; [congruence|exact H].
      * destruct (le x z); [|exact Hy].
        destruct (Htot x y) as [H|H]; [congruence|exact H].
Qed.

Lemma order_by_ordered {A} (le : A -> A -> bool) l :
  (forall a b, le a b = true \/ le b a = true) ->
  ordered le (order_by le l).
Proof.
  intros Htot. unfold order_by. induction l as [|x r IH]; cbn; [exact I|].
  apply insert_by_ordered; assumption.
Qed.



(** ** The caller's own project list *)

Lemma desc_text_total a b : desc_text a b = true \/ desc_text b a = true.
Proof.
  destruct a as [x|], b as [y|]; cbn; auto. apply String.leb_total.
Qed.

(** X14.  Without [view=expert], GET /api/projects answers 200 with the
    projects whose owner is the caller, each once and none of anybody else,
    each paired with the number of its attachments, ordered by [updated_at]
    descending with rows never updated first. *)
Theorem developer_view_lists_own_projects env req w token user :
  authenticated env req token user ->
  assoc "view" (searchParams req) <> Some "expert" ->
  answers env t_projects v_select ->
  exists rows,
    answers_with (fst (ProjectsRoute.GET env req w)) (ProjectsRoute.Own rows)
    /\ Permutation (map fst rows)
         (filter (fun p => opt_eqb (project_user_id p) (uid user)) (projects (db w)))
    /\ (forall p n, In (p, n) rows ->
          project_user_id p = Some (uid user)
          /\ n = List.length (filter (fun a => String.eqb (att_project_id a) (project_id p))
                                     (project_documents (db w))))
    /\ ordered (fun a b => desc_text (updated_at (project_meta a))
                                     (updated_at (project_meta b)))
               (map fst rows).
Proof.
  intros Hauth Hview Hq.
  set (le := fun a b : ProjectRow => desc_text (updated_at (project_meta a))
                                               (updated_at (project_meta b))).
  set (mine := filter (fun p => opt_eqb (project_user_id p) (uid user)) (projects (db w))).
  set (count := fun p : ProjectRow =>
                  (p, List.length (filter (fun a => String.eqb (att_project_id a)
                                                               (project_id p))
                                          (project_documents (db w))))).
  exists (map count (order_by le mine)).
  assert (map fst (map count (order_by le mine)) = order_by le mine) as Hfst
      by (rewrite map_map; apply map_id).
  split; [|split; [|split]].
  - unfold ProjectsRoute.GET, try_catch, ProjectsRoute.GET_body, bind.
    rewrite (assertSupabaseUser_ok w Hauth).
    assert (String.eqb (Str.nullish (assoc "view" (searchParams req)) "developer")
                       "expert" = false) as V.
    { apply String.eqb_neq. intros E. apply Hview.
      destruct (assoc "view" (searchParams req)); cbn in E; [congruence|discriminate]. }
    rewrite V. rewrite (select_run _ _ Hq). repeat split.
  - rewrite Hfst. apply order_by_perm.
  - intros p n Hin. apply in_map_iff in Hin as (q & E & Hq').
    unfold count in E. injection E as <- <-.
    split; [|reflexivity].
    apply (Permutation_in _ (order_by_perm le mine)) in Hq'.
    apply filter_In in Hq' as [_ Hq']. apply opt_eqb_true. exact Hq'.
  - rewrite Hfst. apply order_by_ordered. intros a b. apply desc_text_total.
Qed.

Lemma developer_view_lists_own_projects_witness :
  exists rows,
    answers_with (fst (ProjectsRoute.GET Sample.env (Sample.request "jwt-alice" None)
                         Sample.w0)) (ProjectsRoute.Own rows)
    /\ map fst rows = [Sample.alice_project].
Proof.
  destruct (@developer_view_lists_own_projects Sample.env (Sample.request "jwt-alice" None)
              Sample.w0 "jwt-alice" Sample.alice) as (rows & A & P & _).
  - repeat split.
  - discriminate.
  - reflexivity.
  - exists rows. split; [exact A|].
    apply Permutation_sym, Permutation_length_1_inv in P. exact P.
Defined.

(** ** More on imports *)

(** The import handler when every step succeeds. *)
Lemma POST_import_run env req w token user j full_name tok repo :
  authenticated env req token user ->
  body_json req = Some j ->
  ProjectsRoute.importSchema j = Some full_name ->
  answers env t_user_tokens v_select ->
  select_github_token (uid user) (db w) = DbOk (Some (Some tok)) ->
  Str.truthy tok = true ->
  resp_ok (gh_repo env (GITHUB_API ++ "/repos/" ++ full_name) tok) = true ->
  resp_json (gh_repo env (GITHUB_API ++ "/repos/" ++ full_name) tok) = Some repo ->
  answers env t_projects v_upsert ->
  let record := ProjectsRoute.import_record env user full_name repo in
  let fresh := ProjectsRoute.new_project env record (List.length (projects (db w))) in
  exists w',
    ProjectsRoute.POST env req w
    = (json (standardResponse true
               (Some (upserted (ProjectsRoute.same_repo record)
                               (ProjectsRoute.refresh record) fresh (projects (db w))))
               201 None) (Some 201), w')
    /\ db w' = snd (ProjectsRoute.upsert_project env record (db w)).
Proof.
  intros Hauth Hj Hi Ha Hs Ht Hok Hjson Hu record fresh.
  eexists. split.
  - unfold ProjectsRoute.POST, try_catch, ProjectsRoute.POST_body.
    unfold bind at 1. rewrite (assertSupabaseUser_ok w Hauth).
    unfold bind at 1. unfold request_json. rewrite Hj. unfold ret at 1.
    rewrite Hi. unfold bind at 1.
    rewrite (@getGithubTokenForUser_ok env (uid user) (log (EvGetUser token) w) tok
               Ha Hs Ht).
    unfold bind at 1. unfold fetchRepoByFullName, githubRequest, bind at 1, emit.
    rewrite Hok, Hjson. cbn [negb]. unfold ret at 1.
    unfold bind, query. rewrite Hu. reflexivity.
  - reflexivity.
Qed.

Lemma upserted_miss {A} (same : A -> bool) merge fresh rows :
  existsb same rows = false ->
  upserted same merge fresh rows = fresh
  /\ upsert_with same merge fresh rows = (rows ++ [fresh])%list.
Proof.
  induction rows as [|r rest IH]; cbn; [auto|].
  destruct (same r); cbn; [discriminate|].
  intros H. destruct (IH H) as [-> ->]. auto.
Qed.

(** X15.  Importing a repository whose GitHub id is not yet in the table
    answers 201 with a new row appended after the existing ones, which stay
    as they are; the new row's [github_repo_id] is the upstream repository's
    id, its owner is the caller, and its user-edited columns hold the column
    defaults. *)
Theorem first_import_appends_a_row env req w token user j full_name tok repo :
  authenticated env req token user ->
  body_json req = Some j ->
  ProjectsRoute.importSchema j = Some full_name ->
  answers env t_user_tokens v_select ->
  select_github_token (uid user) (db w) = DbOk (Some (Some tok)) ->
  Str.truthy tok = true ->
  resp_ok (gh_repo env (GITHUB_API ++ "/repos/" ++ full_name) tok) = true ->
  resp_json (gh_repo env (GITHUB_API ++ "/repos/" ++ full_name) tok) = Some repo ->
  answers env t_projects v_upsert ->
  (forall q, In q (projects (db w)) -> project_repo_id q <> repo_id repo) ->
  let run := ProjectsRoute.POST env req w in
  exists row,
    http_status (fst run) = 201
    /\ success (body (fst run)) = true
    /\ data (body (fst run)) = Some row
    /\ projects (db (snd run)) = (projects (db w) ++ [row])%list
    /\ project_repo_id row = repo_id repo
    /\ project_user_id row = Some (uid user)
    /\ repository_full_name (project_import row) = full_name
    /\ project_meta row = default_meta env
    /\ project_id row = gen_uuid env (List.length (projects (db w))).
Proof.
  intros Hauth Hj Hi Ha Hs Ht Hok Hjson Hu Hnew run.
  destruct (@POST_import_run env req w token user j full_name tok repo
              Hauth Hj Hi Ha Hs Ht Hok Hjson Hu) as (w' & R & D).
  fold run in R.
  set (record := ProjectsRoute.import_record env user full_name repo) in *.
  set (fresh := ProjectsRoute.new_project env record (List.length (projects (db w)))) in *.
  assert (existsb (ProjectsRoute.same_repo record) (projects (db w)) = false) as Hmiss.
  { destruct (existsb _ _) eqn:E; [|reflexivity].
    apply existsb_exists in E as (q & Hin & Hq).
    unfold ProjectsRoute.same_repo in Hq. apply Z.eqb_eq in Hq.
    destruct (Hnew q Hin). exact Hq. }
  destruct (upserted_miss (ProjectsRoute.same_repo record)
              (ProjectsRoute.refresh record) fresh _ Hmiss) as [U1 U2].
  exists fresh. rewrite R. cbn [fst snd]. rewrite D, U1.
  cbn [ProjectsRoute.upsert_project snd projects]. fold record. fold fresh.
  rewrite U2. repeat split.
Qed.

(** Alice imports octocat/Hello-World into an empty projects table. *)
Lemma first_import_appends_a_row_witness :
  exists row,
    data (body (fst (ProjectsRoute.POST Sample.env Sample.import_hello
                       {| db := Demo.db_no_projects; trace := [] |}))) = Some row
    /\ project_repo_id row = 1296269.
Proof.
  destruct (@first_import_appends_a_row Sample.env Sample.import_hello
              {| db := Demo.db_no_projects; trace := [] |}
              "jwt-alice" Sample.alice
              (JObj [("repository_full_name", JStr "octocat/Hello-World")])
              "octocat/Hello-World" "gho_good" (Sample.hello_world 80))
    as (row & _ & _ & D & _ & G & _).
  - repeat split.
  - reflexivity.
  - reflexivity.
  - reflexivity.
  - reflexivity.
  - reflexivity.
  - reflexivity.
  - reflexivity.
  - reflexivity.
  - intros q [].
  - exists row. split; [exact D|exact G].
Defined.






(** ** Token storage: what is stored is what the GitHub routes read *)

Lemma payloadSchema_nonempty j t :
  StoreGithubTokenRoute.payloadSchema j = Some t -> Str.truthy t = true.
Proof.
  unfold StoreGithubTokenRoute.payloadSchema.
  destruct (negb (z_object j)); [discriminate|].
  destruct (z_string _) as [s|]; [|discriminate].
  destruct (z_string_optional _); [|discriminate].
  destruct (z_string_optional _); [|discriminate].
  destruct s; cbn; [discriminate|]. intros [= <-]. reflexivity.
Qed.

Lemma upsert_token_rows record rows :
  NoDup (map token_user_id rows) ->
  let rows' := upsert_with (fun t => String.eqb (token_user_id t) (token_user_id record))
                           (fun _ => record) record rows in
  filter (fun t => String.eqb (token_user_id t) (token_user_id record)) rows' = [record]
  /\ (forall u, u <> token_user_id record ->
                filter (fun t => String.eqb (token_user_id t) u) rows'
                = filter (fun t => String.eqb (token_user_id t) u) rows)
  /\ NoDup (map token_user_id rows').
Proof.
  intros Hn. cbn zeta.
  induction rows as [|r rest IH]; cbn.
  - rewrite String.eqb_refl. repeat split.
    + intros u Hu. apply String.eqb_neq in Hu. rewrite String.eqb_sym, Hu. reflexivity.
    + repeat constructor. intros [].
  - inversion Hn as [|? ? Hr Hrest]; subst.
    destruct (String.eqb (token_user_id r) (token_user_id record)) eqn:E; cbn.
    + apply String.eqb_eq in E. rewrite String.eqb_refl.
      split; [|split].
      * f_equal. apply filter_none. intros x Hx. apply String.eqb_neq.
        intros Hk. apply Hr. rewrite E, <- Hk. apply in_map. exact Hx.
      * intros u Hu. rewrite E. apply String.eqb_neq in Hu.
        rewrite String.eqb_sym, Hu. reflexivity.
      * rewrite <- E. exact Hn.
    + destruct (IH Hrest) as (I1 & I2 & I3). rewrite E.
      split; [exact I1|]. split.
      * intros u Hu. rewrite (I2 u Hu). reflexivity.
      * constructor; [|exact I3].
        intros Hin. apply in_map_iff in Hin as (x & Hx & Hin).
        assert (In x (filter (fun t => String.eqb (token_user_id t) (token_user_id r))
                        (upsert_with
                           (fun t => String.eqb (token_user_id t) (token_user_id record))
                           (fun _ => record) record rest))) as X
          by (apply filter_In; split; [exact Hin|apply String.eqb_eq; exact Hx]).
        rewrite I2 in X.
        -- apply filter_In in X as [X _]. apply Hr. rewrite <- Hx. apply in_map. exact X.
        -- intros Hk. rewrite Hk, String.eqb_refl in E. discriminate.
Qed.

(** X17.  A token-storage request whose provider token passes the GitHub
    profile check answers 200, and afterwards [getGithubTokenForUser] returns
    exactly that token for the caller: the caller has one [user_tokens] row,
    holding the token and the GitHub identity fetched with it.  The rows of
    all other users read as before, and [user_id] stays unique. *)
Theorem stored_token_is_read_back env req w token user j provider_token profile env2 :
  authenticated env req token user ->
  body_json req = Some j ->
  StoreGithubTokenRoute.payloadSchema j = Some provider_token ->
  resp_ok (gh_user env (GITHUB_API ++ "/user") provider_token) = true ->
  resp_json (gh_user env (GITHUB_API ++ "/user") provider_token) = Some profile ->
  answers env t_user_tokens v_upsert ->
  NoDup (map token_user_id (user_tokens (db w))) ->
  answers env2 t_user_tokens v_select ->
  let run := StoreGithubTokenRoute.POST env req w in
  answers_with (fst run) "GitHub token stored"
  /\ fst (getGithubTokenForUser env2 (uid user) (snd run)) = Ok provider_token
  /\ filter (fun t => String.eqb (token_user_id t) (uid user))
            (user_tokens (db (snd run)))
     = [StoreGithubTokenRoute.token_record env user provider_token profile]
  /\ (forall u, u <> uid user ->
                select_github_token u (db (snd run)) = select_github_token u (db w))
  /\ NoDup (map token_user_id (user_tokens (db (snd run)))).
Proof.
  intros Hauth Hj Hs Hok Hjson Hu Hn Ha run.
  set (record := StoreGithubTokenRoute.token_record env user provider_token profile).
  assert (run = (json (standardResponse true (Some "GitHub token stored") 200 None) None,
                 {| db := snd (StoreGithubTokenRoute.upsert_token record (db w));
                    trace := trace (log (EvQuery t_user_tokens v_upsert)
                                      (log (EvFetch (GITHUB_API ++ "/user") provider_token)
                                         (log (EvGetUser token) w))) |})) as R.
  { subst run.
    unfold StoreGithubTokenRoute.POST, try_catch, StoreGithubTokenRoute.POST_body.
    unfold bind at 1. rewrite (assertSupabaseUser_ok w Hauth).
    unfold bind at 1. unfold request_json. rewrite Hj. unfold ret at 1.
    rewrite Hs. unfold bind at 1.
    unfold fetchGithubUser, githubRequest, bind at 1, emit.
    rewrite Hok, Hjson. cbn [negb]. unfold ret at 1.
    unfold bind, query. rewrite Hu. reflexivity. }
  destruct (upsert_token_rows record (user_tokens (db w)) Hn) as (F1 & F2 & F3).
  cbn zeta in F1, F2, F3.
  rewrite R. cbn [fst snd db StoreGithubTokenRoute.upsert_token user_tokens].
  split; [repeat split|].
  split.
  - rewrite (@getGithubTokenForUser_ok env2 (uid user) _ provider_token Ha).
    + reflexivity.
    + unfold select_github_token. cbn [db user_tokens]. 
      change (uid user) with (token_user_id record). rewrite F1. reflexivity.
    + exact (payloadSchema_nonempty _ Hs).
  - split; [exact F1|]. split; [|exact F3].
    intros u Hne. unfold select_github_token. cbn [user_tokens].
    rewrite (F2 u Hne). reflexivity.
Qed.

(** Bob, who had no token row, stores one; Alice's row is as before. *)
Lemma stored_token_is_read_back_witness :
  let run := StoreGithubTokenRoute.POST Sample.env
               (Sample.request "jwt-bob" (Some (JObj [("provider_token", JStr "gho_good")])))
               Sample.w0 in
  fst (getGithubTokenForUser Sample.env "bob" (snd run)) = Ok "gho_good"
  /\ select_github_token "alice" (db (snd run)) = select_github_token "alice" Sample.db0.
Proof.
  intros run.
  destruct (@stored_token_is_read_back Sample.env
              (Sample.request "jwt-bob" (Some (JObj [("provider_token", JStr "gho_good")])))
              Sample.w0 "jwt-bob" Sample.bob
              (JObj [("provider_token", JStr "gho_good")]) "gho_good" Sample.octocat
              Sample.env)
    as (_ & A & _ & B & _).
  - repeat split.
  - reflexivity.
  - reflexivity.
  - reflexivity.
  - reflexivity.
  - reflexivity.
  - repeat constructor; cbn; intuition discriminate.
  - reflexivity.
  - split; [exact A|]. apply B. discriminate.
Defined.

(** ** The GitHub read routes *)

Lemma firstn_nth_error {A} (l : list A) n i :
  (i < n)%nat -> nth_error (firstn n l) i = nth_error l i.
Proof.
  revert n i. induction l as [|x l IH]; intros n i H.
  - rewrite firstn_nil. reflexivity.
  - destruct n; [lia|]. destruct i; cbn; [reflexivity|]. apply IH. lia.
Qed.

(** X18.  The activity route asks GitHub for the events of the account the
    stored token belongs to (the [login] of the profile fetched with that
    token) and answers 200 with at most ten items: the first ten events,
    in GitHub's order, each reduced to id, type, repository name and time. *)
Theorem activity_lists_first_ten_events env sv req w token user tok profile events :
  authenticated env req token user ->
  answers env t_user_tokens v_select ->
  select_github_token (uid user) (db w) = DbOk (Some (Some tok)) ->
  Str.truthy tok = true ->
  resp_ok (gh_user env (GITHUB_API ++ "/user") tok) = true ->
  resp_json (gh_user env (GITHUB_API ++ "/user") tok) = Some profile ->
  let url := GITHUB_API ++ "/users/" ++ ghu_login profile ++ "/events" in
  resp_ok (gh_events sv url tok) = true ->
  resp_json (gh_events sv url tok) = Some events ->
  let run := ActivityRoute.GET env sv req w in
  exists items,
    answers_with (fst run) items
    /\ List.length items = Nat.min 10 (List.length events)
    /\ (forall i, (i < 10)%nat ->
                  nth_error items i = option_map ActivityRoute.item_of (nth_error events i))
    /\ issued w (snd run)
       = [EvGetUser token; EvQuery t_user_tokens v_select;
          EvFetch (GITHUB_API ++ "/user") tok; EvFetch url tok].
Proof.
  intros Hauth Ha Hs Ht Hok Hjson url Hok2 Hjson2 run.
  assert (run = (json (standardResponse true
                         (Some (map ActivityRoute.item_of (firstn 10 events))) 200 None)
                      None,
                 log (EvFetch url tok) (after_profile token tok w))) as R.
  { subst run. unfold ActivityRoute.GET, try_catch, ActivityRoute.GET_body.
    unfold bind at 1. rewrite (assertSupabaseUser_ok w Hauth).
    unfold bind at 1.
    rewrite (@getGithubTokenForUser_ok env (uid user) (log (EvGetUser token) w) tok
               Ha Hs Ht).
    unfold bind at 1. unfold fetchGithubUser.
    rewrite (@githubRequest_ok _ env (gh_user env) "/user" tok _ profile Hok Hjson).
    unfold bind at 1. unfold fetchGithubActivity.
    rewrite (@githubRequest_ok _ env (gh_events sv)
               ("/users/" ++ ghu_login profile ++ "/events") tok _ events Hok2 Hjson2).
    reflexivity. }
  exists (map ActivityRoute.item_of (firstn 10 events)).
  rewrite R. cbn [fst snd]. split; [repeat split|]. split; [|split].
  - rewrite length_map, length_firstn. reflexivity.
  - intros i Hi. rewrite nth_error_map, firstn_nth_error by exact Hi. reflexivity.
  - unfold after_profile. norm_issued. reflexivity.
Qed.

(** Alice's feed of twelve events is cut to ten. *)
Lemma activity_lists_first_ten_events_witness :
  exists items,
    answers_with (fst (ActivityRoute.GET Sample.env Demo.sv (Sample.request "jwt-alice" None)
                         Sample.w0)) items
    /\ List.length items = 10%nat.
Proof.
  destruct (@activity_lists_first_ten_events Sample.env Demo.sv
              (Sample.request "jwt-alice" None) Sample.w0 "jwt-alice" Sample.alice
              "gho_good" Sample.octocat Demo.events)
    as (items & A & L & _).
  - repeat split.
  - reflexivity.
  - reflexivity.
  - reflexivity.
  - reflexivity.
  - reflexivity.
  - reflexivity.
  - reflexivity.
  - exists items. split; [exact A|exact L].
Defined.

(** X19.  The profile-repository route treats the README as optional: once
    the repository [login/login] itself was fetched, the answer is 200
    whatever the README request does, and [readme_content] is a text only
    when the README request succeeded and its content decoded; a failed
    request, an empty content or a decoding error all give [null]. *)
Theorem profile_repo_readme_is_optional env sv req w token user tok profile repo :
  authenticated env req token user ->
  answers env t_user_tokens v_select ->
  select_github_token (uid user) (db w) = DbOk (Some (Some tok)) ->
  Str.truthy tok = true ->
  resp_ok (gh_user env (GITHUB_API ++ "/user") tok) = true ->
  resp_json (gh_user env (GITHUB_API ++ "/user") tok) = Some profile ->
  let login := ghu_login profile in
  resp_ok (gh_repo env (GITHUB_API ++ "/repos/" ++ login ++ "/" ++ login) tok) = true ->
  resp_json (gh_repo env (GITHUB_API ++ "/repos/" ++ login ++ "/" ++ login) tok)
  = Some repo ->
  let run := ProfileRepoRoute.GET env sv req w in
  let r := gh_readme sv (GITHUB_API ++ "/repos/" ++ login ++ "/" ++ login ++ "/readme")
             tok in
  exists readme,
    answers_with (fst run)
      {| ProfileRepoRoute.name := repo_name repo;
         ProfileRepoRoute.description := repo_description repo;
         ProfileRepoRoute.stars := repo_stargazers_count repo;
         ProfileRepoRoute.updated_at := repo_updated_at repo;
         ProfileRepoRoute.html_url := repo_html_url repo;
         ProfileRepoRoute.readme_content := readme |}
    /\ (resp_ok r = false -> readme = None)
    /\ (resp_json r = None -> readme = None)
    /\ (forall text, readme = Some text ->
          exists body, resp_json r = Some body
            /\ buffer_decode sv (readme_content body)
                 (Str.nullish (readme_encoding body) "base64") = Some text).
Proof.
  intros Hauth Ha Hs Ht Hok Hjson login Hok2 Hjson2 run r.
  destruct (@readme_is_best_effort env sv tok login repo (after_profile token tok w)
              Hok2 Hjson2) as (readme & w' & F & _ & Hr).
  fold r in Hr. cbn zeta in Hr.
  assert (run = (json (standardResponse true
                         (Some {| ProfileRepoRoute.name := repo_name repo;
                                  ProfileRepoRoute.description := repo_description repo;
                                  ProfileRepoRoute.stars := repo_stargazers_count repo;
                                  ProfileRepoRoute.updated_at := repo_updated_at repo;
                                  ProfileRepoRoute.html_url := repo_html_url repo;
                                  ProfileRepoRoute.readme_content := readme |})
                         200 None) None, w')) as R.
  { subst run. unfold ProfileRepoRoute.GET, try_catch, ProfileRepoRoute.GET_body.
    unfold bind at 1. rewrite (assertSupabaseUser_ok w Hauth).
    unfold bind at 1.
    rewrite (@getGithubTokenForUser_ok env (uid user) (log (EvGetUser token) w) tok
               Ha Hs Ht).
    unfold bind at 1. unfold fetchGithubUser.
    rewrite (@githubRequest_ok _ env (gh_user env) "/user" tok _ profile Hok Hjson).
    unfold bind at 1. fold login. unfold after_profile in F. rewrite F. reflexivity. }
  exists readme. rewrite R. cbn [fst]. split; [repeat split|].
  split; [|split].
  - intros Hbad. destruct readme as [text|]; [|reflexivity].
    destruct (Hr text eq_refl) as [Hgood _]. congruence.
  - intros Hbad. destruct readme as [text|]; [|reflexivity].
    destruct (Hr text eq_refl) as (_ & body & Hb & _). congruence.
  - intros text Htext. destruct (Hr text Htext) as (_ & body & Hb & Hd).
    exists body. split; assumption.
Qed.

(** octocat/octocat exists but its README answers 404. *)
Lemma profile_repo_readme_is_optional_witness :
  exists readme,
    data (body (fst (ProfileRepoRoute.GET Demo.env Demo.sv (Sample.request "jwt-alice" None)
                       Sample.w0)))
    = Some {| ProfileRepoRoute.name := "Hello-World";
              ProfileRepoRoute.description := Some "My first repository";
              ProfileRepoRoute.stars := Some 3;
              ProfileRepoRoute.updated_at := Some "2011-01-26T19:14:43Z";
              ProfileRepoRoute.html_url := "https://github.com/octocat/Hello-World";
              ProfileRepoRoute.readme_content := readme |}
    /\ readme = None.
Proof.
  destruct (@profile_repo_readme_is_optional Demo.env Demo.sv
              (Sample.request "jwt-alice" None) Sample.w0 "jwt-alice" Sample.alice
              "gho_good" Sample.octocat (Sample.hello_world 3))
    as (readme & (_ & _ & D) & N & _).
  - repeat split.
  - reflexivity.
  - reflexivity.
  - reflexivity.
  - reflexivity.
  - reflexivity.
  - reflexivity.
  - reflexivity.
  - exists readme. split; [exact D|]. apply N. reflexivity.
Defined.

(** X20.  The repository picker.  Without a [full_name] parameter, or with
    an empty one, the route lists the caller's repositories from
    [/user/repos], one entry per upstream repository and in upstream order,
    the three counters defaulting to 0.  An entry's id and counters are the
    ones an import of that repository would store. *)
Theorem repos_listing_mirrors_upstream env sv req w token user tok repos :
  authenticated env req token user ->
  answers env t_user_tokens v_select ->
  select_github_token (uid user) (db w) = DbOk (Some (Some tok)) ->
  Str.truthy tok = true ->
  Str.nullish (assoc "full_name" (searchParams req)) "" = "" ->
  let url := GITHUB_API ++ "/user/repos?per_page=100&sort=updated" in
  resp_ok (gh_repos sv url tok) = true ->
  resp_json (gh_repos sv url tok) = Some repos ->
  let run := ReposRoute.GET env sv req w in
  exists entries,
    answers_with (fst run) (ReposRoute.Many entries)
    /\ map ReposRoute.gr_id entries = map repo_id repos
    /\ Forall2 (fun e repo =>
                  forall full_name,
                    let record := ProjectsRoute.import_record env user full_name repo in
                    ReposRoute.gr_id e = github_repo_id record
                    /\ ReposRoute.gr_stargazers_count e = stars record
                    /\ ReposRoute.gr_forks_count e = forks record
                    /\ ReposRoute.gr_watchers_count e = watchers record)
               entries repos
    /\ issued w (snd run)
       = [EvGetUser token; EvQuery t_user_tokens v_select; EvFetch url tok].
Proof.
  intros Hauth Ha Hs Ht Hparam url Hok Hjson run.
  assert (run = (json (standardResponse true
                         (Some (ReposRoute.Many (map ReposRoute.mapRepo repos))) 200 None)
                      None,
                 log (EvFetch url tok)
                   (log (EvQuery t_user_tokens v_select) (log (EvGetUser token) w)))) as R.
  { subst run. unfold ReposRoute.GET, try_catch, ReposRoute.GET_body.
    unfold bind at 1. rewrite (assertSupabaseUser_ok w Hauth).
    unfold bind at 1.
    rewrite (@getGithubTokenForUser_ok env (uid user) (log (EvGetUser token) w) tok
               Ha Hs Ht).
    rewrite Hparam. cbn [Str.truthy].
    unfold bind at 1. unfold fetchGithubUserRepos.
    rewrite (@githubRequest_ok _ env (gh_repos sv) "/user/repos?per_page=100&sort=updated"
               tok _ repos Hok Hjson).
    reflexivity. }
  exists (map ReposRoute.mapRepo repos).
  rewrite R. cbn [fst snd]. split; [repeat split|]. split; [|split].
  - rewrite map_map. reflexivity.
  - clear. induction repos as [|repo rest IH]; cbn; constructor; [|exact IH].
    intros full_name. repeat split.
  - norm_issued. reflexivity.
Qed.

(** Alice opens the picker with an empty [full_name] parameter. *)
Lemma repos_listing_mirrors_upstream_witness :
  exists entries,
    answers_with (fst (ReposRoute.GET Sample.env Demo.sv Demo.picker Sample.w0))
                 (ReposRoute.Many entries)
    /\ map ReposRoute.gr_id entries = [1296269].
Proof.
  destruct (@repos_listing_mirrors_upstream Sample.env Demo.sv Demo.picker Sample.w0
              "jwt-alice" Sample.alice "gho_good" [Sample.hello_world 80])
    as (entries & A & I & _).
  - repeat split.
  - reflexivity.
  - reflexivity.
  - reflexivity.
  - reflexivity.
  - reflexivity.
  - reflexivity.
  - exists entries. split; [exact A|exact I].
Defined.

(** X21.  With a non-empty [full_name] parameter the picker fetches that one
    repository, [/repos/<full_name>], with the caller's token.  The name is
    passed on as given: the owner/repository pattern the import route
    enforces is not checked here. *)
Theorem repos_single_lookup_is_unvalidated env sv req w token user tok full_name repo :
  authenticated env req token user ->
  answers env t_user_tokens v_select ->
  select_github_token (uid user) (db w) = DbOk (Some (Some tok)) ->
  Str.truthy tok = true ->
  assoc "full_name" (searchParams req) = Some full_name ->
  full_name <> "" ->
  let url := GITHUB_API ++ "/repos/" ++ full_name in
  resp_ok (gh_repo env url tok) = true ->
  resp_json (gh_repo env url tok) = Some repo ->
  let run := ReposRoute.GET env sv req w in
  answers_with (fst run) (ReposRoute.One (ReposRoute.mapRepo repo))
  /\ issued w (snd run)
     = [EvGetUser token; EvQuery t_user_tokens v_select; EvFetch url tok].
Proof.
  intros Hauth Ha Hs Ht Hparam Hne url Hok Hjson run.
  assert (run = (json (standardResponse true
                         (Some (ReposRoute.One (ReposRoute.mapRepo repo))) 200 None)
                      None,
                 log (EvFetch url tok)
                   (log (EvQuery t_user_tokens v_select) (log (EvGetUser token) w)))) as R.
  { subst run. unfold ReposRoute.GET, try_catch, ReposRoute.GET_body.
    unfold bind at 1. rewrite (assertSupabaseUser_ok w Hauth).
    unfold bind at 1.
    rewrite (@getGithubTokenForUser_ok env (uid user) (log (EvGetUser token) w) tok
               Ha Hs Ht).
    rewrite Hparam. cbn [Str.nullish].
    destruct full_name as [|c rest]; [contradiction|]. cbn [Str.truthy].
    unfold bind at 1. unfold fetchRepoByFullName.
    rewrite (@githubRequest_ok _ env (gh_repo env) ("/repos/" ++ String c rest)
               tok _ repo Hok Hjson).
    reflexivity. }
  rewrite R. cbn [fst snd]. split; [repeat split|]. norm_issued. reflexivity.
Qed.

(** A name with two slashes, which the import schema rejects, is looked up. *)
Lemma repos_single_lookup_is_unvalidated_witness :
  answers_with (fst (ReposRoute.GET Demo.env_deep Demo.sv Demo.picker_deep Sample.w0))
               (ReposRoute.One (ReposRoute.mapRepo (Sample.hello_world 80)))
  /\ ProjectsRoute.importSchema
       (JObj [("repository_full_name", JStr "octocat/Hello-World/tree")]) = None.
Proof.
  split; [|reflexivity].
  apply (@repos_single_lookup_is_unvalidated Demo.env_deep Demo.sv Demo.picker_deep
           Sample.w0 "jwt-alice" Sample.alice "gho_good" "octocat/Hello-World/tree"
           (Sample.hello_world 80)).
  - repeat split.
  - reflexivity.
  - reflexivity.
  - reflexivity.
  - reflexivity.
  - discriminate.
  - reflexivity.
  - reflexivity.
Defined.

(** X22.  After a token was stored, and with GitHub answering as it did
    then, the GitHub user route shows the caller the identity that was
    written to the caller's [user_tokens] row: same GitHub id, login, email,
    avatar and profile URL.  The route itself reads the token and writes
    nothing. *)
Theorem user_route_shows_stored_identity
    env req w token user j provider_token profile req2 token2 :
  authenticated env req token user ->
  body_json req = Some j ->
  StoreGithubTokenRoute.payloadSchema j = Some provider_token ->
  resp_ok (gh_user env (GITHUB_API ++ "/user") provider_token) = true ->
  resp_json (gh_user env (GITHUB_API ++ "/user") provider_token) = Some profile ->
  answers env t_user_tokens v_upsert ->
  answers env t_user_tokens v_select ->
  NoDup (map token_user_id (user_tokens (db w))) ->
  authenticated env req2 token2 user ->
  let stored := StoreGithubTokenRoute.POST env req w in
  let run := UserRoute.GET env req2 (snd stored) in
  exists row payload,
    filter (fun t => String.eqb (token_user_id t) (uid user))
           (user_tokens (db (snd stored))) = [row]
    /\ answers_with (fst run) payload
    /\ UserRoute.github_id payload = token_github_id row
    /\ UserRoute.username payload = token_username row
    /\ UserRoute.email payload = token_email row
    /\ UserRoute.avatar_url payload = token_avatar_url row
    /\ UserRoute.html_url payload = token_profile_url row
    /\ db (snd run) = db (snd stored).
Proof.
  intros Hauth Hj Hs Hok Hjson Hu Ha Hn Hauth2 stored run.
  set (record := StoreGithubTokenRoute.token_record env user provider_token profile).
  assert (db (snd stored) = snd (StoreGithubTokenRoute.upsert_token record (db w))) as D.
  { subst stored.
    unfold StoreGithubTokenRoute.POST, try_catch, StoreGithubTokenRoute.POST_body.
    unfold bind at 1. rewrite (assertSupabaseUser_ok w Hauth).
    unfold bind at 1. unfold request_json. rewrite Hj. unfold ret at 1.
    rewrite Hs. unfold bind at 1.
    unfold fetchGithubUser, githubRequest, bind at 1, emit.
    rewrite Hok, Hjson. cbn [negb]. unfold ret at 1.
    unfold bind, query. rewrite Hu. reflexivity. }
  destruct (upsert_token_rows record (user_tokens (db w)) Hn) as (F1 & _ & _).
  cbn zeta in F1.
  assert (filter (fun t => String.eqb (token_user_id t) (uid user))
            (user_tokens (db (snd stored))) = [record]) as F by (rewrite D; exact F1).
  assert (select_github_token (uid user) (db (snd stored))
          = DbOk (Some (Some provider_token))) as Hsel.
  { unfold select_github_token. rewrite F. reflexivity. }
  assert (run = (json (standardResponse true
                         (Some {| UserRoute.github_id := ghu_id profile;
                                  UserRoute.username := ghu_login profile;
                                  UserRoute.email := ghu_email profile;
                                  UserRoute.avatar_url := ghu_avatar_url profile;
                                  UserRoute.html_url := ghu_html_url profile;
                                  UserRoute.updated_at := ghu_updated_at profile |})
                         200 None) None,
                 after_profile token2 provider_token (snd stored))) as R.
  { subst run. unfold UserRoute.GET, try_catch, UserRoute.GET_body.
    unfold bind at 1. rewrite (assertSupabaseUser_ok (snd stored) Hauth2).
    unfold bind at 1.
    rewrite (@getGithubTokenForUser_ok env (uid user) (log (EvGetUser token2) (snd stored))
               provider_token Ha Hsel (payloadSchema_nonempty _ Hs)).
    unfold bind at 1. unfold fetchGithubUser.
    rewrite (@githubRequest_ok _ env (gh_user env) "/user" provider_token _ profile
               Hok Hjson).
    reflexivity. }
  eexists record, _. split; [exact F|]. rewrite R. cbn [fst snd].
  split; [repeat split|]. repeat split.
Qed.

(** Bob stores a token and then asks who he is on GitHub. *)
Lemma user_route_shows_stored_identity_witness :
  let stored := StoreGithubTokenRoute.POST Sample.env
                  (Sample.request "jwt-bob"
                     (Some (JObj [("provider_token", JStr "gho_good")])))
                  Sample.w0 in
  exists row payload,
    filter (fun t => String.eqb (token_user_id t) "bob") (user_tokens (db (snd stored)))
    = [row]
    /\ answers_with (fst (UserRoute.GET Sample.env (Sample.request "jwt-bob" None)
                            (snd stored))) payload
    /\ UserRoute.username payload = token_username row.
Proof.
  intros stored.
  destruct (@user_route_shows_stored_identity Sample.env
              (Sample.request "jwt-bob" (Some (JObj [("provider_token", JStr "gho_good")])))
              Sample.w0 "jwt-bob" Sample.bob
              (JObj [("provider_token", JStr "gho_good")]) "gho_good" Sample.octocat
              (Sample.request "jwt-bob" None) "jwt-bob")
    as (row & payload & F & A & _ & U & _).
  - repeat split.
  - reflexivity.
  - reflexivity.
  - reflexivity.
  - reflexivity.
  - reflexivity.
  - reflexivity.
  - repeat constructor; cbn; intuition discriminate.
  - repeat split.
  - exists row, payload. split; [exact F|]. split; [exact A|exact U].
Defined.

(** ** Role promotion *)

Lemma promote_profile_promotes userId d :
  promotes userId d (snd (promote_profile userId d)).
Proof.
  unfold promotes, promote_profile. cbn [snd profiles user_tokens projects
    project_documentation project_documents storage].
  split; [|split; [|split; [|repeat split]]].
  - rewrite map_map. apply map_ext. intros p.
    destruct (String.eqb (profile_id p) userId); reflexivity.
  - intros p Hin Hid. apply in_map_iff in Hin as (q & Hq & _).
    destruct (String.eqb (profile_id q) userId) eqn:E; subst p; [reflexivity|].
    apply String.eqb_neq in E. contradiction.
  - induction (profiles d) as [|q rest IH]; cbn; [reflexivity|].
    destruct (String.eqb (profile_id q) userId) eqn:E; cbn; rewrite E; cbn.
    + exact IH.
    + rewrite IH. reflexivity.
Qed.

Lemma promoted_run env userId w :
  answers env t_profiles v_update ->
  promoted env userId w
  = (Ok {| plain_status := 200; plain_success := true;
           plain_message := Some ("User " ++ userId ++ " set to expert");
           plain_error := None |},
     {| db := snd (promote_profile userId (db w));
        trace := trace (log (EvQuery t_profiles v_update) w) |}).
Proof.
  intros Ha. unfold promoted, bind, query. rewrite Ha. reflexivity.
Qed.

(** X23.  The promote-by-id route performs no session check: whatever the
    request's authorization header, a body that names a user (a UUID
    [user_id], or any non-empty string as [id]) gets every profile with that
    id the expert role.  The only outbound call is the update itself; the
    answer is 200 also when no profile has that id. *)
Theorem promote_by_id_needs_no_session env is_uuid req w j u i userId :
  body_json req = Some j ->
  PromoteRoute.bodySchema is_uuid j = Some (u, i) ->
  match u with Some x => Some x | None => i end = Some userId ->
  userId <> "" ->
  answers env t_profiles v_update ->
  let run := PromoteRoute.POST env is_uuid req w in
  plain_status (fst run) = 200
  /\ plain_success (fst run) = true
  /\ plain_message (fst run) = Some ("User " ++ userId ++ " set to expert")
  /\ issued w (snd run) = [EvQuery t_profiles v_update]
  /\ promotes userId (db w) (db (snd run)).
Proof.
  intros Hj Hs Hid Hne Ha run.
  assert (run = (({| plain_status := 200; plain_success := true;
                     plain_message := Some ("User " ++ userId ++ " set to expert");
                     plain_error := None |}),
                 {| db := snd (promote_profile userId (db w));
                    trace := trace (log (EvQuery t_profiles v_update) w) |})) as R.
  { subst run. unfold PromoteRoute.POST, promote_catch, PromoteRoute.POST_body.
    unfold bind at 1. unfold request_json. rewrite Hj. unfold ret at 1.
    rewrite Hs, Hid. cbn [Str.nullish].
    destruct userId as [|c rest]; [contradiction|]. cbn [Str.truthy negb].
    rewrite (promoted_run _ _ Ha). reflexivity. }
  rewrite R. cbn [fst snd db].
  split; [reflexivity|]. split; [reflexivity|]. split; [reflexivity|].
  split; [norm_issued; reflexivity|apply promote_profile_promotes].
Qed.

(** Alice is made an expert by a request that carries no credentials. *)
Lemma promote_by_id_needs_no_session_witness :
  let run := PromoteRoute.POST Sample.env Demo.no_uuid Demo.promote_alice Sample.w0 in
  plain_status (fst run) = 200
  /\ is_expert (match select_profile "alice" (db (snd run)) with
                | DbOk row => row
                | DbErr _ => None
                end) = true.
Proof.
  intros run.
  destruct (@promote_by_id_needs_no_session Sample.env Demo.no_uuid Demo.promote_alice
              Sample.w0 (JObj [("id", JStr "alice")]) None (Some "alice") "alice")
    as (S & _).
  - reflexivity.
  - reflexivity.
  - reflexivity.
  - discriminate.
  - reflexivity.
  - split; [exact S|reflexivity].
Defined.

(** X24.  What the promote-by-id route refuses: a body naming nobody gets
    400 "user_id is required", and a body the schema rejects (a [user_id]
    that is no UUID) gets 500 with the validation text.  In both cases
    nothing is called and nothing is written. *)
Theorem promote_by_id_rejections env is_uuid req w j :
  body_json req = Some j ->
  let run := PromoteRoute.POST env is_uuid req w in
  (PromoteRoute.bodySchema is_uuid j = None ->
   plain_status (fst run) = 500 /\ plain_success (fst run) = false
   /\ plain_error (fst run) = Some (zod_message env) /\ snd run = w)
  /\ (forall u i,
        PromoteRoute.bodySchema is_uuid j = Some (u, i) ->
        Str.nullish (match u with Some x => Some x | None => i end) "" = "" ->
        plain_status (fst run) = 400 /\ plain_success (fst run) = false
        /\ plain_error (fst run) = Some "user_id is required" /\ snd run = w).
Proof.
  intros Hj run. split.
  - intros Hs.
    assert (run = ({| plain_status := 500; plain_success := false;
                      plain_message := None; plain_error := Some (zod_message env) |}, w))
      as ->; [|repeat split].
    subst run. unfold PromoteRoute.POST, promote_catch, PromoteRoute.POST_body.
    unfold bind at 1. unfold request_json. rewrite Hj. unfold ret at 1.
    rewrite Hs. reflexivity.
  - intros u i Hs Hn.
    assert (run = ({| plain_status := 400; plain_success := false;
                      plain_message := None;
                      plain_error := Some "user_id is required" |}, w))
      as ->; [|repeat split].
    subst run. unfold PromoteRoute.POST, promote_catch, PromoteRoute.POST_body.
    unfold bind at 1. unfold request_json. rewrite Hj. unfold ret at 1.
    rewrite Hs, Hn. reflexivity.
Qed.

(** An empty object names nobody. *)
Lemma promote_by_id_rejections_witness :
  plain_status (fst (PromoteRoute.POST Sample.env Demo.no_uuid
                       (Sample.request "jwt-alice" (Some (JObj []))) Sample.w0)) = 400.
Proof.
  destruct (@promote_by_id_rejections Sample.env Demo.no_uuid
              (Sample.request "jwt-alice" (Some (JObj []))) Sample.w0 (JObj []))
    as (_ & B).
  - reflexivity.
  - destruct (B None None) as (S & _); [reflexivity|reflexivity|exact S].
Defined.

(** Without a request there is no header to read a token from, so the
    session check always ends in the [headers()] call. *)
Lemma assertSupabaseUser_without_request env w :
  assertSupabaseUser env None w
  = (Throw {| err_class := TypeError;
              err_message := "headerList.get is not a function";
              err_status := None |}, w).
Proof.
  unfold assertSupabaseUser, getTokenFromRequest.
  unfold bind at 1. unfold bind at 1. unfold headerList_get, throw. reflexivity.
Qed.

(** X25.  Self-promotion never succeeds.  The route calls the session check
    without a request, so the bearer token can only come from [headers()];
    that call is not awaited and throws, and the route's catch block turns
    the TypeError into a 500.  Whatever credentials the caller sends, the
    answer is that 500, no call is made and no profile changes. *)
Theorem promote_self_never_succeeds env w :
  PromoteSelfRoute.POST env w
  = ({| plain_status := 500; plain_success := false; plain_message := None;
        plain_error := Some "headerList.get is not a function" |}, w).
Proof.
  unfold PromoteSelfRoute.POST, promote_catch, PromoteSelfRoute.POST_body, bind.
  rewrite assertSupabaseUser_without_request. reflexivity.
Qed.

(** ** The routes that read [params.id] without awaiting [params] *)



(** ** The routing proxy *)

(** X27.  The proxy redirects in two cases only: a visitor without session
    is sent to ["/"], a signed-in user to ["/dashboard"].  The page a
    redirect leads to is let through for the same visitor, so no request is
    redirected twice; the two authentication pages are let through for
    everybody. *)
Theorem proxy_redirects_settle user url to :
  Proxy.proxy user url = Proxy.Redirect to ->
  ((user = None /\ to = "/") \/ (user <> None /\ to = "/dashboard"))
  /\ Proxy.pathname url <> "/auth/callback"
  /\ Proxy.pathname url <> "/auth/error"
  /\ Proxy.proxy user {| Proxy.pathname := to; Proxy.hash := Proxy.hash url |}
     = Proxy.Next.
Proof.
  unfold Proxy.proxy. cbn [Proxy.pathname Proxy.hash].
  destruct (String.eqb (Proxy.pathname url) "/auth/callback") eqn:E1;
    [cbn; discriminate|].
  destruct (String.eqb (Proxy.pathname url) "/auth/error") eqn:E2;
    [cbn; discriminate|].
  apply String.eqb_neq in E1, E2. cbn [orb].
  destruct user as [u|]; cbn [andb].
  - destruct (String.eqb (Proxy.pathname url) "/" && _); [|discriminate].
    intros [= <-]. split; [right; split; [discriminate|reflexivity]|].
    split; [exact E1|]. split; [exact E2|]. reflexivity.
  - destruct (negb _); [|cbn; discriminate].
    intros [= <-]. split; [left; split; reflexivity|].
    split; [exact E1|]. split; [exact E2|]. reflexivity.
Qed.

(** A visitor without session asks for the dashboard. *)
Lemma proxy_redirects_settle_witness :
  Proxy.proxy None {| Proxy.pathname := "/"; Proxy.hash := "" |} = Proxy.Next.
Proof.
  apply (@proxy_redirects_settle None
           {| Proxy.pathname := "/dashboard"; Proxy.hash := "" |} "/").
  reflexivity.
Defined.

(** X28.  For a signed-in user the proxy lets a request through exactly
    when its path is not ["/"] or its URL fragment contains "access_token";
    every other request, so every request for ["/"] whose fragment is empty,
    is redirected to ["/dashboard"]. *)
Theorem proxy_signed_in_routing u url :
  (Proxy.proxy (Some u) url = Proxy.Next
   <-> Proxy.pathname url <> "/"
       \/ Str.includes (Proxy.hash url) "access_token" = true)
  /\ (Proxy.proxy (Some u) url <> Proxy.Next ->
      Proxy.proxy (Some u) url = Proxy.Redirect "/dashboard")
  /\ (Proxy.pathname url = "/" -> Proxy.hash url = "" ->
      Proxy.proxy (Some u) url = Proxy.Redirect "/dashboard").
Proof.
  assert (Str.truthy (Proxy.hash url) && Str.includes (Proxy.hash url) "access_token"
          = Str.includes (Proxy.hash url) "access_token") as Hh.
  { destruct (Proxy.hash url); reflexivity. }
  unfold Proxy.proxy. rewrite Hh. cbn [andb].
  destruct (String.eqb (Proxy.pathname url) "/") eqn:E.
  - apply String.eqb_eq in E. rewrite E. cbn [String.eqb Ascii.eqb Bool.eqb orb andb].
    destruct (Str.includes (Proxy.hash url) "access_token") eqn:I; cbn [negb].
    + split; [split; auto|]. split; [intros H; contradiction|].
      intros _ Hempty. rewrite Hempty in I. discriminate.
    + split; [split; [discriminate|intros [H|H]; [contradiction|discriminate]]|].
      split; reflexivity.
  - apply String.eqb_neq in E.
    destruct (String.eqb (Proxy.pathname url) "/auth/callback"
              || String.eqb (Proxy.pathname url) "/auth/error").
    + split; [split; auto|]. split; [intros H; contradiction|].
      intros H. contradiction.
    + split; [split; auto|]. split; [intros H; contradiction|].
      intros H. contradiction.
Qed.

(** Alice, signed in, asks for the home page. *)
Lemma proxy_signed_in_routing_witness :
  Proxy.proxy (Some Sample.alice) {| Proxy.pathname := "/"; Proxy.hash := "" |}
  = Proxy.Redirect "/dashboard".
Proof.
  destruct (@proxy_signed_in_routing Sample.alice
              {| Proxy.pathname := "/"; Proxy.hash := "" |}) as (_ & _ & H).
  apply H; reflexivity.
Defined.

(** ** The client side of the envelope *)

(** X29.  [parseStandardResponse] on a body that obeys the envelope: a
    success gives the caller the data, a failure throws the server's own
    error text, which is never empty; the client's fallback text is not
    used. *)
Theorem client_reads_envelope {T} (r : NextResponse T) :
  well_formed r ->
  (success (body r) = true ->
   exists d, parseStandardResponse (Some (body r)) = inr (Some d)
             /\ data (body r) = Some d)
  /\ (success (body r) = false ->
      exists m, parseStandardResponse (Some (body r)) = inl m
                /\ error (body r) = Some m /\ m <> "").
Proof.
  intros (_ & Hs & Hf). unfold parseStandardResponse. split; intros E; rewrite E.
  - destruct (Hs E) as (_ & Hd).
    destruct (data (body r)) as [d|]; [|contradiction]. exists d. split; reflexivity.
  - destruct (Hf E) as (_ & m & Hm & Hne). exists m. rewrite Hm.
    split; [reflexivity|]. split; [reflexivity|exact Hne].
Qed.

(** The client on the answer to a request without credentials. *)
Lemma client_reads_envelope_witness :
  parseStandardResponse
    (Some (body (fst (SessionRoute.GET Sample.env Demo.promote_carol Sample.w0))))
  = inl "headerList.get is not a function".
Proof.
  destruct (@client_reads_envelope _
              (fst (SessionRoute.GET Sample.env Demo.promote_carol Sample.w0)))
    as (_ & F).
  - split; [reflexivity|]. split; [discriminate|].
    intros _. split; [reflexivity|].
    exists "headerList.get is not a function". split; [reflexivity|discriminate].
  - destruct (F eq_refl) as (m & P & E & _).
    rewrite P. f_equal. vm_compute in E. congruence.
Defined.

(** ** The colour scale of the contribution graph *)

(** X30.  The palette always has five colours: the caller's colours first,
    at most five of them, and the default scale in the positions the caller
    left open.  A cell of level 0 or more is painted with a colour of the
    palette, levels past the last one with the last colour. *)
Theorem palette_has_five_colours colors :
  let pal := ContributionGraph.palette colors in
  List.length pal = 5%nat
  /\ firstn (List.length colors) pal = firstn 5 colors
  /\ skipn (List.length colors) pal
     = skipn (List.length colors) ContributionGraph.DEFAULT_CONTRIBUTION_COLORS
  /\ (forall level, 0 <= level -> In (ContributionGraph.cell_color pal level) pal)
  /\ (forall level, 4 <= level ->
        ContributionGraph.cell_color pal level = ContributionGraph.cell_color pal 4).
Proof.
  intros pal.
  assert (exists a b c d e, pal = [a; b; c; d; e]) as (a & b & c & d & e & Hp).
  { subst pal. destruct colors as [|a [|b [|c [|d [|e rest]]]]]; cbn;
      do 5 eexists; reflexivity. }
  split; [rewrite Hp; reflexivity|].
  split; [|split; [|split]].
  - subst pal. destruct colors as [|x1 [|x2 [|x3 [|x4 [|x5 rest]]]]]; try reflexivity.
    unfold ContributionGraph.palette. cbn [List.length Nat.eqb Nat.leb
      ContributionGraph.DEFAULT_CONTRIBUTION_COLORS firstn].
    rewrite firstn_nil. reflexivity.
  - subst pal. destruct colors as [|x1 [|x2 [|x3 [|x4 [|x5 rest]]]]]; reflexivity.
  - intros level Hl. rewrite Hp. unfold ContributionGraph.cell_color.
    cbn [List.length]. change (Z.of_nat 5 - 1) with 4.
    assert (Z.min level 4 = 0 \/ Z.min level 4 = 1 \/ Z.min level 4 = 2
            \/ Z.min level 4 = 3 \/ Z.min level 4 = 4) as H by lia.
    destruct H as [-> | [-> | [-> | [-> | ->]]]]; cbn; auto 6.
  - intros level Hl. rewrite Hp. unfold ContributionGraph.cell_color.
    cbn [List.length]. change (Z.of_nat 5 - 1) with 4.
    rewrite !Z.min_r by lia. reflexivity.
Qed.
